(** * Church-year calendar of the Kirkkovuosi API: computus, calendar
      generation and date resolution.

    The development embeds [services/computus.js] (Easter date, date
    helpers, [generateChurchYear], [getYearCycle], [getChurchYearStart]) and
    the date resolver of [services/resolver.js] ([resolveDate],
    [prioritizeEntries], [findPrecedingSunday]).

    A JavaScript [Date] built by [makeDate] sits at midnight UTC, and every
    operation of the program keeps it there, so a date is modelled by its
    day number: the number of days since 1970-01-01 (the time value divided
    by 86400000).  Numbers are exact integers: the rounding of doubles and
    the end of the time range of [Date] (years beyond +-270000) are outside
    the model. *)

From Stdlib Require Import ZArith Lia List Bool String Ascii Permutation.
From Stdlib Require Import Sorted DecimalString DecimalPos.
Import ListNotations.
Open Scope string_scope.
Open Scope Z_scope.

(** ** Day arithmetic of ECMA-262 (section "Time Values and Time Range") *)

Module Ecma.

(** [DayFromYear y]: day number of January 1st of year [y]. *)
Definition DayFromYear (y : Z) : Z :=
  365 * (y - 1970) + (y - 1969) / 4 - (y - 1901) / 100 + (y - 1601) / 400.

Definition InLeapYear (y : Z) : Z :=
  if ((y mod 4 =? 0) && negb (y mod 100 =? 0)) || (y mod 400 =? 0)
  then 1 else 0.

(** [YearFromTime]: the largest year whose first day is not after [t].  The
    estimate by the mean year length is off by at most one. *)
Definition YearFromDay (t : Z) : Z :=
  let y0 := 1970 + (t * 400) / 146097 in
  if DayFromYear (y0 + 1) <=? t then y0 + 1
  else if t <? DayFromYear y0 then y0 - 1
  else y0.

Definition DayWithinYear (t : Z) : Z := t - DayFromYear (YearFromDay t).

(** First day (within the year) of month [m], 0 = January. *)
Definition MonthStart (leap m : Z) : Z :=
  if m =? 0 then 0
  else if m =? 1 then 31
  else if m =? 2 then 59 + leap
  else if m =? 3 then 90 + leap
  else if m =? 4 then 120 + leap
  else if m =? 5 then 151 + leap
  else if m =? 6 then 181 + leap
  else if m =? 7 then 212 + leap
  else if m =? 8 then 243 + leap
  else if m =? 9 then 273 + leap
  else if m =? 10 then 304 + leap
  else 334 + leap.

Definition MonthFromDay (t : Z) : Z :=
  let d := DayWithinYear t in
  let leap := InLeapYear (YearFromDay t) in
  if d <? 31 then 0
  else if d <? 59 + leap then 1
  else if d <? 90 + leap then 2
  else if d <? 120 + leap then 3
  else if d <? 151 + leap then 4
  else if d <? 181 + leap then 5
  else if d <? 212 + leap then 6
  else if d <? 243 + leap then 7
  else if d <? 273 + leap then 8
  else if d <? 304 + leap then 9
  else if d <? 334 + leap then 10
  else 11.

Definition DateFromDay (t : Z) : Z :=
  DayWithinYear t
  - MonthStart (InLeapYear (YearFromDay t)) (MonthFromDay t) + 1.

(** [WeekDay]: 0 = Sunday; 1970-01-01 was a Thursday. *)
Definition WeekDay (t : Z) : Z := (t + 4) mod 7.

(** [MakeDay year month date], month counted from 0 and carried into the
    year, the day of the month carried into the following days. *)
Definition MakeDay (year month date : Z) : Z :=
  let ym := year + month / 12 in
  let mn := month mod 12 in
  DayFromYear ym + MonthStart (InLeapYear ym) mn + date - 1.

(** [Date.UTC(year, month, date)]: a year from 0 to 99 means 1900 + year. *)
Definition FullYear (year : Z) : Z :=
  if (0 <=? year) && (year <=? 99) then 1900 + year else year.

Definition UTC (year month date : Z) : Z :=
  let yr := FullYear year in
  MakeDay yr month date.

End Ecma.

(** ** Computus: [services/computus.js] *)

Definition Date := Z.

(** [easterSunday], first the month and the day that it computes, then the
    date it makes of them.  JavaScript [%] is the truncated remainder;
    [Math.floor(x / n)] with a positive [n] is the floor quotient. *)
Definition easterSunday_month_day (year : Z) : Z * Z :=
  let a := Z.rem year 19 in
  let b := year / 100 in
  let c := Z.rem year 100 in
  let d := b / 4 in
  let e := Z.rem b 4 in
  let f := (b + 8) / 25 in
  let g := (b - f + 1) / 3 in
  let h := Z.rem (19 * a + b - d - g + 15) 30 in
  let i := c / 4 in
  let k := Z.rem c 4 in
  let l := Z.rem (32 + 2 * e + 2 * i - h - k) 7 in
  let m := (a + 11 * h + 22 * l) / 451 in
  let month := (h + l - 7 * m + 114) / 31 in
  let day := Z.rem (h + l - 7 * m + 114) 31 + 1 in
  (month, day).

Definition makeDate (year month day : Z) : Date :=
  Ecma.UTC year (month - 1) day.

Definition easterSunday (year : Z) : Date :=
  let '(month, day) := easterSunday_month_day year in
  makeDate year month day.

(** [setUTCDate(getUTCDate() + days)] on a copy of the date. *)
Definition addDays (date : Date) (days : Z) : Date :=
  Ecma.MakeDay (Ecma.YearFromDay date) (Ecma.MonthFromDay date)
               (Ecma.DateFromDay date + days).

Definition dayOfWeek (date : Date) : Z := Ecma.WeekDay date.

Definition nearestSunday (date : Date) : Date :=
  let dow := dayOfWeek date in
  if dow =? 0 then date
  else if dow <=? 3 then addDays date (- dow)
  else addDays date (7 - dow).

Definition sundayOnOrBefore (date : Date) : Date :=
  let dow := dayOfWeek date in
  addDays date (- dow).

Definition sundayOnOrAfter (date : Date) : Date :=
  let dow := dayOfWeek date in
  if dow =? 0 then date else addDays date (7 - dow).

Definition weekdayOnOrBefore (date : Date) (weekday : Z) : Date :=
  let dow := dayOfWeek date in
  let diff := Z.rem (dow - weekday + 7) 7 in
  addDays date (- diff).

Definition weekdayOnOrAfter (date : Date) (weekday : Z) : Date :=
  let dow := dayOfWeek date in
  let diff := Z.rem (weekday - dow + 7) 7 in
  addDays date diff.

Definition saturdayOnOrBefore (date : Date) : Date :=
  weekdayOnOrBefore date 6.

(** [formatDate] prints year, month and day of the month; month and day
    always take two digits, so two strings are equal exactly when the three
    numbers are.  The string is kept as the triple. *)
Definition DateStr := (Z * Z * Z)%type.

Definition formatDate (date : Date) : DateStr :=
  (Ecma.YearFromDay date, Ecma.MonthFromDay date + 1, Ecma.DateFromDay date).

Definition parseDate (str : DateStr) : Date :=
  let '(y, m, d) := str in makeDate y m d.

Definition dateStr_eqb (a b : DateStr) : bool :=
  let '(y1, m1, d1) := a in
  let '(y2, m2, d2) := b in
  (y1 =? y2) && (m1 =? m2) && (d1 =? d2).

Definition sameDay (a b : Date) : bool :=
  (Ecma.YearFromDay a =? Ecma.YearFromDay b)
  && (Ecma.MonthFromDay a =? Ecma.MonthFromDay b)
  && (Ecma.DateFromDay a =? Ecma.DateFromDay b).

Definition getYearCycle (churchYearStartYear : Z) : Z :=
  Z.rem churchYearStartYear 3 + 1.

Definition getUTCFullYear (date : Date) : Z := Ecma.YearFromDay date.

Definition getChurchYearStart (date : Date) : Z :=
  let year := getUTCFullYear date in
  let advent1ThisYear := nearestSunday (makeDate year 11 30) in
  if date <? advent1ThisYear then year - 1 else year.

(** ** Calendar entries *)

Inductive EntryType := sunday | feast | special | weekday | service.

Definition EntryType_eqb (a b : EntryType) : bool :=
  match a, b with
  | sunday, sunday | feast, feast | special, special
  | weekday, weekday | service, service => true
  | _, _ => false
  end.

Record CalendarEntry := mkEntry {
  date : Date;
  slug : string;
  name : string;
  type : EntryType;
  dateStr : DateStr
}.

(** The [add] helper of [generateChurchYear]. *)
Definition add (date : Date) (slug name : string) (type : EntryType)
  : CalendarEntry :=
  mkEntry date slug name type (formatDate date).

(** Template literal [`${n}...`]: the decimal digits of [n]. *)
Definition num (n : Z) : string := NilZero.string_of_int (Z.to_int n).

Definition addWeekdays (sunday : Date) (slug name : string)
  : list CalendarEntry :=
  map (fun d => mkEntry (addDays sunday d) slug name weekday
                        (formatDate (addDays sunday d)))
      [1; 2; 3; 4; 5; 6].

Definition sundayAfterInRange (after rangeStart rangeEnd : Date)
  : option Date :=
  let candidate := sundayOnOrAfter (addDays after 1) in
  if (rangeStart <=? candidate) && (candidate <=? rangeEnd)
  then Some candidate else None.

(** *** Stable sort

    [Array.prototype.sort] is stable, and with a comparator that orders by a
    key its result is the one stable sorted arrangement; insertion from the
    right computes it. *)
Section StableSort.
Context {A : Type} (cmp : A -> A -> Z).

Fixpoint insertBy (x : A) (l : list A) : list A :=
  match l with
  | [] => [x]
  | y :: l' => if 0 <? cmp x y then y :: insertBy x l' else x :: y :: l'
  end.

Definition sortBy (l : list A) : list A := fold_right insertBy [] l.
End StableSort.

(** ** Church calendar generation: [generateChurchYear]

    The entries are pushed section by section; each definition below is one
    section of the function body, in the order of the source. *)

Section Generation.
Variable startYear : Z.

(** Easter is in the next calendar year. *)
Definition easter : Date := easterSunday (startYear + 1).

Definition advent1 : Date := nearestSunday (makeDate startYear 11 30).

Definition adventEntries : list CalendarEntry :=
  [add advent1 "1-adventtisunnuntai" "1. adventtisunnuntai" sunday]
  ++ addWeekdays advent1 "1-adventtisunnuntain-jalkeinen-viikko"
                 "1. adventtisunnuntain jälkeinen viikko"
  ++ [add (addDays advent1 7) "2-adventtisunnuntai" "2. adventtisunnuntai"
          sunday;
      add (addDays advent1 14) "3-adventtisunnuntai" "3. adventtisunnuntai"
          sunday;
      add (addDays advent1 21) "4-adventtisunnuntai" "4. adventtisunnuntai"
          sunday].

Definition optionalSunday (d : option Date) (slug name : string)
  : list CalendarEntry :=
  match d with
  | Some d => [add d slug name sunday]
  | None => []
  end.

Definition christmasEntries : list CalendarEntry :=
  let christmas := makeDate startYear 12 25 in
  [add (makeDate startYear 12 24) "jouluaatto" "Jouluaatto" feast;
   add christmas "joulupaiva" "Joulupäivä" feast;
   add (makeDate startYear 12 26) "tapaninpaiva" "Tapaninpäivä" feast;
   add (makeDate startYear 12 27) "apostoli-johanneksen-paiva"
       "Apostoli Johanneksen päivä" feast;
   add (makeDate startYear 12 28) "viattomien-lasten-paiva"
       "Viattomien lasten päivä" feast]
  ++ optionalSunday
       (sundayAfterInRange christmas (makeDate startYear 12 27)
                           (makeDate (startYear + 1) 1 2))
       "1-sunnuntai-joulusta" "1. sunnuntai joulusta"
  ++ [add (makeDate startYear 12 31) "uudenvuodenaatto" "Uudenvuodenaatto"
          feast;
      add (makeDate (startYear + 1) 1 1) "uudenvuodenpaiva"
          "Uudenvuodenpäivä" feast]
  ++ optionalSunday
       (sundayAfterInRange (makeDate (startYear + 1) 1 1)
                           (makeDate (startYear + 1) 1 2)
                           (makeDate (startYear + 1) 1 5))
       "2-sunnuntai-joulusta" "2. sunnuntai joulusta".

Definition epiphany : Date := makeDate (startYear + 1) 1 6.
Definition septuagesima : Date := addDays easter (-63).

(** The [while] loop of the Sundays after Epiphany.  The counter grows by
    one per round and the loop stops when it passes 6, so
    [7 - epiphanyCount] rounds of fuel are never used up. *)
Fixpoint epiphanyLoop (fuel : nat) (epiphanySunday : Date)
         (epiphanyCount : Z) : list CalendarEntry :=
  match fuel with
  | O => []
  | S fuel' =>
      if (epiphanySunday <? septuagesima) && (epiphanyCount <=? 6) then
        add epiphanySunday
            (num epiphanyCount ++ "-sunnuntai-loppiaisesta")
            (num epiphanyCount ++ ". sunnuntai loppiaisesta") sunday
        :: epiphanyLoop fuel' (addDays epiphanySunday 7)
                        (epiphanyCount + 1)
      else []
  end.

Definition epiphanyEntries : list CalendarEntry :=
  [add epiphany "loppiainen" "Loppiainen" feast]
  ++ epiphanyLoop (Z.to_nat (7 - 1)) (sundayOnOrAfter (addDays epiphany 1)) 1.

Definition preLentEntries : list CalendarEntry :=
  [add septuagesima "3-sunnuntai-ennen-paastonaikaa"
       "3. sunnuntai ennen paastonaikaa" sunday;
   add (addDays easter (-56)) "2-sunnuntai-ennen-paastonaikaa"
       "2. sunnuntai ennen paastonaikaa" sunday;
   add (addDays easter (-49)) "laskiaissunnuntai" "Laskiaissunnuntai"
       sunday].

Definition lentEntries : list CalendarEntry :=
  [add (addDays easter (-46)) "tuhkakeskiviikko" "Tuhkakeskiviikko" weekday]
  ++ map (fun i => add (addDays easter (-49 + i * 7))
                       (num i ++ "-paastonajan-sunnuntai")
                       (num i ++ ". paastonajan sunnuntai") sunday)
         [1; 2; 3; 4; 5].

Definition holyWeekEntries : list CalendarEntry :=
  [add (addDays easter (-7)) "palmusunnuntai" "Palmusunnuntai" sunday;
   add (addDays easter (-6)) "hiljaisen-viikon-maanantai"
       "Hiljaisen viikon maanantai" weekday;
   add (addDays easter (-5)) "hiljaisen-viikon-tiistai"
       "Hiljaisen viikon tiistai" weekday;
   add (addDays easter (-4)) "hiljaisen-viikon-keskiviikko"
       "Hiljaisen viikon keskiviikko" weekday;
   add (addDays easter (-3)) "kiirastorstai" "Kiirastorstai" feast;
   add (addDays easter (-2)) "pitkaperjantai" "Pitkäperjantai" feast;
   add (addDays easter (-2)) "jeesuksen-kuolinhetki"
       "Jeesuksen kuolinhetki" service;
   add (addDays easter (-2)) "pitkaperjantain-ilta" "Pitkäperjantain ilta"
       service;
   add (addDays easter (-1)) "hiljainen-lauantai" "Hiljainen lauantai"
       weekday].

Definition easterEntries : list CalendarEntry :=
  [add (addDays easter (-1)) "paasiaisyo" "Pääsiäisyö" service;
   add easter "paasiaispaiva" "Pääsiäispäivä" feast;
   add (addDays easter 1) "2-paasiaispaiva" "2. pääsiäispäivä" feast;
   add (addDays easter 2) "paasiaisen-jalkeinen-tiistai"
       "Pääsiäisen jälkeinen tiistai" weekday;
   add (addDays easter 3) "paasiaisen-jalkeinen-keskiviikko"
       "Pääsiäisen jälkeinen keskiviikko" weekday;
   add (addDays easter 4) "paasiaisen-jalkeinen-torstai"
       "Pääsiäisen jälkeinen torstai" weekday;
   add (addDays easter 5) "paasiaisen-jalkeinen-perjantai"
       "Pääsiäisen jälkeinen perjantai" weekday;
   add (addDays easter 6) "paasiaisen-jalkeinen-lauantai"
       "Pääsiäisen jälkeinen lauantai" weekday]
  ++ map (fun i => add (addDays easter (i * 7))
                       (num i ++ "-sunnuntai-paasiaisesta")
                       (num i ++ ". sunnuntai pääsiäisestä") sunday)
         [1; 2; 3; 4; 5; 6].

Definition ascension : Date := addDays easter 39.
Definition pentecost : Date := addDays easter 49.

Definition ascensionPentecostEntries : list CalendarEntry :=
  [add ascension "helatorstai" "Helatorstai" feast;
   add (addDays pentecost (-1)) "helluntaiaatto" "Helluntaiaatto" service;
   add pentecost "helluntaipaiva" "Helluntaipäivä" feast]
  ++ addWeekdays pentecost
       "helluntain-jalkeinen-viikko-eli-helluntaiviikko"
       "Helluntain jälkeinen viikko"
  ++ [add (addDays pentecost 7) "pyhan-kolminaisuuden-paiva"
          "Pyhän Kolminaisuuden päivä" sunday].

Definition nextAdvent1 : Date :=
  nearestSunday (makeDate (startYear + 1) 11 30).
Definition tuomiosunnuntai : Date := addDays nextAdvent1 (-7).
Definition valvomisenSunnuntai : Date := addDays nextAdvent1 (-14).

(** The [while] loop that collects [{date, number}] every seven days up to
    [tuomiosunnuntai]. *)
Fixpoint pentecostLoop (fuel : nat) (currentSunday : Date)
         (sundayNumber : Z) : list (Date * Z) :=
  match fuel with
  | O => []
  | S fuel' =>
      if currentSunday <=? tuomiosunnuntai then
        (currentSunday, sundayNumber)
        :: pentecostLoop fuel' (addDays currentSunday 7) (sundayNumber + 1)
      else []
  end.

(** Enough fuel: each round moves [currentSunday] seven days on. *)
Definition pentecostSundays : list (Date * Z) :=
  let currentSunday := addDays pentecost 14 in
  pentecostLoop (Z.to_nat (tuomiosunnuntai - currentSunday + 1))
                currentSunday 2.

(** One round of the [for] loop that names the numbered Sundays. *)
Definition pentecostEntry (total i : Z) (date : Date) : CalendarEntry :=
  let fromStart := i + 2 in
  let fromEnd := total - i in
  if fromEnd =? 1 then add date "tuomiosunnuntai" "Tuomiosunnuntai" sunday
  else if fromEnd =? 2 then
    add date "valvomisen-sunnuntai" "Valvomisen sunnuntai" sunday
  else if fromStart =? 6 then
    add date "apostolien-paiva" "Apostolien päivä" sunday
  else if fromStart =? 8 then
    add date "kirkastussunnuntai" "Kirkastussunnuntai" sunday
  else if fromStart =? 22 then
    add date "reformaation-paiva" "Reformaation päivä" sunday
  else
    add date (num fromStart ++ "-sunnuntai-helluntaista")
        (num fromStart ++ ". sunnuntai helluntaista") sunday.

Fixpoint pentecostFor (total i : Z) (l : list (Date * Z))
  : list CalendarEntry :=
  match l with
  | [] => []
  | (date, _) :: rest =>
      pentecostEntry total i date :: pentecostFor total (i + 1) rest
  end.

Definition pentecostSundayEntries : list CalendarEntry :=
  pentecostFor (Z.of_nat (List.length pentecostSundays)) 0 pentecostSundays.

Definition conditional (b : bool) (e : CalendarEntry)
  : list CalendarEntry :=
  if b then [e] else [].

Definition specialEntries : list CalendarEntry :=
  let annunciation := makeDate (startYear + 1) 3 25 in
  let juhannuspaiva := saturdayOnOrBefore (makeDate (startYear + 1) 6 26) in
  let mikkelTarget := makeDate (startYear + 1) 9 29 in
  let mikkelinpaiva := sundayOnOrAfter mikkelTarget in
  let pyhainpaiva := saturdayOnOrBefore (makeDate (startYear + 1) 11 6) in
  [add (makeDate (startYear + 1) 2 2) "kynttilanpaiva" "Kynttilänpäivä"
       special]
  ++ conditional
       ((annunciation <? addDays easter (-6))
        || (addDays easter 7 <? annunciation))
       (add annunciation "marian-ilmestyspaiva" "Marian ilmestyspäivä"
            special)
  ++ conditional
       (makeDate (startYear + 1) 6 20 <=? juhannuspaiva)
       (add juhannuspaiva "juhannuspaiva" "Juhannuspäivä" special)
  ++ conditional
       (mikkelinpaiva <=? makeDate (startYear + 1) 10 5)
       (add mikkelinpaiva "mikkelinpaiva" "Mikkelinpäivä" special)
  ++ conditional
       (makeDate (startYear + 1) 10 31 <=? pyhainpaiva)
       (add pyhainpaiva "pyhainpaiva" "Pyhäinpäivä" special)
  ++ [add (makeDate (startYear + 1) 1 19) "pyhan-henrikin-muistopaiva"
          "Pyhän Henrikin muistopäivä" special;
      add (makeDate (startYear + 1) 12 6) "itsenaisyyspaiva"
          "Itsenäisyyspäivä" special;
      add (makeDate (startYear + 1) 1 18) "kansalliset-rukouspaivat"
          "Kristittyjen ykseyden rukouspäivä" special;
      add (makeDate (startYear + 1) 10 24) "kansalliset-rukouspaivat"
          "Rauhan, ihmisoikeuksien ja kansainvälisen vastuun rukouspäivä"
          special].

(** The [entries] array just before the final sort. *)
Definition churchYearEntries : list CalendarEntry :=
  adventEntries ++ christmasEntries ++ epiphanyEntries ++ preLentEntries
  ++ lentEntries ++ holyWeekEntries ++ easterEntries
  ++ ascensionPentecostEntries ++ pentecostSundayEntries
  ++ specialEntries.

(** [entries.sort((a, b) => a.date - b.date)]. *)
Definition generateChurchYear : list CalendarEntry :=
  sortBy (fun a b => date a - date b) churchYearEntries.

End Generation.

(** ** Date resolver: [services/resolver.js] *)

(** [s.includes(pat)]. *)
Fixpoint includes (s pat : string) : bool :=
  String.prefix pat s
  || match s with
     | EmptyString => false
     | String _ s' => includes s' pat
     end.

(** [priority[type] || 9]; the five types all have an entry in the table. *)
Definition priority (t : EntryType) : Z :=
  match t with
  | feast => 1
  | special => 2
  | sunday => 3
  | weekday => 4
  | service => 5
  end.

Definition prioritizeEntries (entries : list CalendarEntry)
  : list CalendarEntry :=
  sortBy (fun a b => priority (type a) - priority (type b)) entries.

Definition findPrecedingSunday (calendar : list CalendarEntry) (d : Date)
  : option CalendarEntry :=
  fold_left
    (fun best entry =>
       if (EntryType_eqb (type entry) sunday
           || EntryType_eqb (type entry) feast)
          && (date entry <=? d)
       then match best with
            | None => Some entry
            | Some b => if date b <? date entry then Some entry else best
            end
       else best)
    calendar None.

Definition getDayOfWeekFi (d : Date) : string :=
  nth (Z.to_nat (Ecma.WeekDay d))
      ["sunnuntai"; "maanantai"; "tiistai"; "keskiviikko"; "torstai";
       "perjantai"; "lauantai"] "".

(** [calendarCache] memoises [generateChurchYear], which is a function of the
    start year alone, and no caller writes to a cached array; a lookup
    therefore yields what the generator yields. *)
Definition getCalendar (churchYearStart : Z) : list CalendarEntry :=
  generateChurchYear churchYearStart.

Record ChurchYear := mkChurchYear {
  start : Z;
  label : string;
  yearCycle : Z
}.

Section Resolver.
(** The holy-day records of [all-days.json] and the propers reach the
    result only inside enriched entries and through the [season] field;
    both are inputs here. *)
Variable Enriched : Type.
Variable enrichEntry : CalendarEntry -> Z -> Enriched.
Variable dataSeason : string -> option string.

Definition getSeason (entry : CalendarEntry) : option string :=
  let inferred :=
    let slug := slug entry in
    if includes slug "adventti" || includes slug "advent"
    then Some "Joulujakso"
    else if includes slug "joulu" || includes slug "christmas"
    then Some "Joulujakso"
    else if includes slug "loppiai" then Some "Joulujakso"
    else if includes slug "paasto" || includes slug "laskiai"
    then Some "Pääsiäisjakso"
    else if includes slug "hiljai" || includes slug "kiiras"
            || includes slug "pitkap" || includes slug "palmu"
    then Some "Pääsiäisjakso"
    else if includes slug "paasiai" then Some "Pääsiäisjakso"
    else if includes slug "helluntai" || includes slug "kolminai"
            || includes slug "helatorstai"
    then Some "Helluntaijakso"
    else if includes slug "shel" || includes slug "helluntaista"
    then Some "Helluntaijakso"
    else None in
  match dataSeason (slug entry) with
  | Some s => if String.eqb s "" then inferred else Some s
  | None => inferred
  end.

(** The object returned by [resolveDate].  A property that may be [null]
    is an [option]; a property that one branch does not set at all is an
    [option] whose [None] means that the object has no such property. *)
Record ResolvedDay := mkResolvedDay {
  rd_date : DateStr;
  rd_churchYear : ChurchYear;
  rd_holyDay : option Enriched;
  rd_precedingSunday : option (option Enriched);
  rd_additionalServices : option (list Enriched);
  rd_dayOfWeek : string;
  rd_season : option string
}.

Definition resolveDate (d : Date) : ResolvedDay :=
  let dateStr0 := formatDate d in
  let churchYearStart := getChurchYearStart d in
  let yearCycle := getYearCycle churchYearStart in
  let calendar := getCalendar churchYearStart in
  let matches := filter (fun e => dateStr_eqb (dateStr e) dateStr0) calendar in
  let churchYear :=
    mkChurchYear churchYearStart
                 (num churchYearStart ++ "–" ++ num (churchYearStart + 1))
                 yearCycle in
  match matches with
  | [] =>
      let precedingSunday := findPrecedingSunday calendar d in
      mkResolvedDay dateStr0 churchYear None
        (Some (option_map (fun e => enrichEntry e yearCycle)
                          precedingSunday))
        None
        (getDayOfWeekFi d)
        (match precedingSunday with
         | Some e => getSeason e
         | None => None
         end)
  | first :: _ =>
      let prioritized := prioritizeEntries matches in
      (* [prioritized[0]]: the sorted copy is as long as [matches], which
         is not empty here; the default of [hd] is never returned *)
      let primary := hd first prioritized in
      mkResolvedDay dateStr0 churchYear
        (Some (enrichEntry primary yearCycle))
        None
        (Some (map (fun e => enrichEntry e yearCycle) (tl prioritized)))
        (getDayOfWeekFi d)
        (getSeason primary)
  end.

(** A [YYYY-MM-DD] string is parsed first. *)
Definition resolveDateString (s : DateStr) : ResolvedDay :=
  resolveDate (parseDate s).

End Resolver.

(** ** Notions used to state the properties *)

(** Year and weekday of the proleptic Gregorian calendar: November 30 of
    year [Y], whatever [Y] is, and the first Advent Sunday next to it. *)
Definition november30 (Y : Z) : Date := Ecma.MakeDay Y 10 30.
Definition firstAdvent (Y : Z) : Date := nearestSunday (november30 Y).

(** [d] lies in the church year that starts in [Y]. *)
Definition inChurchYear (d : Date) (Y : Z) : Prop :=
  firstAdvent Y <= d < firstAdvent (Y + 1).

(** What is said about [getChurchYearStart] at one date. *)
Definition churchYearStartClaim (d : Date) : Prop :=
  inChurchYear d (getChurchYearStart d)
  /\ forall Y, inChurchYear d Y -> Y = getChurchYearStart d.

(** What is said about [getChurchYearStart] at the boundary of year [Y]. *)
Definition churchYearBoundaryClaim (Y : Z) : Prop :=
  getChurchYearStart (nearestSunday (makeDate Y 11 30)) = Y
  /\ getChurchYearStart (nearestSunday (makeDate Y 11 30) - 1) = Y - 1.

(** What is said about [getYearCycle] at one start year. *)
Definition yearCycleClaim (Y : Z) : Prop :=
  getYearCycle Y = Y mod 3 + 1
  /\ getYearCycle Y = getYearCycle (Y + 3)
  /\ forall c, In c [getYearCycle Y; getYearCycle (Y + 1);
                     getYearCycle (Y + 2)]
               <-> In c [1; 2; 3].

(** [s.endsWith(suffix)]. *)
Fixpoint endsWith (s suffix : string) : bool :=
  String.eqb s suffix
  || match s with
     | EmptyString => false
     | String _ s' => endsWith s' suffix
     end.

(** The "N-sunnuntai-loppiaisesta" entries. *)
Definition isEpiphanySunday (e : CalendarEntry) : bool :=
  endsWith (slug e) "-sunnuntai-loppiaisesta".

Definition epiphanySundayEntry (first : Date) (k : Z) : CalendarEntry :=
  add (first + 7 * (k - 1)) (num k ++ "-sunnuntai-loppiaisesta")
      (num k ++ ". sunnuntai loppiaisesta") sunday.

(** The entries of one slug. *)
Definition hasSlug (s : string) (e : CalendarEntry) : bool :=
  String.eqb (slug e) s.

(** The entries of one type, in the order of the list. *)
Definition ofType (t : EntryType) (l : list CalendarEntry)
  : list CalendarEntry :=
  filter (fun e => EntryType_eqb (type e) t) l.

(** The entries generated for the church year of [d] that are dated [d], in
    the order in which [generateChurchYear] pushed them. *)
Definition generatedOn (d : Date) : list CalendarEntry :=
  filter (fun e => date e =? d) (churchYearEntries (getChurchYearStart d)).

(** Type priority first, generation order among entries of one type. *)
Definition byPrecedence (l : list CalendarEntry) : list CalendarEntry :=
  ofType feast l ++ ofType special l ++ ofType sunday l
  ++ ofType weekday l ++ ofType service l.

Definition goodFriday (startYear : Z) : Date :=
  addDays (easterSunday (startYear + 1)) (-2).

Definition pitkaperjantai (startYear : Z) : CalendarEntry :=
  add (goodFriday startYear) "pitkaperjantai" "Pitkäperjantai" feast.
Definition jeesuksenKuolinhetki (startYear : Z) : CalendarEntry :=
  add (goodFriday startYear) "jeesuksen-kuolinhetki" "Jeesuksen kuolinhetki"
      service.
Definition pitkaperjantainIlta (startYear : Z) : CalendarEntry :=
  add (goodFriday startYear) "pitkaperjantain-ilta" "Pitkäperjantain ilta"
      service.

(** The two entries that close the Sundays after Pentecost. *)
Definition valvomisenEntry (d : Date) : CalendarEntry :=
  add d "valvomisen-sunnuntai" "Valvomisen sunnuntai" sunday.
Definition tuomioEntry (d : Date) : CalendarEntry :=
  add d "tuomiosunnuntai" "Tuomiosunnuntai" sunday.

(** What is said about the end of the Sundays after Pentecost of the church
    year that starts in [Y]: the dates collected by the loop run weekly from
    Pentecost + 14 to the Sunday before the next first Advent, and the last
    two entries are the two end-of-year Sundays. *)
Definition endOfYearClaim (Y : Z) : Prop :=
  let next := nearestSunday (makeDate (Y + 1) 11 30) in
  exists (n : Z) (front : list CalendarEntry),
    2 <= n
    /\ map fst (pentecostSundays Y)
       = map (fun k => easterSunday (Y + 1) + 49 + 14 + 7 * Z.of_nat k)
             (seq 0 (Z.to_nat n))
    /\ easterSunday (Y + 1) + 49 + 14 + 7 * (n - 1) = next - 7
    /\ pentecostSundayEntries Y
       = (front ++ [valvomisenEntry (next - 14); tuomioEntry (next - 7)])%list
    /\ In (valvomisenEntry (next - 14)) (generateChurchYear Y)
    /\ In (tuomioEntry (next - 7)) (generateChurchYear Y).

(** The qualifying entries of the preceding-Sunday scan. *)
Definition precedes (d : Date) (e : CalendarEntry) : Prop :=
  (type e = sunday \/ type e = feast) /\ date e <= d.

(** No entry of the calendar selected for [d] is dated [d]: the
    [matches.length === 0] branch of [resolveDate]. *)
Definition noEntryOn (d : Date) : Prop :=
  filter (fun e => dateStr_eqb (dateStr e) (formatDate d))
         (getCalendar (getChurchYearStart d)) = [].

(** What is said about the preceding-Sunday scan at a date without entry:
    it returns an entry, which is of type sunday or feast and dated on or
    before the date. *)
Definition precedingSundayClaim (d : Date) : Prop :=
  noEntryOn d ->
  exists e,
    findPrecedingSunday (getCalendar (getChurchYearStart d)) d = Some e
    /\ In e (getCalendar (getChurchYearStart d))
    /\ precedes d e.

(** Remainder used in the proof that Easter falls on a Sunday: it depends on
    the year within the 400-year cycle only. *)
Definition sundayResidue (y : Z) : Z :=
  (Ecma.DayFromYear y + Ecma.InLeapYear y + 116
   + 2 * ((y / 100) mod 4) + 2 * ((y mod 100) / 4) - (y mod 100) mod 4)
  mod 7.

(** ** Notions used to state further properties *)

(** Number of days of month [m] (1 = January) of the year [y]. *)
Definition daysInMonth (y m : Z) : Z :=
  if m =? 2 then 28 + Ecma.InLeapYear y
  else if (m =? 4) || (m =? 6) || (m =? 9) || (m =? 11) then 30
  else 31.

(** An entry of type sunday is dated on a Sunday, an entry of type weekday
    on another day. *)
Definition onItsWeekday (e : CalendarEntry) : Prop :=
  (type e = sunday -> dayOfWeek (date e) = 0)
  /\ (type e = weekday -> dayOfWeek (date e) <> 0).

(** ** The calendar cache of the resolver

    [calendarCache] is a [Map] from start year to generated array, written
    by [getCalendar] alone.  A cache is the list of its bindings, and
    [getCalendarCached] is [getCalendar] with the cache as explicit state;
    its result is an [option] because [Map.prototype.get] may return
    undefined. *)
Definition CalendarCache := list (Z * list CalendarEntry).

Definition cacheHas (cache : CalendarCache) (key : Z) : bool :=
  existsb (fun binding => fst binding =? key) cache.

Definition cacheGet (cache : CalendarCache) (key : Z)
  : option (list CalendarEntry) :=
  option_map snd (find (fun binding => fst binding =? key) cache).

Definition cacheSet (cache : CalendarCache) (key : Z)
  (value : list CalendarEntry) : CalendarCache :=
  (key, value) :: filter (fun binding => negb (fst binding =? key)) cache.

Definition getCalendarCached (cache : CalendarCache) (churchYearStart : Z)
  : option (list CalendarEntry) * CalendarCache :=
  let cache' :=
    if negb (cacheHas cache churchYearStart)
    then cacheSet cache churchYearStart (generateChurchYear churchYearStart)
    else cache in
  (cacheGet cache' churchYearStart, cache').

(** A run of calls of [getCalendar], the cache threaded through. *)
Fixpoint getCalendars (cache : CalendarCache) (years : list Z)
  : list (option (list CalendarEntry)) * CalendarCache :=
  match years with
  | [] => ([], cache)
  | y :: rest =>
      let '(calendar, cache1) := getCalendarCached cache y in
      let '(calendars, cache2) := getCalendars cache1 rest in
      (calendar :: calendars, cache2)
  end.

(** ** Date strings

    [formatDate] as the string it builds, and [parseDate] on strings. *)

(** [String(n).padStart(2, '0')]. *)
Definition padStart2 (s : string) : string :=
  match s with
  | EmptyString => "00"
  | String c EmptyString => String "0" (String c EmptyString)
  | _ => s
  end.

(** The template literal [`${y}-${m}-${d}`] of [formatDate]. *)
Definition renderDateStr (s : DateStr) : string :=
  let '(y, m, d) := s in
  num y ++ "-" ++ padStart2 (num m) ++ "-" ++ padStart2 (num d).

Definition formatDateString (date : Date) : string :=
  renderDateStr (formatDate date).

(** [str.split(sep)] for a separator of one character. *)
Fixpoint splitOn (sep : ascii) (s : string) : list string :=
  match s with
  | EmptyString => [EmptyString]
  | String c s' =>
      if Ascii.eqb c sep then EmptyString :: splitOn sep s'
      else match splitOn sep s' with
           | word :: words => String c word :: words
           | [] => [String c EmptyString]
           end
  end.

(** [Number(s)] where [s] is a string of decimal digits: its value, and 0
    for the empty string.  For any other string the result is [None]:
    JavaScript then gives NaN or, for a sign, white space, an exponent and
    the like, a number that is not computed here. *)
Definition Number (s : string) : option Z :=
  match s with
  | EmptyString => Some 0
  | _ => option_map Z.of_uint (NilEmpty.uint_of_string s)
  end.

(** [parseDate(str)]: the first three fields between hyphens, as numbers,
    go to [makeDate].  [None] when a field is missing (the date is then
    invalid) or is not a string of digits. *)
Definition parseDateString (str : string) : option Date :=
  match map Number (splitOn "-" str) with
  | Some y :: Some m :: Some d :: _ => Some (makeDate y m d)
  | _ => None
  end.

(** ** The date routes of [routes/api.js] *)

Definition isDigit (c : ascii) : bool :=
  Ascii.leb "0" c && Ascii.leb c "9".

Definition isHyphen (c : ascii) : bool := Ascii.eqb c "-".

(** A regular expression of the form [^c1c2...cn$], each [ci] a character
    class. *)
Fixpoint matchClasses (classes : list (ascii -> bool)) (s : string) : bool :=
  match classes, s with
  | [], EmptyString => true
  | class :: classes', String c s' => class c && matchClasses classes' s'
  | _, _ => false
  end.

(** [/^\d{4}-\d{2}-\d{2}$/.test(date)]. *)
Definition isDateFormat (date : string) : bool :=
  matchClasses [isDigit; isDigit; isDigit; isDigit; isHyphen;
                isDigit; isDigit; isHyphen; isDigit; isDigit] date.

Inductive RouteResult (A : Type) : Type :=
| RouteError (error : string)
| RouteOk (value : A).
Arguments RouteError {A} error.
Arguments RouteOk {A} value.

Section DateRoute.
Variable Enriched : Type.
Variable enrichEntry : CalendarEntry -> Z -> Enriched.
Variable dataSeason : string -> option string.

(** [resolveDate] called with a string. *)
Definition resolveDateText (date : string) : option (ResolvedDay Enriched) :=
  option_map (resolveDate Enriched enrichEntry dataSeason)
             (parseDateString date).

(** [GET /api/v1/date/:date]. *)
Definition dateRoute (date : string)
  : option (RouteResult (ResolvedDay Enriched)) :=
  if negb (isDateFormat date)
  then Some (RouteError "Invalid date format. Use YYYY-MM-DD.")
  else option_map RouteOk (resolveDateText date).

End DateRoute.

(** A day that exists in the civil calendar. *)
Definition validDate (y m d : Z) : Prop :=
  1 <= m <= 12 /\ 1 <= d <= daysInMonth y m.

(** Every character of the string is in the class. *)
Fixpoint allChars (class : ascii -> bool) (s : string) : bool :=
  match s with
  | EmptyString => true
  | String c s' => class c && allChars class s'
  end.

(** ** [parseInt]

    [parseInt(s)] with no radix: white space at the start is skipped, a sign
    is read, "0x" or "0X" switches to base 16, and the digits that follow
    are the value, whatever comes after them.  [None] is NaN; the value
    is the exact integer, where the code has the nearest double, which the
    comparisons of the callers do not tell apart.  A character
    is a code unit below 256; the white space and line terminators among
    them are tab, line feed, vertical tab, form feed, carriage return,
    space and the no-break space. *)
Definition isWhiteSpace (c : ascii) : bool :=
  Ascii.eqb c " " || Ascii.eqb c "009" || Ascii.eqb c "010"
  || Ascii.eqb c "011" || Ascii.eqb c "012" || Ascii.eqb c "013"
  || Ascii.eqb c "160".

Fixpoint trimStart (s : string) : string :=
  match s with
  | String c s' => if isWhiteSpace c then trimStart s' else s
  | EmptyString => s
  end.

(** The longest run of characters of the class at the start of [s]. *)
Fixpoint takeWhile (class : ascii -> bool) (s : string) : string :=
  match s with
  | String c s' =>
      if class c then String c (takeWhile class s') else EmptyString
  | EmptyString => EmptyString
  end.

Definition hexDigitValue (c : ascii) : option Z :=
  let n := Z.of_nat (nat_of_ascii c) in
  if (48 <=? n) && (n <=? 57) then Some (n - 48)
  else if (97 <=? n) && (n <=? 102) then Some (n - 87)
  else if (65 <=? n) && (n <=? 70) then Some (n - 55)
  else None.

Fixpoint hexMagnitude (seen : bool) (acc : Z) (s : string) : option Z :=
  match s with
  | String c s' =>
      match hexDigitValue c with
      | Some v => hexMagnitude true (acc * 16 + v) s'
      | None => if seen then Some acc else None
      end
  | EmptyString => if seen then Some acc else None
  end.

Definition decimalMagnitude (s : string) : option Z :=
  match takeWhile isDigit s with
  | EmptyString => None
  | digits => Number digits
  end.

Definition hasHexPrefix (s : string) : bool :=
  match s with
  | String c1 (String c2 _) =>
      Ascii.eqb c1 "0" && (Ascii.eqb c2 "x" || Ascii.eqb c2 "X")
  | _ => false
  end.

Definition parseInt (s : string) : option Z :=
  let s1 := trimStart s in
  let '(sign, s2) :=
    match s1 with
    | String c rest =>
        if Ascii.eqb c "-" then (-1, rest)
        else if Ascii.eqb c "+" then (1, rest)
        else (1, s1)
    | EmptyString => (1, s1)
    end in
  let magnitude :=
    if hasHexPrefix s2
    then match s2 with
         | String _ (String _ rest) => hexMagnitude false 0 rest
         | _ => None
         end
    else decimalMagnitude s2 in
  option_map (Z.mul sign) magnitude.

(** ** The calendar route *)

(** One entry of the object returned by [getChurchYearCalendar]. *)
Record CalendarLine := mkCalendarLine {
  line_date : DateStr;
  line_slug : string;
  line_name : string;
  line_type : EntryType
}.

Record ChurchYearCalendar := mkChurchYearCalendar {
  cal_churchYear : ChurchYear;
  cal_entries : list CalendarLine
}.

Definition getChurchYearCalendar (startYear : Z) : ChurchYearCalendar :=
  let calendar := getCalendar startYear in
  let yearCycle := getYearCycle startYear in
  mkChurchYearCalendar
    (mkChurchYear startYear (num startYear ++ "–" ++ num (startYear + 1))
                  yearCycle)
    (map (fun e => mkCalendarLine (dateStr e) (slug e) (name e) (type e))
         calendar).

(** [GET /api/v1/year/:year/calendar]. *)
Definition calendarRoute (year : string) : RouteResult ChurchYearCalendar :=
  match parseInt year with
  | None => RouteError "Invalid year. Must be between 1900 and 2100."
  | Some y =>
      if (y <? 1900) || (2100 <? y)
      then RouteError "Invalid year. Must be between 1900 and 2100."
      else RouteOk (getChurchYearCalendar y)
  end.

(** ** Season keys and propers: [services/propers.js] *)

(** [if (test) keys.push(...)]. *)
Definition pushIf (test : bool) (keys : list string) : list string :=
  if test then keys else [].

(** [slug.match(/\d<text>/)]: a digit followed by the text, anywhere. *)
Fixpoint matchesDigitThen (text s : string) : bool :=
  match s with
  | EmptyString => false
  | String c s' =>
      (isDigit c && String.prefix text s') || matchesDigitThen text s'
  end.

(** [[...new Set(keys)]]: the first occurrence of each key, in order. *)
Fixpoint unique (seen keys : list string) : list string :=
  match keys with
  | [] => []
  | key :: rest =>
      if existsb (String.eqb key) seen then unique seen rest
      else key :: unique (key :: seen) rest
  end.

(** [getSeasonKeys(slug, dayData)].  The function reads [dayData] into two
    locals that it never uses; the keys depend on the slug alone. *)
Definition getSeasonKeys (slug : string) : list string :=
  let keys : list string :=
   (pushIf (String.eqb slug "1-adventtisunnuntai") ["1-adventtisunnuntai"]
    ++ pushIf (includes slug "adventti") ["adventtiaika"]
    ++ pushIf (String.eqb slug "jouluaatto") ["jouluaatto"; "jouluaika"]
    ++ pushIf (String.eqb slug "jouluyo") ["jouluyo"; "jouluaika"]
    ++ pushIf (String.eqb slug "joulupaiva") ["joulupaiva"; "jouluaika"]
    ++ pushIf (String.eqb slug "tapaninpaiva") ["jouluaika"]
    ++ pushIf (includes slug "sunnuntai-joulusta") ["jouluaika"]
    ++ pushIf (String.eqb slug "uudenvuodenpaiva") ["jouluaika"]
    ++ pushIf (String.eqb slug "loppiainen") ["loppiainen"]
    ++ pushIf (includes slug "sunnuntai-loppiaisesta")
              ["loppiaisaika"; "paastonaikaa-edeltavat"]
    ++ pushIf (includes slug "ennen-paastonaikaa")
              ["loppiaisaika"; "paastonaikaa-edeltavat"]
    ++ pushIf (String.eqb slug "laskiaissunnuntai")
              ["loppiaisaika"; "paastonaikaa-edeltavat"]
    ++ pushIf (String.eqb slug "tuhkakeskiviikko") ["paastonaika"]
    ++ pushIf (matchesDigitThen "-paastonajan-sunnuntai" slug)
              ("paastonaika"
               :: pushIf (match parseInt slug with
                          | Some n => 5 <=? n
                          | None => false
                          end)
                         ["karsimysaika"])
    ++ pushIf (String.eqb slug "palmusunnuntai") ["karsimysaika"]
    ++ pushIf (includes slug "hiljaisen-viikon") ["karsimysaika"]
    ++ pushIf (String.eqb slug "kiirastorstai") ["karsimysaika"]
    ++ pushIf (String.eqb slug "pitkaperjantai") ["karsimysaika"; "pitkaperjantai"]
    ++ pushIf (String.eqb slug "hiljainen-lauantai") ["karsimysaika"]
    ++ pushIf (String.eqb slug "paasiaisyo") ["paasiaisyo"; "paasiaispaiva"]
    ++ pushIf (String.eqb slug "paasiaispaiva") ["paasiaispaiva"]
    ++ pushIf (String.eqb slug "2-paasiaispaiva") ["paasiaisaika"]
    ++ pushIf (includes slug "jalkeinen" && includes slug "paasiai")
              ["paasiaisaika"]
    ++ pushIf (matchesDigitThen "-sunnuntai-paasiaisesta" slug)
              ["paasiaisaika"]
    ++ pushIf (String.eqb slug "helatorstai") ["helatorstai-helluntaiaatto"]
    ++ pushIf (String.eqb slug "6-sunnuntai-paasiaisesta")
              ["helatorstai-helluntaiaatto"]
    ++ pushIf (String.eqb slug "helluntaiaatto") ["helatorstai-helluntaiaatto"]
    ++ pushIf (String.eqb slug "helluntaipaiva") ["helluntai"]
    ++ pushIf (String.eqb slug "apostolien-paiva") ["apostolien-paiva"]
    ++ pushIf (String.eqb slug "pyhan-henrikin-muistopaiva")
              ["pyhan-henrikin-muistopaiva"]
    ++ pushIf (String.eqb slug "mikkelinpaiva") ["mikkelinpaiva"]
    ++ pushIf (String.eqb slug "valvomisen-sunnuntai") ["valvomisen-sunnuntai"]
    ++ pushIf (String.eqb slug "tuomiosunnuntai") ["tuomiosunnuntai"]
    ++ pushIf (String.eqb slug "kynttilanpaiva") ["kynttilanpaiva"; "jouluaika"]
    ++ pushIf (String.eqb slug "marian-ilmestyspaiva")
              ["marian-ilmestyspaiva"; "jouluaika"])%list in
  unique [] keys.

(** The keys named in the [keys.push] calls of [getSeasonKeys]. *)
Definition seasonKeyNames : list string :=
  ["1-adventtisunnuntai"; "adventtiaika"; "jouluaatto"; "jouluaika";
   "jouluyo"; "joulupaiva"; "loppiainen"; "loppiaisaika";
   "paastonaikaa-edeltavat"; "paastonaika"; "karsimysaika";
   "pitkaperjantai"; "paasiaisyo"; "paasiaispaiva"; "paasiaisaika";
   "helatorstai-helluntaiaatto"; "helluntai"; "apostolien-paiva";
   "pyhan-henrikin-muistopaiva"; "mikkelinpaiva"; "valvomisen-sunnuntai";
   "tuomiosunnuntai"; "kynttilanpaiva"; "marian-ilmestyspaiva"].

(** [kyrieMapping[key]] for the keys that [getSeasonKeys] returns; for any
    other key the loop of [getKyrieLitania] finds no litany either. *)
Definition kyrieMapping (key : string) : option string :=
  option_map snd
    (find (fun entry => String.eqb (fst entry) key)
       [("1-adventtisunnuntai", "1-adventtisunnuntai");
        ("adventtiaika", "adventtiaika");
        ("jouluaatto", "joulu-jouluaika");
        ("jouluyo", "joulu-jouluaika");
        ("joulupaiva", "joulu-jouluaika");
        ("jouluaika", "joulu-jouluaika");
        ("paastonaika", "paastonaika");
        ("karsimysaika", "karsimysaika");
        ("pitkaperjantai", "pitkaperjantai-hiljainen-lauantai");
        ("paasiaisyo", "paasiainen-paasiaisaika");
        ("paasiaispaiva", "paasiainen-paasiaisaika");
        ("paasiaisaika", "paasiainen-paasiaisaika");
        ("helatorstai-helluntaiaatto", "helatorstai-helluntaiaatto");
        ("helluntai", "helluntai")]).

Section Propers.
(** The prefaces and Kyrie litanies of [propers.json]: of a preface the
    code reads [appliesTo] and copies title, period and text; of a litany
    it reads [slug]. *)
Variable Prefaatio : Type.
Variable appliesTo : Prefaatio -> list string.
Variable prefaatiot : list Prefaatio.
Variable KyrieLitania : Type.
Variable litaniaSlug : KyrieLitania -> string.
Variable kyrieLitaniat : list KyrieLitania.

(** The preface found, standing for the copy of its title, period and
    text. *)
Definition getPrefaatio (slug : string) : option Prefaatio :=
  let seasonKeys := getSeasonKeys slug in
  find (fun prefaatio =>
          existsb (fun a => existsb (String.eqb a) seasonKeys)
                  (appliesTo prefaatio))
       prefaatiot.

(** [propers.kyrieLitaniat.find(k => k.slug === kyrieSlug)]. *)
Definition findLitania (kyrieSlug : string) : option KyrieLitania :=
  find (fun k => String.eqb (litaniaSlug k) kyrieSlug) kyrieLitaniat.

(** The loop over the season keys: the first key with a litany decides. *)
Fixpoint firstLitania (seasonKeys : list string) : option KyrieLitania :=
  match seasonKeys with
  | [] => None
  | key :: rest =>
      match kyrieMapping key with
      | Some kyrieSlug =>
          match findLitania kyrieSlug with
          | Some litania => Some litania
          | None => firstLitania rest
          end
      | None => firstLitania rest
      end
  end.

Definition getKyrieLitania (slug : string) : option KyrieLitania :=
  firstLitania (getSeasonKeys slug).

End Propers.

(** * Properties *)

Open Scope list_scope.

(** ** Day arithmetic *)

Section DayArithmetic.
Import Ecma.

Lemma DayFromYear_succ y : DayFromYear (y + 1) = DayFromYear y + 365 + InLeapYear y.
Proof.
unfold DayFromYear, InLeapYear.
destruct (y mod 4 =? 0) eqn:E4; destruct (y mod 100 =? 0) eqn:E100;
destruct (y mod 400 =? 0) eqn:E400; cbn [andb orb negb];
rewrite ?Z.eqb_eq, ?Z.eqb_neq in *;
Z.div_mod_to_equations; lia.
Qed.

Lemma InLeapYear_range y : 0 <= InLeapYear y <= 1.
Proof. unfold InLeapYear. destruct (_ || _); lia. Qed.

Lemma DayFromYear_mono a b : a <= b -> DayFromYear a <= DayFromYear b.
Proof.
intros H. unfold DayFromYear. Z.div_mod_to_equations. lia.
Qed.

Lemma YearFromDay_spec t :
DayFromYear (YearFromDay t) <= t < DayFromYear (YearFromDay t + 1).
Proof.
unfold YearFromDay.
set (y0 := 1970 + t * 400 / 146097).
assert (H1 : DayFromYear (y0 - 1) <= t).
{ unfold DayFromYear, y0. Z.div_mod_to_equations. lia. }
assert (H2 : t < DayFromYear (y0 + 2)).
{ unfold DayFromYear, y0. Z.div_mod_to_equations. lia. }
destruct (DayFromYear (y0 + 1) <=? t) eqn:Ea.
- apply Z.leb_le in Ea. replace (y0 + 1 + 1) with (y0 + 2) by lia. lia.
- apply Z.leb_gt in Ea. destruct (t <? DayFromYear y0) eqn:Eb.
  + apply Z.ltb_lt in Eb. replace (y0 - 1 + 1) with y0 by lia. lia.
  + apply Z.ltb_ge in Eb. lia.
Qed.

Lemma YearFromDay_unique t y :
DayFromYear y <= t < DayFromYear (y + 1) -> YearFromDay t = y.
Proof.
intros H. pose proof (YearFromDay_spec t) as S.
destruct (Z.lt_trichotomy (YearFromDay t) y) as [L | [E | G]]; [ | exact E | ].
- pose proof (DayFromYear_mono (YearFromDay t + 1) y ltac:(lia)). lia.
- pose proof (DayFromYear_mono (y + 1) (YearFromDay t) ltac:(lia)). lia.
Qed.

Lemma DayWithinYear_range t :
0 <= DayWithinYear t < 365 + InLeapYear (YearFromDay t).
Proof.
unfold DayWithinYear. pose proof (YearFromDay_spec t).
pose proof (DayFromYear_succ (YearFromDay t)). lia.
Qed.

Lemma MonthFromDay_range t : 0 <= MonthFromDay t <= 11.
Proof.
unfold MonthFromDay.
repeat match goal with |- context [if ?b then _ else _] => destruct b end; lia.
Qed.

Lemma MakeDay_civil t n :
MakeDay (YearFromDay t) (MonthFromDay t) (DateFromDay t + n) = t + n.
Proof.
unfold MakeDay.
pose proof (MonthFromDay_range t) as R.
rewrite (Z.div_small (MonthFromDay t) 12) by lia.
rewrite (Z.mod_small (MonthFromDay t) 12) by lia.
rewrite Z.add_0_r. unfold DateFromDay, DayWithinYear. lia.
Qed.

Lemma addDays_plus d n : addDays d n = d + n.
Proof. apply MakeDay_civil. Qed.

Lemma formatDate_inj a b : formatDate a = formatDate b -> a = b.
Proof.
unfold formatDate. intros H. injection H as Hy Hm Hd.
pose proof (MakeDay_civil a 0) as Ha. pose proof (MakeDay_civil b 0) as Hb.
rewrite !Z.add_0_r in Ha. rewrite !Z.add_0_r in Hb.
assert (Hm' : MonthFromDay a = MonthFromDay b) by lia.
rewrite <- Ha, <- Hb, Hy, Hm', Hd. reflexivity.
Qed.

Lemma dateStr_eqb_format a b : dateStr_eqb (formatDate a) (formatDate b) = (a =? b).
Proof.
destruct (Z.eqb_spec a b) as [-> | N].
- unfold dateStr_eqb, formatDate. rewrite !Z.eqb_refl. reflexivity.
- destruct (dateStr_eqb (formatDate a) (formatDate b)) eqn:E; [ | reflexivity].
  exfalso. apply N, formatDate_inj.
  unfold dateStr_eqb in E. destruct (formatDate a) as [[y1 m1] d1], (formatDate b) as [[y2 m2] d2].
  apply andb_true_iff in E as [E Ed]. apply andb_true_iff in E as [Ey Em].
  apply Z.eqb_eq in Ey, Em, Ed. congruence.
Qed.

Lemma FullYear_id y : ~ (0 <= y <= 99) -> FullYear y = y.
Proof.
intros Hy. unfold FullYear.
destruct (Z.leb_spec 0 y), (Z.leb_spec y 99); cbn; lia.
Qed.

Lemma makeDate_full y m d :
1 <= m <= 12 ->
makeDate y m d
= DayFromYear (FullYear y)
  + MonthStart (InLeapYear (FullYear y)) (m - 1) + d - 1.
Proof.
intros Hm. unfold makeDate, UTC, MakeDay.
rewrite (Z.div_small (m - 1) 12), (Z.mod_small (m - 1) 12) by lia.
rewrite Z.add_0_r. reflexivity.
Qed.

(** [makeDate] for a month from 1 to 12, outside the two-digit years. *)
Lemma makeDate_eq y m d :
~ (0 <= y <= 99) -> 1 <= m <= 12 ->
makeDate y m d = DayFromYear y + MonthStart (InLeapYear y) (m - 1) + d - 1.
Proof.
intros Hy Hm. rewrite makeDate_full by exact Hm.
rewrite FullYear_id by exact Hy. reflexivity.
Qed.

(** [makeDate] month by month: the first day of the year, the days of the
  months before, the leap day from March on. *)
Lemma makeDate_month1 y d :
makeDate y 1 d = DayFromYear (FullYear y) + 0 + d - 1.
Proof.
rewrite makeDate_full by lia.
generalize (InLeapYear (FullYear y)) (DayFromYear (FullYear y)).
intros L J. change (1 - 1) with 0.
unfold MonthStart. cbn [Z.eqb Pos.eqb]. lia.
Qed.

Lemma makeDate_month2 y d :
makeDate y 2 d = DayFromYear (FullYear y) + 31 + d - 1.
Proof.
rewrite makeDate_full by lia.
generalize (InLeapYear (FullYear y)) (DayFromYear (FullYear y)).
intros L J. change (2 - 1) with 1.
unfold MonthStart. cbn [Z.eqb Pos.eqb]. lia.
Qed.

Lemma makeDate_month3 y d :
makeDate y 3 d = DayFromYear (FullYear y) + InLeapYear (FullYear y) + 59 + d - 1.
Proof.
rewrite makeDate_full by lia.
generalize (InLeapYear (FullYear y)) (DayFromYear (FullYear y)).
intros L J. change (3 - 1) with 2.
unfold MonthStart. cbn [Z.eqb Pos.eqb]. lia.
Qed.

Lemma makeDate_month4 y d :
makeDate y 4 d = DayFromYear (FullYear y) + InLeapYear (FullYear y) + 90 + d - 1.
Proof.
rewrite makeDate_full by lia.
generalize (InLeapYear (FullYear y)) (DayFromYear (FullYear y)).
intros L J. change (4 - 1) with 3.
unfold MonthStart. cbn [Z.eqb Pos.eqb]. lia.
Qed.

Lemma makeDate_month5 y d :
makeDate y 5 d = DayFromYear (FullYear y) + InLeapYear (FullYear y) + 120 + d - 1.
Proof.
rewrite makeDate_full by lia.
generalize (InLeapYear (FullYear y)) (DayFromYear (FullYear y)).
intros L J. change (5 - 1) with 4.
unfold MonthStart. cbn [Z.eqb Pos.eqb]. lia.
Qed.

Lemma makeDate_month6 y d :
makeDate y 6 d = DayFromYear (FullYear y) + InLeapYear (FullYear y) + 151 + d - 1.
Proof.
rewrite makeDate_full by lia.
generalize (InLeapYear (FullYear y)) (DayFromYear (FullYear y)).
intros L J. change (6 - 1) with 5.
unfold MonthStart. cbn [Z.eqb Pos.eqb]. lia.
Qed.

Lemma makeDate_month7 y d :
makeDate y 7 d = DayFromYear (FullYear y) + InLeapYear (FullYear y) + 181 + d - 1.
Proof.
rewrite makeDate_full by lia.
generalize (InLeapYear (FullYear y)) (DayFromYear (FullYear y)).
intros L J. change (7 - 1) with 6.
unfold MonthStart. cbn [Z.eqb Pos.eqb]. lia.
Qed.

Lemma makeDate_month8 y d :
makeDate y 8 d = DayFromYear (FullYear y) + InLeapYear (FullYear y) + 212 + d - 1.
Proof.
rewrite makeDate_full by lia.
generalize (InLeapYear (FullYear y)) (DayFromYear (FullYear y)).
intros L J. change (8 - 1) with 7.
unfold MonthStart. cbn [Z.eqb Pos.eqb]. lia.
Qed.

Lemma makeDate_month9 y d :
makeDate y 9 d = DayFromYear (FullYear y) + InLeapYear (FullYear y) + 243 + d - 1.
Proof.
rewrite makeDate_full by lia.
generalize (InLeapYear (FullYear y)) (DayFromYear (FullYear y)).
intros L J. change (9 - 1) with 8.
unfold MonthStart. cbn [Z.eqb Pos.eqb]. lia.
Qed.

Lemma makeDate_month10 y d :
makeDate y 10 d = DayFromYear (FullYear y) + InLeapYear (FullYear y) + 273 + d - 1.
Proof.
rewrite makeDate_full by lia.
generalize (InLeapYear (FullYear y)) (DayFromYear (FullYear y)).
intros L J. change (10 - 1) with 9.
unfold MonthStart. cbn [Z.eqb Pos.eqb]. lia.
Qed.

Lemma makeDate_month11 y d :
makeDate y 11 d = DayFromYear (FullYear y) + InLeapYear (FullYear y) + 304 + d - 1.
Proof.
rewrite makeDate_full by lia.
generalize (InLeapYear (FullYear y)) (DayFromYear (FullYear y)).
intros L J. change (11 - 1) with 10.
unfold MonthStart. cbn [Z.eqb Pos.eqb]. lia.
Qed.

Lemma makeDate_month12 y d :
makeDate y 12 d = DayFromYear (FullYear y) + InLeapYear (FullYear y) + 334 + d - 1.
Proof.
rewrite makeDate_full by lia.
generalize (InLeapYear (FullYear y)) (DayFromYear (FullYear y)).
intros L J. change (12 - 1) with 11.
unfold MonthStart. cbn [Z.eqb Pos.eqb]. lia.
Qed.

Lemma WeekDay_range t : 0 <= WeekDay t <= 6.
Proof. unfold WeekDay. pose proof (Z.mod_pos_bound (t + 4) 7). lia. Qed.

Lemma nearestSunday_eq d :
nearestSunday d = if WeekDay d <=? 3 then d - WeekDay d else d + 7 - WeekDay d.
Proof.
unfold nearestSunday, dayOfWeek. rewrite !addDays_plus.
pose proof (WeekDay_range d).
destruct (Z.eqb_spec (WeekDay d) 0) as [E | N].
- rewrite E. cbn. lia.
- destruct (WeekDay d <=? 3); lia.
Qed.

Lemma nearestSunday_WeekDay d : WeekDay (nearestSunday d) = 0.
Proof.
rewrite nearestSunday_eq. unfold WeekDay.
destruct ((d + 4) mod 7 <=? 3); Z.div_mod_to_equations; lia.
Qed.

Lemma nearestSunday_bounds d : d - 3 <= nearestSunday d <= d + 3.
Proof.
rewrite nearestSunday_eq. pose proof (WeekDay_range d).
destruct (Z.leb_spec (WeekDay d) 3); lia.
Qed.

Lemma forallb_range (P : Z -> bool) (n : nat) :
forallb P (map Z.of_nat (seq 0 n)) = true ->
forall r, 0 <= r < Z.of_nat n -> P r = true.
Proof.
intros H r Hr. rewrite forallb_forall in H. apply H.
apply in_map_iff. exists (Z.to_nat r). split; [lia | ].
apply in_seq. lia.
Qed.

Lemma sundayResidue_cycle r : 0 <= r < 400 -> sundayResidue r = 0.
Proof.
intros Hr.
apply (forallb_range (fun r => sundayResidue r =? 0) 400) in Hr.
- now apply Z.eqb_eq.
- vm_compute. reflexivity.
Qed.

Lemma InLeapYear_period y : InLeapYear y = InLeapYear (y mod 400).
Proof.
unfold InLeapYear.
assert (E4 : (y mod 400) mod 4 = y mod 4) by (Z.div_mod_to_equations; lia).
assert (E100 : (y mod 400) mod 100 = y mod 100) by (Z.div_mod_to_equations; lia).
assert (E400 : (y mod 400) mod 400 = y mod 400) by (Z.div_mod_to_equations; lia).
rewrite E4, E100, E400. reflexivity.
Qed.

Lemma DayFromYear_period y :
DayFromYear y = DayFromYear (y mod 400) + 146097 * (y / 400).
Proof. unfold DayFromYear. Z.div_mod_to_equations. lia. Qed.

Lemma sundayResidue_zero y : sundayResidue y = 0.
Proof.
rewrite <- (sundayResidue_cycle (y mod 400)) by (apply Z.mod_pos_bound; lia).
unfold sundayResidue.
rewrite (DayFromYear_period y), (InLeapYear_period y).
assert (Ee : (y / 100) mod 4 = ((y mod 400) / 100) mod 4) by (Z.div_mod_to_equations; lia).
assert (Ec : y mod 100 = (y mod 400) mod 100) by (Z.div_mod_to_equations; lia).
rewrite Ee, Ec.
Z.div_mod_to_equations. lia.
Qed.

Lemma easter_shape y : 0 <= y ->
exists p, 0 <= p <= 34 /\
  easterSunday_month_day y = ((p + 114) / 31, (p + 114) mod 31 + 1) /\
  (p - (32 + 2 * ((y / 100) mod 4) + 2 * ((y mod 100) / 4) - (y mod 100) mod 4)) mod 7 = 0.
Proof.
intros Hy. unfold easterSunday_month_day.
rewrite (Z.rem_mod_nonneg y 19), (Z.rem_mod_nonneg y 100) by lia.
set (a := y mod 19). set (b := y / 100). set (c := y mod 100).
assert (Hb : 0 <= b) by (apply Z.div_pos; lia).
assert (Ha : 0 <= a < 19) by (apply Z.mod_pos_bound; lia).
assert (Hc : 0 <= c < 100) by (apply Z.mod_pos_bound; lia).
rewrite (Z.rem_mod_nonneg b 4), (Z.rem_mod_nonneg c 4) by lia.
set (e := b mod 4). set (i := c / 4). set (k := c mod 4).
assert (He : 0 <= e < 4) by (apply Z.mod_pos_bound; lia).
assert (Hk : 0 <= k < 4) by (apply Z.mod_pos_bound; lia).
assert (Hi : 0 <= i < 25) by (unfold i; Z.div_mod_to_equations; lia).
set (g := (b - (b + 8) / 25 + 1) / 3).
assert (Hh0 : 0 <= 19 * a + b - b / 4 - g + 15)
  by (unfold g; Z.div_mod_to_equations; lia).
rewrite (Z.rem_mod_nonneg (19 * a + b - b / 4 - g + 15) 30) by lia.
set (h := (19 * a + b - b / 4 - g + 15) mod 30).
assert (Hh : 0 <= h < 30) by (apply Z.mod_pos_bound; lia).
rewrite (Z.rem_mod_nonneg (32 + 2 * e + 2 * i - h - k) 7) by lia.
set (l := (32 + 2 * e + 2 * i - h - k) mod 7).
assert (Hl : 0 <= l < 7) by (apply Z.mod_pos_bound; lia).
set (m := (a + 11 * h + 22 * l) / 451).
assert (Hp : 0 <= h + l - 7 * m <= 34)
  by (unfold m; Z.div_mod_to_equations; lia).
rewrite (Z.rem_mod_nonneg (h + l - 7 * m + 114) 31) by lia.
exists (h + l - 7 * m). split; [exact Hp | split].
- reflexivity.
- unfold l. Z.div_mod_to_equations. lia.
Qed.

Lemma easterSunday_offset y : 100 <= y ->
exists p, 0 <= p <= 34 /\
  easterSunday y = DayFromYear y + InLeapYear y + 80 + p /\
  WeekDay (easterSunday y) = 0.
Proof.
intros Hy. destruct (easter_shape y ltac:(lia)) as (p & Hp & Hmd & Hres).
assert (E : easterSunday y = DayFromYear y + InLeapYear y + 80 + p).
{ unfold easterSunday. rewrite Hmd.
  assert (Hm : (p + 114) / 31 = 3 \/ (p + 114) / 31 = 4)
    by (Z.div_mod_to_equations; lia).
  rewrite makeDate_eq by lia.
  destruct Hm as [Hm | Hm]; rewrite Hm.
  - change (MonthStart (InLeapYear y) (3 - 1)) with (59 + InLeapYear y).
    Z.div_mod_to_equations; lia.
  - change (MonthStart (InLeapYear y) (4 - 1)) with (90 + InLeapYear y).
    Z.div_mod_to_equations; lia. }
exists p. split; [exact Hp | split; [exact E | ]].
rewrite E. pose proof (sundayResidue_zero y) as R.
unfold sundayResidue in R. unfold WeekDay.
Z.div_mod_to_equations. lia.
Qed.

End DayArithmetic.

(** From here on the date functions are used through the lemmas above;
    conversion unfolds them last. *)
Strategy 100 [Ecma.DayFromYear Ecma.InLeapYear Ecma.YearFromDay
  Ecma.MonthFromDay Ecma.DateFromDay Ecma.MakeDay Ecma.UTC Ecma.FullYear
  Ecma.WeekDay makeDate addDays easterSunday nearestSunday sundayOnOrAfter
  weekdayOnOrBefore saturdayOnOrBefore formatDate].

(** ** The stable sort *)

Section SortFacts.
Context {A : Type} (key : A -> Z).
Let cmp := fun a b => key a - key b.
Let le_key := fun a b => key a <= key b.

Lemma insertBy_cons x y l :
  insertBy cmp x (y :: l)
  = if key y <? key x then y :: insertBy cmp x l else x :: y :: l.
Proof.
  cbn. unfold cmp.
  destruct (Z.ltb_spec 0 (key x - key y)), (Z.ltb_spec (key y) (key x));
    try reflexivity; lia.
Qed.

Lemma insert_perm x l : Permutation (insertBy cmp x l) (x :: l).
Proof.
  induction l as [ | y l IH]; [reflexivity | ].
  rewrite insertBy_cons. destruct (key y <? key x); [ | reflexivity].
  rewrite IH. apply perm_swap.
Qed.

Lemma sort_perm l : Permutation (sortBy cmp l) l.
Proof.
  induction l as [ | x l IH]; cbn; [constructor | ].
  rewrite insert_perm. now constructor.
Qed.

Lemma sort_In x l : In x (sortBy cmp l) <-> In x l.
Proof.
  split; apply Permutation_in; [ | symmetry]; apply sort_perm.
Qed.

Lemma insert_front x l :
  Forall (fun y => key x <= key y) l -> insertBy cmp x l = x :: l.
Proof.
  intros H. destruct l as [ | y l]; [reflexivity | ].
  inversion_clear H as [ | ? ? Hy _]. rewrite insertBy_cons.
  destruct (Z.ltb_spec (key y) (key x)); [lia | reflexivity].
Qed.

Lemma insert_past x l1 l2 :
  Forall (fun y => key y < key x) l1 ->
  insertBy cmp x (l1 ++ l2) = l1 ++ insertBy cmp x l2.
Proof.
  induction 1 as [ | y l1 Hy _ IH]; [reflexivity | ].
  rewrite <- app_comm_cons, insertBy_cons.
  destruct (Z.ltb_spec (key y) (key x)); [ | lia].
  now rewrite IH.
Qed.

Lemma insert_sorted x l :
  StronglySorted le_key l -> StronglySorted le_key (insertBy cmp x l).
Proof.
  induction 1 as [ | y l Hs IH Hy]; [repeat constructor | ].
  rewrite insertBy_cons. destruct (Z.ltb_spec (key y) (key x)).
  - constructor; [exact IH | ].
    apply (Permutation_Forall (x := x :: l)).
    + symmetry. apply insert_perm.
    + constructor; [unfold le_key; lia | exact Hy].
  - constructor; [now constructor | ].
    constructor; [unfold le_key; lia | ].
    eapply Forall_impl; [ | exact Hy]. unfold le_key. intros; lia.
Qed.

Lemma sort_sorted l : StronglySorted le_key (sortBy cmp l).
Proof.
  induction l; cbn; [constructor | now apply insert_sorted].
Qed.

Lemma filter_insert (P : A -> bool) x l :
  StronglySorted le_key l ->
  filter P (insertBy cmp x l)
  = if P x then insertBy cmp x (filter P l) else filter P l.
Proof.
  induction 1 as [ | y l Hs IH Hy].
  - cbn. destruct (P x); reflexivity.
  - rewrite insertBy_cons.
    destruct (Z.ltb_spec (key y) (key x)) as [L | G].
    + cbn [filter]. rewrite IH. destruct (P y), (P x); try reflexivity.
      rewrite insertBy_cons.
      destruct (Z.ltb_spec (key y) (key x)); [reflexivity | lia].
    + cbn [filter]. destruct (P x) eqn:Px; [ | reflexivity].
      symmetry. apply insert_front.
      assert (F : Forall (fun z => key x <= key z) (y :: l)).
      { constructor; [lia | ].
        eapply Forall_impl; [ | exact Hy]. unfold le_key. intros; lia. }
      apply (incl_Forall (l1 := y :: l)); [ | exact F].
      apply (incl_filter P (y :: l)).
Qed.

Lemma filter_sort (P : A -> bool) l :
  filter P (sortBy cmp l) = sortBy cmp (filter P l).
Proof.
  induction l as [ | x l IH]; [reflexivity | ].
  cbn [sortBy fold_right filter].
  rewrite filter_insert by apply sort_sorted.
  fold (sortBy cmp l). rewrite IH. destruct (P x); reflexivity.
Qed.

Lemma sort_same_key k l :
  Forall (fun y => key y = k) l -> sortBy cmp l = l.
Proof.
  induction 1 as [ | x l Hx Hl IH]; [reflexivity | ].
  cbn. fold (sortBy cmp l). rewrite IH. apply insert_front.
  eapply Forall_impl; [ | exact Hl]. cbn. intros; lia.
Qed.

(** Stability: the elements of one key keep their order. *)
Lemma sort_stable k l :
  filter (fun a => key a =? k) (sortBy cmp l)
  = filter (fun a => key a =? k) l.
Proof.
  rewrite filter_sort. apply sort_same_key with (k := k).
  apply Forall_forall. intros x Hx. apply filter_In in Hx as [_ Hx].
  now apply Z.eqb_eq.
Qed.

Lemma sort_nil_iff l : sortBy cmp l = [] <-> l = [].
Proof.
  split; [ | now intros ->].
  intros H. apply Permutation_nil. rewrite <- H. apply sort_perm.
Qed.

Lemma sort_of_sorted l : StronglySorted le_key l -> sortBy cmp l = l.
Proof.
  induction 1 as [ | x l Hs IH Hx]; [reflexivity | ].
  cbn. fold (sortBy cmp l). rewrite IH. now apply insert_front.
Qed.
End SortFacts.

(** ** The year cycle *)




(** ** Easter *)

(** C4: [easterSunday] reproduces the two reference dates, Easter 2025 on
    April 20 and Easter 2026 on April 5; being a function of the year, it
    gives the same date at every call. *)
Theorem easterSunday_reference :
  easterSunday 2025 = makeDate 2025 4 20
  /\ formatDate (easterSunday 2025) = (2025, 4, 20)
  /\ easterSunday 2026 = makeDate 2026 4 5
  /\ formatDate (easterSunday 2026) = (2026, 4, 5).
Proof. repeat split; vm_compute; reflexivity. Qed.

(** ** Entries of the generated calendar *)

Lemma generateChurchYear_In Y e :
  In e (generateChurchYear Y) <-> In e (churchYearEntries Y).
Proof. unfold generateChurchYear. apply (sort_In date). Qed.

Lemma generateChurchYear_on Y d :
  filter (fun e => date e =? d) (generateChurchYear Y)
  = filter (fun e => date e =? d) (churchYearEntries Y).
Proof. unfold generateChurchYear. apply (sort_stable date). Qed.

(** C3 fails on the code: the Independence Day entry is dated December 6 of
    the year after the start year, six days after that year's November 30,
    hence on or after the first Advent Sunday that opens the next church
    year.  For the church year 2025 it is dated 2026-12-06, after the first
    Advent Sunday 2026-11-29. *)
Theorem itsenaisyyspaiva_after_next_advent (Y : Z) :
  In (add (makeDate (Y + 1) 12 6) "itsenaisyyspaiva" "Itsenäisyyspäivä"
          special)
     (generateChurchYear Y)
  /\ nearestSunday (makeDate (Y + 1) 11 30) < makeDate (Y + 1) 12 6
  /\ formatDate (makeDate (2025 + 1) 12 6) = (2026, 12, 6)
  /\ formatDate (nearestSunday (makeDate (2025 + 1) 11 30)) = (2026, 11, 29).
Proof.
  split; [ | split; [ | split; vm_compute; reflexivity]].
  - apply generateChurchYear_In. unfold churchYearEntries, specialEntries.
    rewrite !in_app_iff. do 14 right. cbn [In]. right. left. reflexivity.
  - pose proof (nearestSunday_bounds (makeDate (Y + 1) 11 30)) as B.
    rewrite makeDate_month11 in *. rewrite makeDate_month12.
    lia.
Qed.

(** ** The start of the church year *)

Lemma november30_eq Y :
  november30 Y = Ecma.DayFromYear Y + Ecma.InLeapYear Y + 333.
Proof.
  unfold november30, Ecma.MakeDay.
  change (10 / 12) with 0. change (10 mod 12) with 10.
  rewrite Z.add_0_r.
  generalize (Ecma.InLeapYear Y) (Ecma.DayFromYear Y). intros L J.
  unfold Ecma.MonthStart. cbn [Z.eqb Pos.eqb]. lia.
Qed.

Lemma makeDate_november30 Y :
  ~ 0 <= Y <= 99 -> makeDate Y 11 30 = november30 Y.
Proof.
  intros H. rewrite makeDate_month11, november30_eq, FullYear_id by exact H.
  lia.
Qed.

Lemma firstAdvent_bounds Y :
  Ecma.DayFromYear Y + 330 <= firstAdvent Y
  /\ firstAdvent Y + 28 < Ecma.DayFromYear (Y + 1).
Proof.
  unfold firstAdvent. pose proof (nearestSunday_bounds (november30 Y)) as B.
  pose proof (november30_eq Y) as N. rewrite DayFromYear_succ.
  pose proof (InLeapYear_range Y). lia.
Qed.

Lemma firstAdvent_mono a b : a <= b -> firstAdvent a <= firstAdvent b.
Proof.
  intros H. destruct (Z.eq_dec a b) as [-> | N]; [lia | ].
  pose proof (firstAdvent_bounds a). pose proof (firstAdvent_bounds b).
  pose proof (DayFromYear_mono (a + 1) b ltac:(lia)). lia.
Qed.

Lemma YearFromDay_firstAdvent Y k :
  -330 <= k <= 28 -> Ecma.YearFromDay (firstAdvent Y + k) = Y.
Proof.
  intros Hk. apply YearFromDay_unique.
  pose proof (firstAdvent_bounds Y). lia.
Qed.

Lemma getChurchYearStart_eq d :
  ~ 0 <= getUTCFullYear d <= 99 ->
  getChurchYearStart d
  = if d <? firstAdvent (getUTCFullYear d)
    then getUTCFullYear d - 1 else getUTCFullYear d.
Proof.
  intros H. unfold getChurchYearStart. cbv zeta.
  rewrite makeDate_november30 by exact H. unfold firstAdvent. reflexivity.
Qed.

Lemma inChurchYear_unique d Y Y' :
  inChurchYear d Y -> inChurchYear d Y' -> Y = Y'.
Proof.
  unfold inChurchYear. intros [A B] [A' B'].
  destruct (Z.lt_trichotomy Y Y') as [L | [E | G]]; [ | exact E | ].
  - pose proof (firstAdvent_mono (Y + 1) Y' ltac:(lia)). lia.
  - pose proof (firstAdvent_mono (Y' + 1) Y ltac:(lia)). lia.
Qed.

Lemma getChurchYearStart_inChurchYear d :
  ~ 0 <= getUTCFullYear d <= 99 -> inChurchYear d (getChurchYearStart d).
Proof.
  intros H. rewrite getChurchYearStart_eq by exact H.
  unfold getUTCFullYear in *. set (y := Ecma.YearFromDay d) in *.
  pose proof (YearFromDay_spec d) as S. fold y in S.
  pose proof (firstAdvent_bounds y) as By.
  unfold inChurchYear.
  destruct (Z.ltb_spec d (firstAdvent y)) as [L | G].
  - replace (y - 1 + 1) with y by lia.
    pose proof (firstAdvent_bounds (y - 1)) as B1.
    replace (y - 1 + 1) with y in B1 by lia. lia.
  - pose proof (firstAdvent_bounds (y + 1)) as B1. lia.
Qed.




(** ** The preceding-Sunday scan *)

Section PrecedingSunday.
Variable d : Date.

Let qualifies (e : CalendarEntry) : bool :=
  (EntryType_eqb (type e) sunday || EntryType_eqb (type e) feast)
  && (date e <=? d).

Let scan (best : option CalendarEntry) (entry : CalendarEntry) :=
  if qualifies entry
  then match best with
       | None => Some entry
       | Some b => if date b <? date entry then Some entry else best
       end
  else best.

Lemma qualifies_precedes e : qualifies e = true <-> precedes d e.
Proof.
  unfold qualifies, precedes. rewrite andb_true_iff, orb_true_iff, Z.leb_le.
  destruct (type e); cbn; intuition congruence.
Qed.

Lemma scan_fold l :
  forall best,
    (best <> None -> fold_left scan l best <> None)
    /\ ((exists e, In e l /\ qualifies e = true) ->
        fold_left scan l best <> None)
    /\ (forall e, fold_left scan l best = Some e ->
                  best = Some e \/ (In e l /\ qualifies e = true)).
Proof.
  induction l as [ | x l IH]; intros best; cbn [fold_left].
  - split; [tauto | split].
    + intros (e & [] & _).
    + intros e H. now left.
  - destruct (IH (scan best x)) as (I1 & I2 & I3).
    assert (S1 : best <> None -> scan best x <> None).
    { unfold scan. destruct (qualifies x), best as [b | ]; try congruence.
      destruct (date b <? date x); congruence. }
    assert (S2 : qualifies x = true -> scan best x <> None).
    { unfold scan. intros ->. destruct best as [b | ]; try congruence.
      destruct (date b <? date x); congruence. }
    assert (S3 : forall e, scan best x = Some e ->
                           best = Some e \/ (e = x /\ qualifies x = true)).
    { unfold scan. intros e. destruct (qualifies x) eqn:Q; [ | tauto].
      destruct best as [b | ].
      - destruct (date b <? date x); intros H; [right | now left].
        split; congruence.
      - intros H. right. split; congruence. }
    split; [ | split].
    + intros H. apply I1, S1, H.
    + intros (e & [-> | He] & Q).
      * apply I1, S2, Q.
      * apply I2. now exists e.
    + intros e H. destruct (I3 e H) as [B | [He Q]].
      * destruct (S3 e B) as [B' | [-> Q]]; [now left | right].
        split; [now left | exact Q].
      * right. split; [now right | exact Q].
Qed.

(** The scan finds an entry as soon as one qualifies, and what it finds
    qualifies. *)
Lemma findPrecedingSunday_found calendar :
  (exists e, In e calendar /\ precedes d e) ->
  exists e, findPrecedingSunday calendar d = Some e
            /\ In e calendar /\ precedes d e.
Proof.
  intros (e0 & He0 & P0).
  destruct (scan_fold calendar None) as (_ & I2 & I3).
  change (fold_left scan calendar None)
    with (findPrecedingSunday calendar d) in I2, I3.
  destruct (findPrecedingSunday calendar d) as [e | ] eqn:E.
  - exists e. destruct (I3 e eq_refl) as [B | [He Q]]; [discriminate | ].
    split; [reflexivity | split; [exact He | ]].
    now apply qualifies_precedes.
  - exfalso. apply I2; [ | reflexivity].
    exists e0. split; [exact He0 | now apply qualifies_precedes].
Qed.

Lemma findPrecedingSunday_none calendar :
  (forall e, In e calendar -> ~ precedes d e) ->
  findPrecedingSunday calendar d = None.
Proof.
  intros H. destruct (scan_fold calendar None) as (_ & _ & I3).
  change (fold_left scan calendar None)
    with (findPrecedingSunday calendar d) in I3.
  destruct (findPrecedingSunday calendar d) as [e | ]; [ | reflexivity].
  destruct (I3 e eq_refl) as [B | [He Q]]; [discriminate | ].
  exfalso. apply (H e He). now apply qualifies_precedes.
Qed.
End PrecedingSunday.

Lemma advent1_generated Y :
  In (add (advent1 Y) "1-adventtisunnuntai" "1. adventtisunnuntai" sunday)
     (generateChurchYear Y).
Proof.
  apply generateChurchYear_In. unfold churchYearEntries, adventEntries.
  rewrite !in_app_iff. left. left. left. reflexivity.
Qed.

Lemma newYear_generated Y :
  In (add (makeDate (Y + 1) 1 1) "uudenvuodenpaiva" "Uudenvuodenpäivä" feast)
     (generateChurchYear Y).
Proof.
  apply generateChurchYear_In. unfold churchYearEntries, christmasEntries.
  rewrite !in_app_iff. right. left. right. right. left.
  right. left. reflexivity.
Qed.

Lemma advent1_firstAdvent Y : ~ 0 <= Y <= 99 -> advent1 Y = firstAdvent Y.
Proof.
  intros H. unfold advent1, firstAdvent.
  now rewrite makeDate_november30.
Qed.

(** Outside the years 1 to 99 the calendar selected for a date holds an
    entry of type sunday or feast that is not after the date. *)
Lemma calendar_has_preceding d :
  getUTCFullYear d <= 0 \/ 100 <= getUTCFullYear d ->
  exists e, In e (getCalendar (getChurchYearStart d)) /\ precedes d e.
Proof.
  intros H. unfold getCalendar.
  pose proof (YearFromDay_spec d) as S. fold (getUTCFullYear d) in S.
  set (y := getUTCFullYear d) in *.
  destruct (Z.eq_dec y 0) as [E0 | N0].
  - (* the year 0: [makeDate 0 11 30] lies in 1900 *)
    assert (C : getChurchYearStart d = -1).
    { unfold getChurchYearStart. cbv zeta. fold y. rewrite E0.
      pose proof (nearestSunday_bounds (makeDate 0 11 30)) as B.
      assert (M : makeDate 0 11 30 = -25234) by (vm_compute; reflexivity).
      rewrite M in *.
      assert (D1 : Ecma.DayFromYear (0 + 1) = -719162)
        by (vm_compute; reflexivity).
      rewrite E0, D1 in S.
      destruct (Z.ltb_spec d (nearestSunday (-25234))); lia. }
    rewrite C. eexists. split; [apply advent1_generated | ].
    split; [left; reflexivity | ]. cbn [date add].
    rewrite advent1_firstAdvent by lia.
    pose proof (firstAdvent_bounds (-1)) as B.
    change (-1 + 1) with 0 in B. rewrite E0 in S. lia.
  - assert (Hy : ~ 0 <= y <= 99) by lia.
    rewrite getChurchYearStart_eq by exact Hy. fold y.
    destruct (Z.ltb_spec d (firstAdvent y)) as [L | G].
    + destruct (Z.eq_dec y 100) as [E100 | N100].
      * (* start year 99: the first Advent entry lies in 1999, New Year's
           Day in the year 100 *)
        rewrite E100. change (100 - 1) with 99.
        eexists. split; [apply newYear_generated | ].
        split; [right; reflexivity | ]. cbn [date add].
        rewrite makeDate_month1. change (99 + 1) with 100.
        rewrite FullYear_id by lia. rewrite E100 in S. lia.
      * eexists. split; [apply advent1_generated | ].
        split; [left; reflexivity | ]. cbn [date add].
        rewrite advent1_firstAdvent by lia.
        pose proof (firstAdvent_bounds (y - 1)) as B.
        replace (y - 1 + 1) with y in B by lia. lia.
    + eexists. split; [apply advent1_generated | ].
      split; [left; reflexivity | ]. cbn [date add].
      rewrite advent1_firstAdvent by lia. exact G.
Qed.

(** ** [resolveDate] on a date without entry *)

Section ResolveNoMatch.
Variable Enriched : Type.
Variable enrichEntry : CalendarEntry -> Z -> Enriched.
Variable dataSeason : string -> option string.

Lemma resolveDate_noEntry d :
  noEntryOn d ->
  let calendar := getCalendar (getChurchYearStart d) in
  let yearCycle := getYearCycle (getChurchYearStart d) in
  let r := resolveDate Enriched enrichEntry dataSeason d in
  rd_holyDay _ r = None
  /\ rd_additionalServices _ r = None
  /\ rd_precedingSunday _ r
     = Some (option_map (fun e => enrichEntry e yearCycle)
                        (findPrecedingSunday calendar d))
  /\ rd_season _ r
     = match findPrecedingSunday calendar d with
       | Some e => getSeason dataSeason e
       | None => None
       end.
Proof.
  intros H. cbv zeta. unfold resolveDate. cbv zeta.
  unfold noEntryOn in H. rewrite H.
  cbn [rd_holyDay rd_additionalServices rd_precedingSunday rd_season].
  split; [reflexivity | split; [reflexivity | split; reflexivity]].
Qed.
End ResolveNoMatch.




(** C8 fails on the code: on a date without calendar entry the object
    returned by [resolveDate] has [holyDay] null and no [additionalServices]
    property at all (not even an empty list). *)
Theorem resolveDate_without_entry_no_additionalServices
  (Enriched : Type) (enrichEntry : CalendarEntry -> Z -> Enriched)
  (dataSeason : string -> option string) (d : Date)
  (Hn : noEntryOn d) :
  rd_holyDay _ (resolveDate Enriched enrichEntry dataSeason d) = None
  /\ rd_additionalServices _ (resolveDate Enriched enrichEntry dataSeason d)
     = None.
Proof.
  destruct (resolveDate_noEntry Enriched enrichEntry dataSeason d Hn)
    as (H1 & H2 & _).
  split; [exact H1 | exact H2].
Qed.

(** Tuesday, February 3, 2026: no entry, no [additionalServices]. *)
Lemma resolveDate_without_entry_no_additionalServices_witness :
  noEntryOn (parseDate (2026, 2, 3))
  /\ rd_additionalServices _
       (resolveDate CalendarEntry (fun e _ => e) (fun _ => None)
                    (parseDate (2026, 2, 3)))
     = None
  /\ rd_dayOfWeek _
       (resolveDate CalendarEntry (fun e _ => e) (fun _ => None)
                    (parseDate (2026, 2, 3)))
     = "tiistai".
Proof.
  assert (Hn : noEntryOn (parseDate (2026, 2, 3))).
  { vm_compute. reflexivity. }
  split; [exact Hn | split].
  - apply (resolveDate_without_entry_no_additionalServices
             CalendarEntry (fun e _ => e) (fun _ => None)
             (parseDate (2026, 2, 3)) Hn).
  - vm_compute. reflexivity.
Defined.

(** ** The Sundays after Pentecost *)

Lemma pentecostLoop_run Y (n : nat) :
  forall fuel cur num,
    (n <= fuel)%nat ->
    cur + 7 * (Z.of_nat n - 1) <= tuomiosunnuntai Y < cur + 7 * Z.of_nat n ->
    pentecostLoop Y fuel cur num
    = map (fun k => (cur + 7 * Z.of_nat k, num + Z.of_nat k)) (seq 0 n).
Proof.
  induction n as [ | n IH]; intros fuel cur num Hf Hr.
  - destruct fuel as [ | fuel]; [reflexivity | ].
    cbn [pentecostLoop seq map].
    destruct (Z.leb_spec cur (tuomiosunnuntai Y)); [lia | reflexivity].
  - destruct fuel as [ | fuel]; [lia | ].
    cbn [pentecostLoop].
    destruct (Z.leb_spec cur (tuomiosunnuntai Y)); [ | lia].
    rewrite addDays_plus, (IH fuel (cur + 7) (num + 1)) by lia.
    cbn [seq map]. rewrite Z.mul_0_r, !Z.add_0_r. f_equal.
    rewrite <- seq_shift, map_map. apply map_ext. intros k.
    f_equal; lia.
Qed.

Lemma pentecostFor_app total l1 :
  forall i l2,
    pentecostFor total i (l1 ++ l2)
    = pentecostFor total i l1
      ++ pentecostFor total (i + Z.of_nat (List.length l1)) l2.
Proof.
  induction l1 as [ | [d k] l1 IH]; intros i l2.
  - cbn [app pentecostFor List.length Z.of_nat]. now rewrite Z.add_0_r.
  - cbn [app pentecostFor List.length]. rewrite IH. cbn [app].
    do 3 f_equal. lia.
Qed.

(** The end-of-year names come first in the chain of tests, whatever the
    running index of the slot. *)
Lemma pentecostEntry_end total i d :
  (total - i = 1 -> pentecostEntry total i d = tuomioEntry d)
  /\ (total - i = 2 -> pentecostEntry total i d = valvomisenEntry d).
Proof.
  unfold pentecostEntry. cbv zeta. split; intros ->; reflexivity.
Qed.

Lemma pentecostFor_last_two total front d1 k1 d2 k2 :
  total = Z.of_nat (List.length front) + 2 ->
  pentecostFor total 0 (front ++ [(d1, k1); (d2, k2)])
  = pentecostFor total 0 front ++ [valvomisenEntry d1; tuomioEntry d2].
Proof.
  intros Ht. rewrite pentecostFor_app. f_equal.
  cbn [pentecostFor].
  rewrite (proj2 (pentecostEntry_end total _ d1)) by lia.
  rewrite (proj1 (pentecostEntry_end total _ d2)) by lia.
  reflexivity.
Qed.

Lemma pentecostSundayEntries_generated Y e :
  In e (pentecostSundayEntries Y) -> In e (generateChurchYear Y).
Proof.
  intros He. apply generateChurchYear_In. unfold churchYearEntries.
  rewrite !in_app_iff. tauto.
Qed.

(** From the year 100 on Easter is a Sunday between March 22 and April 25:
    in days from the start of its year and the leap day. *)
Lemma easterSunday_in_year y :
  100 <= y ->
  exists p, 0 <= p <= 34
            /\ easterSunday y
               = Ecma.DayFromYear y + Ecma.InLeapYear y + 80 + p
            /\ (easterSunday y + 4) mod 7 = 0.
Proof.
  intros H. destruct (easterSunday_offset y H) as (p & Hp & E & W).
  exists p. split; [exact Hp | split; [exact E | exact W]].
Qed.

Lemma nextAdvent1_in_year Y :
  99 <= Y ->
  Ecma.DayFromYear (Y + 1) + Ecma.InLeapYear (Y + 1) + 330
  <= nextAdvent1 Y
  <= Ecma.DayFromYear (Y + 1) + Ecma.InLeapYear (Y + 1) + 336
  /\ (nextAdvent1 Y + 4) mod 7 = 0.
Proof.
  intros H. unfold nextAdvent1.
  pose proof (nearestSunday_bounds (makeDate (Y + 1) 11 30)) as B.
  pose proof (nearestSunday_WeekDay (makeDate (Y + 1) 11 30)) as W.
  pose proof (makeDate_month11 (Y + 1) 30) as M.
  rewrite FullYear_id in M by lia.
  split; [lia | exact W].
Qed.

Lemma pentecostSundays_run Y :
  99 <= Y ->
  exists q : nat,
    easterSunday (Y + 1) + 63 + 7 * (Z.of_nat q + 1) = nextAdvent1 Y - 7
    /\ pentecostSundays Y
       = map (fun k => (easterSunday (Y + 1) + 63 + 7 * Z.of_nat k,
                        2 + Z.of_nat k))
             (seq 0 (q + 2)).
Proof.
  intros H.
  destruct (easterSunday_in_year (Y + 1) ltac:(lia)) as (p & Hp & E & WE).
  destruct (nextAdvent1_in_year Y H) as (B & WN).
  set (m := (nextAdvent1 Y - 7 - (easterSunday (Y + 1) + 63)) / 7).
  assert (Hm : nextAdvent1 Y - 7 = easterSunday (Y + 1) + 63 + 7 * m)
    by (unfold m; Z.div_mod_to_equations; lia).
  assert (Hm1 : 1 <= m) by lia.
  exists (Z.to_nat (m - 1)). split; [lia | ].
  unfold pentecostSundays. cbv zeta.
  unfold pentecost, easter, tuomiosunnuntai. rewrite !addDays_plus.
  rewrite (pentecostLoop_run Y (Z.to_nat (m - 1) + 2)).
  - apply map_ext. intros k. f_equal; lia.
  - lia.
  - unfold tuomiosunnuntai. rewrite addDays_plus. lia.
Qed.




(** ** Slugs *)

Lemma length_append_string (s t : string) :
  String.length (s ++ t)%string = (String.length s + String.length t)%nat.
Proof. induction s as [ | c s IH]; cbn; [reflexivity | now rewrite IH]. Qed.

Lemma eqb_length_false (s t : string) :
  String.length s <> String.length t -> String.eqb s t = false.
Proof.
  intros H. apply String.eqb_neq. intros ->. now apply H.
Qed.

Lemma endsWith_short (s suffix : string) :
  (String.length s < String.length suffix)%nat -> endsWith s suffix = false.
Proof.
  induction s as [ | c s IH]; intros H; cbn [endsWith].
  - rewrite eqb_length_false by lia. reflexivity.
  - rewrite eqb_length_false by lia. apply IH. cbn in H. lia.
Qed.

(** A string that ends in a text as long as the suffix ends with the suffix
    exactly when that text is the suffix. *)
Lemma endsWith_append (p t suffix : string) :
  String.length t = String.length suffix ->
  endsWith (p ++ t)%string suffix = String.eqb t suffix.
Proof.
  intros H. induction p as [ | c p IH].
  - cbn [String.append]. destruct t as [ | c t]; cbn [endsWith].
    + now rewrite orb_false_r.
    + rewrite (endsWith_short t) by (cbn in H; lia). now rewrite orb_false_r.
  - cbn [String.append endsWith].
    rewrite eqb_length_false by (cbn; rewrite length_append_string; lia).
    exact IH.
Qed.

(** ** The Sundays after Epiphany *)

Lemma epiphanyLoop_run Y (n : nat) :
  forall fuel cur count,
    (n <= fuel)%nat ->
    (n = 0%nat \/ (cur + 7 * (Z.of_nat n - 1) < septuagesima Y
                   /\ count + Z.of_nat n - 1 <= 6)) ->
    (septuagesima Y <= cur + 7 * Z.of_nat n \/ 6 < count + Z.of_nat n) ->
    epiphanyLoop Y fuel cur count
    = map (fun k => add (cur + 7 * Z.of_nat k)
                        (num (count + Z.of_nat k) ++ "-sunnuntai-loppiaisesta")
                        (num (count + Z.of_nat k) ++ ". sunnuntai loppiaisesta")
                        sunday)
          (seq 0 n).
Proof.
  induction n as [ | n IH]; intros fuel cur count Hf Hin Hout.
  - destruct fuel as [ | fuel]; [reflexivity | ].
    cbn [epiphanyLoop seq map].
    destruct (Z.ltb_spec cur (septuagesima Y)), (Z.leb_spec count 6);
      cbn [andb]; try reflexivity. lia.
  - destruct fuel as [ | fuel]; [lia | ].
    cbn [epiphanyLoop].
    destruct (Z.ltb_spec cur (septuagesima Y)); [ | lia].
    destruct (Z.leb_spec count 6); [ | lia]. cbn [andb].
    rewrite addDays_plus, (IH fuel (cur + 7) (count + 1)) by lia.
    cbn [seq map]. rewrite Z.mul_0_r, !Z.add_0_r. f_equal.
    rewrite <- seq_shift, map_map. apply map_ext. intros k.
    replace (cur + 7 + 7 * Z.of_nat k) with (cur + 7 * Z.of_nat (S k)) by lia.
    replace (count + 1 + Z.of_nat k) with (count + Z.of_nat (S k)) by lia.
    reflexivity.
Qed.

Lemma filter_none {A} (P : A -> bool) (l : list A) :
  forallb (fun x => negb (P x)) l = true -> filter P l = [].
Proof.
  induction l as [ | x l IH]; [reflexivity | ].
  cbn [forallb filter]. intros H. apply andb_true_iff in H as [Hx Hl].
  destruct (P x); [discriminate | now apply IH].
Qed.

Lemma filter_all {A} (P : A -> bool) (l : list A) :
  forallb P l = true -> filter P l = l.
Proof.
  induction l as [ | x l IH]; [reflexivity | ].
  cbn [forallb filter]. intros H. apply andb_true_iff in H as [Hx Hl].
  rewrite Hx. f_equal. now apply IH.
Qed.

Lemma optionalSunday_no_epiphany d s n :
  endsWith s "-sunnuntai-loppiaisesta" = false ->
  filter isEpiphanySunday (optionalSunday d s n) = [].
Proof.
  intros H. destruct d as [d | ]; [ | reflexivity].
  cbn [optionalSunday filter]. unfold isEpiphanySunday. cbn [slug add].
  now rewrite H.
Qed.

Lemma conditional_no_epiphany b d s n t :
  endsWith s "-sunnuntai-loppiaisesta" = false ->
  filter isEpiphanySunday (conditional b (add d s n t)) = [].
Proof.
  intros H. destruct b; [ | reflexivity].
  cbn [conditional filter]. unfold isEpiphanySunday. cbn [slug add].
  now rewrite H.
Qed.

Lemma pentecostEntry_no_epiphany total i d :
  isEpiphanySunday (pentecostEntry total i d) = false.
Proof.
  unfold pentecostEntry. cbv zeta.
  destruct (total - i =? 1); [reflexivity | ].
  destruct (total - i =? 2); [reflexivity | ].
  destruct (i + 2 =? 6); [reflexivity | ].
  destruct (i + 2 =? 8); [reflexivity | ].
  destruct (i + 2 =? 22); [reflexivity | ].
  unfold isEpiphanySunday. cbn [slug add].
  rewrite endsWith_append by reflexivity. reflexivity.
Qed.

Lemma pentecostFor_no_epiphany total l :
  forall i, filter isEpiphanySunday (pentecostFor total i l) = [].
Proof.
  induction l as [ | [d k] l IH]; intros i; [reflexivity | ].
  cbn [pentecostFor filter].
  now rewrite IH, pentecostEntry_no_epiphany.
Qed.

Lemma fixed_blocks_no_epiphany Y :
  filter isEpiphanySunday (adventEntries Y) = []
  /\ filter isEpiphanySunday (christmasEntries Y) = []
  /\ filter isEpiphanySunday (preLentEntries Y) = []
  /\ filter isEpiphanySunday (lentEntries Y) = []
  /\ filter isEpiphanySunday (holyWeekEntries Y) = []
  /\ filter isEpiphanySunday (easterEntries Y) = []
  /\ filter isEpiphanySunday (ascensionPentecostEntries Y) = []
  /\ filter isEpiphanySunday (specialEntries Y) = [].
Proof.
  repeat apply conj.
  - apply filter_none. reflexivity.
  - unfold christmasEntries. cbv zeta. rewrite !filter_app.
    rewrite !optionalSunday_no_epiphany by reflexivity.
    reflexivity.
  - apply filter_none. reflexivity.
  - apply filter_none. reflexivity.
  - apply filter_none. reflexivity.
  - apply filter_none. reflexivity.
  - apply filter_none. reflexivity.
  - unfold specialEntries. cbv zeta. rewrite !filter_app.
    rewrite !conditional_no_epiphany by reflexivity.
    reflexivity.
Qed.

Lemma sundayOnOrAfter_spec x :
  x <= sundayOnOrAfter x <= x + 6 /\ dayOfWeek (sundayOnOrAfter x) = 0.
Proof.
  unfold sundayOnOrAfter, dayOfWeek. rewrite addDays_plus.
  pose proof (WeekDay_range x) as R.
  destruct (Z.eqb_spec (Ecma.WeekDay x) 0) as [E | N].
  - split; [lia | exact E].
  - split; [lia | ]. unfold Ecma.WeekDay in *.
    Z.div_mod_to_equations. lia.
Qed.

Lemma epiphanySundays_sorted first n :
  forall s,
    StronglySorted (fun a b => date a <= date b)
      (map (fun k => epiphanySundayEntry first (Z.of_nat k)) (seq s n)).
Proof.
  induction n as [ | n IH]; intros s; cbn [seq map]; constructor.
  - apply IH.
  - apply Forall_forall. intros e He. apply in_map_iff in He as (k & <- & Hk).
    apply in_seq in Hk. unfold epiphanySundayEntry. cbn [date add]. lia.
Qed.

Lemma epiphany_filter_raw Y :
  filter isEpiphanySunday (churchYearEntries Y)
  = filter isEpiphanySunday (epiphanyEntries Y).
Proof.
  destruct (fixed_blocks_no_epiphany Y)
    as (H1 & H2 & H3 & H4 & H5 & H6 & H7 & H8).
  unfold churchYearEntries. rewrite !filter_app.
  rewrite H1, H2, H3, H4, H5, H6, H7, H8.
  unfold pentecostSundayEntries. rewrite pentecostFor_no_epiphany.
  rewrite !app_nil_l, !app_nil_r. reflexivity.
Qed.

(** C6: when the Easter Sunday of the following year lies between March 22
    and April 25, the calendar holds between one and six
    "N-sunnuntai-loppiaisesta" entries; in calendar order they are numbered
    1, 2, ... and dated a week apart from the first Sunday after January 6,
    each before Easter - 63 days; the loop stops only when the next Sunday
    would reach that day or the count has passed 6. *)
Theorem epiphany_sundays (Y : Z)
  (H : makeDate (Y + 1) 3 22 <= easterSunday (Y + 1)
       <= makeDate (Y + 1) 4 25) :
  let first := sundayOnOrAfter (addDays (makeDate (Y + 1) 1 6) 1) in
  dayOfWeek first = 0
  /\ makeDate (Y + 1) 1 6 < first <= makeDate (Y + 1) 1 6 + 7
  /\ exists n : nat,
       (1 <= n <= 6)%nat
       /\ filter isEpiphanySunday (generateChurchYear Y)
          = map (fun k => epiphanySundayEntry first (Z.of_nat k)) (seq 1 n)
       /\ (forall k, 1 <= k <= Z.of_nat n ->
                     first + 7 * (k - 1) < easterSunday (Y + 1) - 63)
       /\ ((n < 6)%nat ->
           easterSunday (Y + 1) - 63 <= first + 7 * Z.of_nat n).
Proof.
  intros first.
  destruct (sundayOnOrAfter_spec (addDays (makeDate (Y + 1) 1 6) 1))
    as (B & W).
  fold first in B, W. rewrite addDays_plus in B.
  split; [exact W | split; [lia | ]].
  pose proof (makeDate_month1 (Y + 1) 6) as M1.
  pose proof (makeDate_month3 (Y + 1) 22) as M3.
  pose proof (InLeapYear_range (Ecma.FullYear (Y + 1))) as L.
  assert (HS : septuagesima Y = easterSunday (Y + 1) - 63)
    by (unfold septuagesima, easter; rewrite addDays_plus; lia).
  set (D := septuagesima Y - first).
  assert (HD : 0 < D) by (unfold D; lia).
  set (n := if 35 <? D then 6%nat else Z.to_nat ((D + 6) / 7)).
  assert (Hn : (1 <= n <= 6)%nat
               /\ first + 7 * (Z.of_nat n - 1) < septuagesima Y
               /\ (septuagesima Y <= first + 7 * Z.of_nat n \/ n = 6%nat)).
  { unfold n. destruct (Z.ltb_spec 35 D) as [G | G].
    - split; [lia | split; [ | now right]]. unfold D in G. lia.
    - unfold D in *.
      assert (Q : 1 <= (septuagesima Y - first + 6) / 7 <= 5
                  /\ 7 * ((septuagesima Y - first + 6) / 7)
                     < septuagesima Y - first + 7
                  /\ septuagesima Y - first
                     <= 7 * ((septuagesima Y - first + 6) / 7))
        by (Z.div_mod_to_equations; lia).
      split; [lia | split; [lia | left; lia]]. }
  destruct Hn as (Hn1 & Hn2 & Hn3).
  exists n. split; [exact Hn1 | split; [ | split]].
  - unfold generateChurchYear. rewrite (filter_sort date).
    rewrite epiphany_filter_raw. unfold epiphanyEntries, epiphany.
    rewrite filter_app. cbn [filter isEpiphanySunday slug add].
    change (endsWith "loppiainen" "-sunnuntai-loppiaisesta") with false.
    cbn [app]. fold first.
    rewrite (epiphanyLoop_run Y n); [ | change (Z.to_nat (7 - 1)) with 6%nat; lia | right; lia | lia].
    rewrite filter_all.
    + rewrite <- seq_shift, map_map.
      rewrite (map_ext _ (fun k => epiphanySundayEntry first (Z.of_nat (S k)))).
      * rewrite <- (map_map S (fun k => epiphanySundayEntry first (Z.of_nat k))).
        rewrite seq_shift. apply sort_of_sorted, epiphanySundays_sorted.
      * intros k. unfold epiphanySundayEntry.
        replace (1 + Z.of_nat k) with (Z.of_nat (S k)) by lia.
        f_equal. lia.
    + apply forallb_forall. intros e He.
      apply in_map_iff in He as (k & <- & _).
      unfold isEpiphanySunday. cbn [slug add].
      rewrite endsWith_append by reflexivity. reflexivity.
  - intros k Hk. rewrite <- HS. lia.
  - intros Hlt. rewrite <- HS. lia.
Qed.

(** The church year 2025 has three Sundays after Epiphany. *)
Lemma epiphany_sundays_witness :
  makeDate (2025 + 1) 3 22 <= easterSunday (2025 + 1)
  <= makeDate (2025 + 1) 4 25
  /\ map slug (filter isEpiphanySunday (generateChurchYear 2025))
     = ["1-sunnuntai-loppiaisesta"; "2-sunnuntai-loppiaisesta";
        "3-sunnuntai-loppiaisesta"].
Proof.
  assert (H : makeDate (2025 + 1) 3 22 <= easterSunday (2025 + 1)
              <= makeDate (2025 + 1) 4 25)
    by (vm_compute; split; discriminate).
  split; [exact H | ].
  destruct (epiphany_sundays 2025 H) as (_ & _ & n & _ & E & _).
  vm_compute. reflexivity.
Defined.

(** ** Entries by slug *)

Lemma eqb_append_long (p t s : string) :
  (String.length s < String.length t)%nat ->
  String.eqb (p ++ t)%string s = false.
Proof.
  intros H. apply eqb_length_false. rewrite length_append_string. lia.
Qed.

Section SlugFilter.
Variable s0 : string.
Hypothesis short : (String.length s0 < 23)%nat.

Lemma optionalSunday_hasSlug d s n :
  String.eqb s s0 = false -> filter (hasSlug s0) (optionalSunday d s n) = [].
Proof.
  intros H. destruct d as [d | ]; [ | reflexivity].
  cbn [optionalSunday filter]. unfold hasSlug. cbn [slug add].
  now rewrite H.
Qed.

Lemma conditional_hasSlug b d s n t :
  String.eqb s s0 = false ->
  filter (hasSlug s0) (conditional b (add d s n t)) = [].
Proof.
  intros H. destruct b; [ | reflexivity].
  cbn [conditional filter]. unfold hasSlug. cbn [slug add].
  now rewrite H.
Qed.

Lemma epiphanyLoop_hasSlug Y :
  forall fuel cur count, filter (hasSlug s0) (epiphanyLoop Y fuel cur count) = [].
Proof.
  induction fuel as [ | fuel IH]; intros cur count; cbn [epiphanyLoop];
    [reflexivity | ].
  destruct ((cur <? septuagesima Y) && (count <=? 6)); [ | reflexivity].
  cbn [filter]. unfold hasSlug at 1. cbn [slug add].
  rewrite eqb_append_long by (cbn; lia). apply IH.
Qed.

Lemma pentecostFor_hasSlug total l :
  forallb (fun s => negb (String.eqb s s0))
          ["tuomiosunnuntai"; "valvomisen-sunnuntai"; "apostolien-paiva";
           "kirkastussunnuntai"; "reformaation-paiva"] = true ->
  forall i, filter (hasSlug s0) (pentecostFor total i l) = [].
Proof.
  intros H. cbn [forallb] in H.
  apply andb_true_iff in H as [H0 H]. apply andb_true_iff in H as [H1 H].
  apply andb_true_iff in H as [H2 H]. apply andb_true_iff in H as [H3 H].
  apply andb_true_iff in H as [H4 _].
  apply negb_true_iff in H0, H1, H2, H3, H4.
  induction l as [ | [d k] l IH]; intros i; [reflexivity | ].
  cbn [pentecostFor filter]. rewrite IH.
  assert (E : hasSlug s0 (pentecostEntry total i d) = false);
    [ | now rewrite E].
  unfold pentecostEntry. cbv zeta.
  destruct (total - i =? 1); [exact H0 | ].
  destruct (total - i =? 2); [exact H1 | ].
  destruct (i + 2 =? 6); [exact H2 | ].
  destruct (i + 2 =? 8); [exact H3 | ].
  destruct (i + 2 =? 22); [exact H4 | ].
  unfold hasSlug. cbn [slug add]. apply eqb_append_long. cbn. lia.
Qed.
End SlugFilter.

(** The entries of the named slug outside the Ascension and Pentecost
    section: none, for the three slugs of that section. *)
Lemma other_blocks_hasSlug Y s0 :
  In s0 ["helatorstai"; "helluntaiaatto"; "helluntaipaiva"] ->
  filter (hasSlug s0) (churchYearEntries Y)
  = filter (hasSlug s0) (ascensionPentecostEntries Y).
Proof.
  intros Hs.
  assert (short : (String.length s0 < 23)%nat)
    by (destruct Hs as [<- | [<- | [<- | []]]]; cbn; lia).
  unfold churchYearEntries. rewrite !filter_app.
  unfold pentecostSundayEntries.
  rewrite (pentecostFor_hasSlug s0 short)
    by (destruct Hs as [<- | [<- | [<- | []]]]; reflexivity).
  assert (A : filter (hasSlug s0) (adventEntries Y) = []).
  { apply filter_none.
    destruct Hs as [<- | [<- | [<- | []]]]; reflexivity. }
  assert (C : filter (hasSlug s0) (christmasEntries Y) = []).
  { unfold christmasEntries. cbv zeta. rewrite !filter_app.
    rewrite !(optionalSunday_hasSlug s0)
      by (destruct Hs as [<- | [<- | [<- | []]]]; reflexivity).
    destruct Hs as [<- | [<- | [<- | []]]]; reflexivity. }
  assert (E : filter (hasSlug s0) (epiphanyEntries Y) = []).
  { unfold epiphanyEntries. rewrite filter_app.
    rewrite (epiphanyLoop_hasSlug s0 short).
    destruct Hs as [<- | [<- | [<- | []]]]; reflexivity. }
  assert (P : filter (hasSlug s0) (preLentEntries Y) = []).
  { apply filter_none.
    destruct Hs as [<- | [<- | [<- | []]]]; reflexivity. }
  assert (L : filter (hasSlug s0) (lentEntries Y) = []).
  { apply filter_none.
    destruct Hs as [<- | [<- | [<- | []]]]; reflexivity. }
  assert (H : filter (hasSlug s0) (holyWeekEntries Y) = []).
  { apply filter_none.
    destruct Hs as [<- | [<- | [<- | []]]]; reflexivity. }
  assert (Ea : filter (hasSlug s0) (easterEntries Y) = []).
  { apply filter_none.
    destruct Hs as [<- | [<- | [<- | []]]]; reflexivity. }
  assert (Sp : filter (hasSlug s0) (specialEntries Y) = []).
  { unfold specialEntries. cbv zeta. rewrite !filter_app.
    rewrite !(conditional_hasSlug s0)
      by (destruct Hs as [<- | [<- | [<- | []]]]; reflexivity).
    destruct Hs as [<- | [<- | [<- | []]]]; reflexivity. }
  rewrite A, C, E, P, L, H, Ea, Sp.
  rewrite !app_nil_l, !app_nil_r. reflexivity.
Qed.

Lemma generateChurchYear_hasSlug Y s0 e :
  In s0 ["helatorstai"; "helluntaiaatto"; "helluntaipaiva"] ->
  filter (hasSlug s0) (ascensionPentecostEntries Y) = [e] ->
  filter (hasSlug s0) (generateChurchYear Y) = [e].
Proof.
  intros Hs He. unfold generateChurchYear.
  rewrite (filter_sort date), other_blocks_hasSlug, He by exact Hs.
  reflexivity.
Qed.

(** C5: the calendar of every start year holds exactly one entry
    "helatorstai", the feast dated 39 days after the Easter Sunday of the
    following calendar year, exactly one entry "helluntaiaatto", the service
    at + 48 days, and exactly one entry "helluntaipaiva", the feast at + 49
    days. *)
Theorem ascension_pentecost_offsets (Y : Z) :
  filter (hasSlug "helatorstai") (generateChurchYear Y)
  = [add (easterSunday (Y + 1) + 39) "helatorstai" "Helatorstai" feast]
  /\ filter (hasSlug "helluntaiaatto") (generateChurchYear Y)
     = [add (easterSunday (Y + 1) + 48) "helluntaiaatto" "Helluntaiaatto"
            service]
  /\ filter (hasSlug "helluntaipaiva") (generateChurchYear Y)
     = [add (easterSunday (Y + 1) + 49) "helluntaipaiva" "Helluntaipäivä"
            feast].
Proof.
  assert (A : filter (hasSlug "helatorstai") (generateChurchYear Y)
              = [add (ascension Y) "helatorstai" "Helatorstai" feast]).
  { apply generateChurchYear_hasSlug; [cbn [In]; tauto | reflexivity]. }
  assert (B : filter (hasSlug "helluntaiaatto") (generateChurchYear Y)
              = [add (addDays (pentecost Y) (-1)) "helluntaiaatto"
                     "Helluntaiaatto" service]).
  { apply generateChurchYear_hasSlug; [cbn [In]; tauto | reflexivity]. }
  assert (C : filter (hasSlug "helluntaipaiva") (generateChurchYear Y)
              = [add (pentecost Y) "helluntaipaiva" "Helluntaipäivä" feast]).
  { apply generateChurchYear_hasSlug; [cbn [In]; tauto | reflexivity]. }
  unfold ascension, pentecost, easter in A, B, C.
  rewrite !addDays_plus in A, C. repeat rewrite addDays_plus in B.
  replace (easterSunday (Y + 1) + 49 + -1) with (easterSunday (Y + 1) + 48)
    in B by lia.
  split; [exact A | split; [exact B | exact C]].
Qed.

(** ** The loops never run out of fuel

    With the fuel that [generateChurchYear] gives them, the two [while]
    loops stop on their own test: any larger amount of fuel yields the same
    list. *)

Lemma epiphanyLoop_fuel Y :
  forall fuel cur count k,
    (Z.to_nat (7 - count) <= fuel)%nat ->
    epiphanyLoop Y (fuel + k) cur count = epiphanyLoop Y fuel cur count.
Proof.
  induction fuel as [ | fuel IH]; intros cur count k Hf.
  - destruct k as [ | k]; [reflexivity | ].
    cbn [Nat.add epiphanyLoop].
    destruct (Z.leb_spec count 6); [lia | ].
    now rewrite andb_false_r.
  - cbn [Nat.add epiphanyLoop].
    destruct ((cur <? septuagesima Y) && (count <=? 6)) eqn:C;
      [ | reflexivity].
    apply andb_true_iff in C as [_ C]. apply Z.leb_le in C.
    f_equal. apply IH. lia.
Qed.

Lemma pentecostLoop_fuel Y :
  forall fuel cur num k,
    (Z.to_nat (tuomiosunnuntai Y - cur + 1) <= fuel)%nat ->
    pentecostLoop Y (fuel + k) cur num = pentecostLoop Y fuel cur num.
Proof.
  induction fuel as [ | fuel IH]; intros cur num k Hf.
  - destruct k as [ | k]; [reflexivity | ].
    cbn [Nat.add pentecostLoop].
    destruct (Z.leb_spec cur (tuomiosunnuntai Y)); [lia | reflexivity].
  - cbn [Nat.add pentecostLoop].
    destruct (Z.leb_spec cur (tuomiosunnuntai Y)); [ | reflexivity].
    f_equal. apply IH. rewrite addDays_plus. lia.
Qed.

Lemma generation_fuel Y k :
  epiphanyLoop Y (Z.to_nat (7 - 1) + k)
               (sundayOnOrAfter (addDays (epiphany Y) 1)) 1
  = epiphanyLoop Y (Z.to_nat (7 - 1))
                 (sundayOnOrAfter (addDays (epiphany Y) 1)) 1
  /\ pentecostLoop Y
       (Z.to_nat (tuomiosunnuntai Y - addDays (pentecost Y) 14 + 1) + k)
       (addDays (pentecost Y) 14) 2
     = pentecostSundays Y.
Proof.
  split.
  - apply epiphanyLoop_fuel. lia.
  - unfold pentecostSundays. cbv zeta. apply pentecostLoop_fuel. lia.
Qed.

(** ** Every generated entry carries the string of its own date *)

Lemma date_add d s n t : date (add d s n t) = d.
Proof. reflexivity. Qed.

Lemma Forall_add (P : CalendarEntry -> Prop) d s n t l :
  P (add d s n t) -> Forall P l -> Forall P (add d s n t :: l).
Proof. now constructor. Qed.

Lemma Forall_optionalSunday (P : CalendarEntry -> Prop) o s n :
  (forall d, o = Some d -> P (add d s n sunday)) ->
  Forall P (optionalSunday o s n).
Proof.
  intros H. destruct o as [d | ]; cbn [optionalSunday]; constructor.
  - now apply H.
  - constructor.
Qed.

Lemma Forall_conditional (P : CalendarEntry -> Prop) b e :
  (b = true -> P e) -> Forall P (conditional b e).
Proof.
  intros H. destruct b; cbn [conditional]; constructor.
  - now apply H.
  - constructor.
Qed.

Lemma Forall_addWeekdays (P : CalendarEntry -> Prop) d s n :
  (forall k, 1 <= k <= 6 -> P (add (addDays d k) s n weekday)) ->
  Forall P (addWeekdays d s n).
Proof.
  intros H. unfold addWeekdays. apply Forall_forall. intros e He.
  apply in_map_iff in He as (k & <- & Hk).
  apply (H k). cbn [In] in Hk. lia.
Qed.

Lemma Forall_epiphanyLoop (P : CalendarEntry -> Prop) Y lo :
  (forall d s n, lo <= d < septuagesima Y -> P (add d s n sunday)) ->
  forall fuel cur count,
    lo <= cur -> Forall P (epiphanyLoop Y fuel cur count).
Proof.
  intros H. induction fuel as [ | fuel IH]; intros cur count Hlo;
    cbn [epiphanyLoop]; [constructor | ].
  destruct (Z.ltb_spec cur (septuagesima Y)); cbn [andb]; [ | constructor].
  destruct (count <=? 6); constructor.
  - apply H. lia.
  - apply IH. rewrite addDays_plus. lia.
Qed.

Lemma pentecostEntry_add total i d :
  exists s n, pentecostEntry total i d = add d s n sunday.
Proof.
  unfold pentecostEntry. cbv zeta.
  repeat match goal with
         | |- context [if ?b then _ else _] => destruct b
         end; eexists; eexists; reflexivity.
Qed.

Lemma Forall_pentecostFor (P : CalendarEntry -> Prop) total :
  forall l i,
    Forall (fun dk => forall s n, P (add (fst dk) s n sunday)) l ->
    Forall P (pentecostFor total i l).
Proof.
  induction l as [ | [d k] l IH]; intros i H; cbn [pentecostFor];
    [constructor | ].
  inversion_clear H as [ | ? ? Hd Hl].
  destruct (pentecostEntry_add total i d) as (s & n & ->).
  constructor; [apply Hd | now apply IH].
Qed.

Lemma Forall_pentecostLoop (Q : Date -> Prop) Y :
  forall fuel cur num,
    (forall c, cur <= c <= tuomiosunnuntai Y -> Q c) ->
    Forall (fun dk => Q (fst dk)) (pentecostLoop Y fuel cur num).
Proof.
  induction fuel as [ | fuel IH]; intros cur num H; cbn [pentecostLoop];
    [constructor | ].
  destruct (Z.leb_spec cur (tuomiosunnuntai Y)); constructor.
  - apply H. cbn [fst]. lia.
  - apply IH. intros c Hc. apply H. rewrite addDays_plus in Hc. lia.
Qed.

Ltac entries_forall :=
  repeat first
    [ apply Forall_nil
    | apply Forall_app; split
    | apply Forall_add
    | apply Forall_optionalSunday; intros ? ?
    | apply Forall_conditional; intros ?
    | apply Forall_addWeekdays; intros ? ?
    | eapply Forall_epiphanyLoop; [intros ? ? ? ? | apply Z.le_refl]
    | apply Forall_pentecostFor ].

Lemma churchYearEntries_add (P : CalendarEntry -> Prop) Y :
  (forall d s n t, P (add d s n t)) -> Forall P (churchYearEntries Y).
Proof.
  intros H.
  unfold churchYearEntries, adventEntries, christmasEntries, epiphanyEntries,
    preLentEntries, lentEntries, holyWeekEntries, easterEntries,
    ascensionPentecostEntries, pentecostSundayEntries, specialEntries.
  cbv zeta. cbn [map].
  entries_forall; try apply H.
  apply Forall_forall. intros dk _ s n. apply H.
Qed.

Lemma generated_dateStr Y e :
  In e (churchYearEntries Y) -> dateStr e = formatDate (date e).
Proof.
  revert e. apply Forall_forall. apply churchYearEntries_add.
  intros d s n t. reflexivity.
Qed.

(** The entries that [resolveDate] matches by date string are the entries
    generated for that day, in generation order. *)
Lemma matches_generatedOn d :
  filter (fun e => dateStr_eqb (dateStr e) (formatDate d))
         (getCalendar (getChurchYearStart d))
  = generatedOn d.
Proof.
  unfold generatedOn, getCalendar.
  rewrite <- generateChurchYear_on.
  apply filter_ext_in. intros e He.
  apply (proj1 (generateChurchYear_In _ e)) in He.
  rewrite (generated_dateStr _ e He). apply dateStr_eqb_format.
Qed.

(** ** Precedence *)

Lemma ofType_priority t l :
  Forall (fun e => priority (type e) = priority t) (ofType t l).
Proof.
  apply Forall_forall. intros e He. apply filter_In in He as [_ He].
  destruct (type e), t; cbn in He; try discriminate; reflexivity.
Qed.

Lemma ofType_cons t x l :
  ofType t (x :: l)
  = if EntryType_eqb (type x) t then x :: ofType t l else ofType t l.
Proof. reflexivity. Qed.

Lemma ofType_bound (R : Z -> Prop) t l :
  R (priority t) -> Forall (fun e => R (priority (type e))) (ofType t l).
Proof.
  intros H. eapply Forall_impl; [ | apply (ofType_priority t l)].
  cbn. intros e ->. exact H.
Qed.

(** [prioritizeEntries] lists the entries type by type in the order feast,
    special, sunday, weekday, service, each type in the order of the
    input. *)
Lemma prioritizeEntries_byPrecedence l :
  prioritizeEntries l = byPrecedence l.
Proof.
  unfold prioritizeEntries, byPrecedence.
  induction l as [ | x l IH]; [reflexivity | ].
  cbn [sortBy fold_right].
  fold (sortBy (fun a b => priority (type a) - priority (type b)) l).
  rewrite IH. rewrite !ofType_cons.
  set (F := ofType feast l). set (Sp := ofType special l).
  set (Su := ofType sunday l). set (W := ofType weekday l).
  set (Se := ofType service l).
  pose (key := fun e : CalendarEntry => priority (type e)).
  assert (before : forall t l', key x = priority t ->
            Forall (fun y => key y < key x) l' ->
            forall t', priority t' < priority t ->
            Forall (fun y => key y < key x) (l' ++ ofType t' l)).
  { intros t l' Hx Hl t' Ht. apply Forall_app. split; [exact Hl | ].
    rewrite Hx. apply (ofType_bound (fun z => z < priority t)). exact Ht. }
  assert (after : forall t l', key x = priority t ->
            Forall (fun y => key x <= key y) l' ->
            forall t', priority t <= priority t' ->
            Forall (fun y => key x <= key y) (ofType t' l ++ l')).
  { intros t l' Hx Hl t' Ht. apply Forall_app. split; [ | exact Hl].
    rewrite Hx. apply (ofType_bound (fun z => priority t <= z)). exact Ht. }
  assert (Hx : key x = priority (type x)) by reflexivity.
  destruct (type x) eqn:T; cbn [EntryType_eqb].
  - (* sunday: after the feasts and the special days *)
    rewrite (app_assoc F Sp).
    rewrite (insert_past key).
    + rewrite (insert_front key); [now rewrite <- app_assoc | ].
      apply (after sunday); [exact Hx | | cbn; lia].
      apply (after sunday); [exact Hx | | cbn; lia].
      rewrite <- (app_nil_r Se).
      apply (after sunday); [exact Hx | constructor | cbn; lia].
    + apply (before sunday); [exact Hx | | cbn; lia].
      rewrite <- (app_nil_l F).
      apply (before sunday); [exact Hx | constructor | cbn; lia].
  - (* feast: first *)
    rewrite (insert_front key); [reflexivity | ].
    apply (after feast); [exact Hx | | cbn; lia].
    apply (after feast); [exact Hx | | cbn; lia].
    apply (after feast); [exact Hx | | cbn; lia].
    apply (after feast); [exact Hx | | cbn; lia].
    rewrite <- (app_nil_r Se).
    apply (after feast); [exact Hx | constructor | cbn; lia].
  - (* special: after the feasts *)
    rewrite (insert_past key).
    + rewrite (insert_front key); [reflexivity | ].
      apply (after special); [exact Hx | | cbn; lia].
      apply (after special); [exact Hx | | cbn; lia].
      apply (after special); [exact Hx | | cbn; lia].
      rewrite <- (app_nil_r Se).
      apply (after special); [exact Hx | constructor | cbn; lia].
    + rewrite <- (app_nil_l F).
      apply (before special); [exact Hx | constructor | cbn; lia].
  - (* weekday: after the Sundays *)
    rewrite (app_assoc F Sp), (app_assoc (F ++ Sp) Su).
    rewrite (insert_past key).
    + rewrite (insert_front key); [now rewrite <- !app_assoc | ].
      apply (after weekday); [exact Hx | | cbn; lia].
      rewrite <- (app_nil_r Se).
      apply (after weekday); [exact Hx | constructor | cbn; lia].
    + apply (before weekday); [exact Hx | | cbn; lia].
      apply (before weekday); [exact Hx | | cbn; lia].
      rewrite <- (app_nil_l F).
      apply (before weekday); [exact Hx | constructor | cbn; lia].
  - (* service: after the weekdays, before the services found so far *)
    rewrite (app_assoc F Sp), (app_assoc (F ++ Sp) Su),
      (app_assoc ((F ++ Sp) ++ Su) W).
    rewrite (insert_past key).
    + rewrite (insert_front key); [now rewrite <- !app_assoc | ].
      rewrite <- (app_nil_r Se).
      apply (after service); [exact Hx | constructor | cbn; lia].
    + apply (before service); [exact Hx | | cbn; lia].
      apply (before service); [exact Hx | | cbn; lia].
      apply (before service); [exact Hx | | cbn; lia].
      rewrite <- (app_nil_l F).
      apply (before service); [exact Hx | constructor | cbn; lia].
Qed.

(** ** Good Friday *)

Lemma filter_nil_Forall {A} (P : A -> bool) (l : list A) :
  Forall (fun x => P x = false) l -> filter P l = [].
Proof.
  induction 1 as [ | x l Hx _ IH]; cbn [filter]; [reflexivity | ].
  now rewrite Hx.
Qed.

Lemma sundayAfterInRange_bounds after lo hi c :
  sundayAfterInRange after lo hi = Some c -> lo <= c <= hi.
Proof.
  unfold sundayAfterInRange. cbv zeta.
  destruct (Z.leb_spec lo (sundayOnOrAfter (addDays after 1)));
    destruct (Z.leb_spec (sundayOnOrAfter (addDays after 1)) hi);
    cbn [andb]; intros E; inversion E; subst; lia.
Qed.

Lemma saturdayOnOrBefore_bounds x :
  x - 6 <= saturdayOnOrBefore x <= x.
Proof.
  unfold saturdayOnOrBefore, weekdayOnOrBefore, dayOfWeek. cbv zeta.
  rewrite addDays_plus. pose proof (WeekDay_range x) as R.
  rewrite Z.rem_mod_nonneg by lia.
  pose proof (Z.mod_pos_bound (Ecma.WeekDay x - 6 + 7) 7 ltac:(lia)). lia.
Qed.

Ltac normalize_dates :=
  unfold goodFriday, advent1, ascension, pentecost, septuagesima, epiphany,
    easter in *;
  rewrite ?date_add, ?addDays_plus, ?makeDate_month1, ?makeDate_month2,
    ?makeDate_month3, ?makeDate_month6, ?makeDate_month9, ?makeDate_month10,
    ?makeDate_month11, ?makeDate_month12 in *;
  rewrite ?FullYear_id in * by lia.

Ltac date_leaf :=
  repeat match goal with
         | H : sundayAfterInRange _ _ _ = Some _ |- _ =>
             apply sundayAfterInRange_bounds in H
         | H : (_ || _) = true |- _ =>
             apply orb_true_iff in H; rewrite !Z.ltb_lt in H
         | H : (_ <=? _) = true |- _ => apply Z.leb_le in H
         end;
  normalize_dates; lia.

Section GoodFriday.
Variable Y : Z.
Hypothesis HY : 100 <= Y.

Lemma goodFriday_other_blocks :
  let onGF := fun e => date e =? goodFriday Y in
  filter onGF (adventEntries Y) = []
  /\ filter onGF (christmasEntries Y) = []
  /\ filter onGF (epiphanyEntries Y) = []
  /\ filter onGF (preLentEntries Y) = []
  /\ filter onGF (lentEntries Y) = []
  /\ filter onGF (easterEntries Y) = []
  /\ filter onGF (ascensionPentecostEntries Y) = []
  /\ filter onGF (pentecostSundayEntries Y) = []
  /\ filter onGF (specialEntries Y) = [].
Proof.
  intros onGF.
  pose proof (DayFromYear_succ Y) as FJ.
  pose proof (InLeapYear_range Y) as FL0.
  pose proof (InLeapYear_range (Y + 1)) as FL1.
  destruct (easterSunday_in_year (Y + 1) ltac:(lia)) as (p & Fp & FE & _).
  pose proof (FullYear_id Y ltac:(lia)) as FY0.
  pose proof (FullYear_id (Y + 1) ltac:(lia)) as FY1.
  pose proof (nearestSunday_bounds (makeDate Y 11 30)) as FA.
  pose proof (saturdayOnOrBefore_bounds (makeDate (Y + 1) 6 26)) as FS1.
  pose proof (saturdayOnOrBefore_bounds (makeDate (Y + 1) 11 6)) as FS2.
  pose proof (sundayOnOrAfter_spec (makeDate (Y + 1) 9 29)) as (FM & _).
  unfold adventEntries, christmasEntries, epiphanyEntries,
    preLentEntries, lentEntries, easterEntries,
    ascensionPentecostEntries, pentecostSundayEntries, pentecostSundays,
    specialEntries.
  cbv zeta. cbn [map].
  repeat apply conj; apply filter_nil_Forall; entries_forall;
    try (unfold onGF; rewrite date_add; apply Z.eqb_neq; date_leaf).
  apply (Forall_pentecostLoop
           (fun c => forall s n, onGF (add c s n sunday) = false)).
  intros c Hc s n.
  unfold onGF; rewrite date_add; apply Z.eqb_neq; date_leaf.
Qed.
End GoodFriday.

(** ** Entries and the bounds of the church year *)

(** From the start year 100 on, every generated entry lies between the first
    Advent Sunday of the start year and the day before the next one, except
    the Independence Day entry. *)
Lemma only_itsenaisyyspaiva_outside Y :
  100 <= Y ->
  Forall (fun e => advent1 Y <= date e < nextAdvent1 Y
                   \/ e = add (makeDate (Y + 1) 12 6) "itsenaisyyspaiva"
                              "Itsenäisyyspäivä" special)
         (generateChurchYear Y).
Proof.
  intros HY.
  apply (Permutation_Forall (x := churchYearEntries Y));
    [symmetry; apply (sort_perm date) | ].
  pose proof (DayFromYear_succ Y) as FJ.
  pose proof (InLeapYear_range Y) as FL0.
  pose proof (InLeapYear_range (Y + 1)) as FL1.
  destruct (easterSunday_in_year (Y + 1) ltac:(lia)) as (p & Fp & FE & _).
  destruct (nextAdvent1_in_year Y ltac:(lia)) as (FN & _).
  pose proof (nearestSunday_bounds (makeDate Y 11 30)) as FA.
  pose proof (saturdayOnOrBefore_bounds (makeDate (Y + 1) 6 26)) as FS1.
  pose proof (saturdayOnOrBefore_bounds (makeDate (Y + 1) 11 6)) as FS2.
  pose proof (sundayOnOrAfter_spec (makeDate (Y + 1) 9 29)) as (FM & _).
  pose proof (sundayOnOrAfter_spec (addDays (makeDate (Y + 1) 1 6) 1))
    as (FE1 & _).
  assert (FT : tuomiosunnuntai Y = nextAdvent1 Y - 7)
    by (unfold tuomiosunnuntai; rewrite addDays_plus; lia).
  unfold churchYearEntries, adventEntries, christmasEntries, epiphanyEntries,
    preLentEntries, lentEntries, holyWeekEntries, easterEntries,
    ascensionPentecostEntries, pentecostSundayEntries, pentecostSundays,
    specialEntries.
  cbv zeta. cbn [map].
  entries_forall;
    try (left; rewrite date_add; date_leaf);
    try (right; reflexivity).
  apply (Forall_pentecostLoop
           (fun c => forall s n,
              advent1 Y <= date (add c s n sunday) < nextAdvent1 Y
              \/ add c s n sunday
                 = add (makeDate (Y + 1) 12 6) "itsenaisyyspaiva"
                       "Itsenäisyyspäivä" special)).
  intros c Hc s n. left. rewrite date_add. date_leaf.
Qed.

(** Independence Day is therefore never resolved: December 6, 2025 belongs
    to the church year 2025, whose calendar dates the entry 2026-12-06; the
    day is the Saturday of the week after the first Advent Sunday. *)
Lemma resolveDate_december6_2025 :
  option_map slug
    (rd_holyDay _
       (resolveDate CalendarEntry (fun e _ => e) (fun _ => None)
                    (parseDate (2025, 12, 6))))
  = Some "1-adventtisunnuntain-jalkeinen-viikko"
  /\ rd_additionalServices _
       (resolveDate CalendarEntry (fun e _ => e) (fun _ => None)
                    (parseDate (2025, 12, 6)))
     = Some [].
Proof. split; vm_compute; reflexivity. Qed.

Lemma filter_skip {A} (P : A -> bool) x l :
  P x = false -> filter P (x :: l) = filter P l.
Proof. intros H. cbn [filter]. now rewrite H. Qed.

Lemma filter_keep {A} (P : A -> bool) x l :
  P x = true -> filter P (x :: l) = x :: filter P l.
Proof. intros H. cbn [filter]. now rewrite H. Qed.

(** Three entries are generated on Good Friday, in this order: the feast
    and the two services. *)
Lemma goodFriday_generated Y :
  100 <= Y ->
  filter (fun e => date e =? goodFriday Y) (churchYearEntries Y)
  = [pitkaperjantai Y; jeesuksenKuolinhetki Y; pitkaperjantainIlta Y].
Proof.
  intros HY.
  destruct (goodFriday_other_blocks Y HY)
    as (H1 & H2 & H3 & H4 & H5 & H6 & H7 & H8 & H9).
  cbv zeta in H1, H2, H3, H4, H5, H6, H7, H8, H9.
  unfold churchYearEntries. rewrite !filter_app.
  rewrite H1, H2, H3, H4, H5, H6, H7, H8, H9.
  rewrite !app_nil_l, !app_nil_r.
  unfold holyWeekEntries.
  assert (skip : forall k s n t,
             k <> -2 ->
             (date (add (addDays (easter Y) k) s n t) =? goodFriday Y)
             = false).
  { intros k s n t Hk. rewrite date_add. apply Z.eqb_neq.
    unfold goodFriday, easter. rewrite !addDays_plus. lia. }
  assert (keep : forall s n t,
             (date (add (addDays (easter Y) (-2)) s n t) =? goodFriday Y)
             = true).
  { intros s n t. rewrite date_add. apply Z.eqb_eq. reflexivity. }
  do 5 (rewrite filter_skip by (apply skip; lia)).
  do 3 (rewrite filter_keep by apply keep).
  rewrite filter_skip by (apply skip; lia).
  reflexivity.
Qed.

Lemma getChurchYearStart_goodFriday Y :
  100 <= Y -> getChurchYearStart (goodFriday Y) = Y.
Proof.
  intros HY.
  destruct (easterSunday_in_year (Y + 1) ltac:(lia)) as (p & Hp & HE & _).
  pose proof (DayFromYear_succ (Y + 1)) as HJ.
  pose proof (InLeapYear_range (Y + 1)) as HL.
  assert (G : goodFriday Y
              = Ecma.DayFromYear (Y + 1) + Ecma.InLeapYear (Y + 1) + 78 + p)
    by (unfold goodFriday; rewrite addDays_plus; lia).
  assert (Hyear : getUTCFullYear (goodFriday Y) = Y + 1).
  { unfold getUTCFullYear. apply YearFromDay_unique. lia. }
  rewrite getChurchYearStart_eq by (rewrite Hyear; lia).
  rewrite Hyear. pose proof (firstAdvent_bounds (Y + 1)) as B.
  destruct (Z.ltb_spec (goodFriday Y) (firstAdvent (Y + 1))); lia.
Qed.

(** ** [resolveDate] on a date with entries *)

Section ResolveMatch.
Variable Enriched : Type.
Variable enrichEntry : CalendarEntry -> Z -> Enriched.
Variable dataSeason : string -> option string.

Lemma resolveDate_entry d primary rest :
  byPrecedence (generatedOn d) = primary :: rest ->
  let yearCycle := getYearCycle (getChurchYearStart d) in
  let r := resolveDate Enriched enrichEntry dataSeason d in
  rd_holyDay _ r = Some (enrichEntry primary yearCycle)
  /\ rd_additionalServices _ r
     = Some (map (fun e => enrichEntry e yearCycle) rest)
  /\ rd_precedingSunday _ r = None
  /\ rd_season _ r = getSeason dataSeason primary.
Proof.
  intros H. cbv zeta. unfold resolveDate. cbv zeta.
  rewrite matches_generatedOn.
  destruct (generatedOn d) as [ | first others] eqn:G; [discriminate H | ].
  rewrite prioritizeEntries_byPrecedence, H.
  split; [reflexivity | split; [reflexivity | split; reflexivity]].
Qed.
End ResolveMatch.

(** C1: on a date for which entries were generated, [holyDay] is the first
    and [additionalServices] the rest of these entries arranged by type
    priority feast, special, sunday, weekday, service, entries of one type
    in generation order (the arrangement is the sorted, order-keeping
    permutation of the day's entries); on Good Friday the entries are the
    feast "pitkaperjantai" and the services "jeesuksen-kuolinhetki" and
    "pitkaperjantain-ilta": the feast is [holyDay], the two services are
    [additionalServices]. *)
Theorem resolveDate_precedence
  (Enriched : Type) (enrichEntry : CalendarEntry -> Z -> Enriched)
  (dataSeason : string -> option string) (d : Date) (Y : Z)
  (Hd : generatedOn d <> []) (HY : 100 <= Y) :
  (exists primary rest,
     byPrecedence (generatedOn d) = primary :: rest
     /\ Permutation (primary :: rest) (generatedOn d)
     /\ StronglySorted
          (fun a b => priority (type a) <= priority (type b))
          (primary :: rest)
     /\ rd_holyDay _ (resolveDate Enriched enrichEntry dataSeason d)
        = Some (enrichEntry primary (getYearCycle (getChurchYearStart d)))
     /\ rd_additionalServices _
          (resolveDate Enriched enrichEntry dataSeason d)
        = Some (map (fun e => enrichEntry e
                                (getYearCycle (getChurchYearStart d)))
                    rest))
  /\ generatedOn (goodFriday Y)
     = [pitkaperjantai Y; jeesuksenKuolinhetki Y; pitkaperjantainIlta Y]
  /\ rd_holyDay _
       (resolveDate Enriched enrichEntry dataSeason (goodFriday Y))
     = Some (enrichEntry (pitkaperjantai Y) (getYearCycle Y))
  /\ rd_additionalServices _
       (resolveDate Enriched enrichEntry dataSeason (goodFriday Y))
     = Some [enrichEntry (jeesuksenKuolinhetki Y) (getYearCycle Y);
             enrichEntry (pitkaperjantainIlta Y) (getYearCycle Y)].
Proof.
  split.
  - destruct (byPrecedence (generatedOn d)) as [ | primary rest] eqn:E.
    + exfalso. apply Hd.
      rewrite <- prioritizeEntries_byPrecedence in E.
      exact (proj1 (sort_nil_iff (fun e => priority (type e))
                                 (generatedOn d)) E).
    + exists primary, rest.
      destruct (resolveDate_entry Enriched enrichEntry dataSeason d
                  primary rest E) as (H1 & H2 & _).
      split; [reflexivity | split; [ | split; [ | split]]].
      * rewrite <- E, <- prioritizeEntries_byPrecedence.
        apply (sort_perm (fun e => priority (type e))).
      * rewrite <- E, <- prioritizeEntries_byPrecedence.
        apply (sort_sorted (fun e => priority (type e))).
      * exact H1.
      * exact H2.
  - assert (G : generatedOn (goodFriday Y)
                = [pitkaperjantai Y; jeesuksenKuolinhetki Y;
                   pitkaperjantainIlta Y]).
    { unfold generatedOn. rewrite getChurchYearStart_goodFriday by exact HY.
      now apply goodFriday_generated. }
    assert (B : byPrecedence (generatedOn (goodFriday Y))
                = [pitkaperjantai Y; jeesuksenKuolinhetki Y;
                   pitkaperjantainIlta Y]).
    { rewrite G. reflexivity. }
    destruct (resolveDate_entry Enriched enrichEntry dataSeason
                (goodFriday Y) _ _ B) as (H1 & H2 & _).
    cbv zeta in H1, H2.
    rewrite getChurchYearStart_goodFriday in H1, H2 by exact HY.
    split; [exact G | split; [exact H1 | exact H2]].
Qed.

(** December 28, 2025 carries a feast and a Sunday; Good Friday 2026 is
    April 3. *)
Lemma resolveDate_precedence_witness :
  generatedOn (parseDate (2025, 12, 28)) <> []
  /\ 100 <= 2025
  /\ map slug (byPrecedence (generatedOn (parseDate (2025, 12, 28))))
     = ["viattomien-lasten-paiva"; "1-sunnuntai-joulusta"]
  /\ formatDate (goodFriday 2025) = (2026, 4, 3)
  /\ rd_holyDay _
       (resolveDate CalendarEntry (fun e _ => e) (fun _ => None)
                    (goodFriday 2025))
     = Some (pitkaperjantai 2025).
Proof.
  assert (Hd : generatedOn (parseDate (2025, 12, 28)) <> [])
    by (vm_compute; discriminate).
  assert (HY : 100 <= 2025) by lia.
  destruct (resolveDate_precedence CalendarEntry (fun e _ => e)
              (fun _ => None) (parseDate (2025, 12, 28)) 2025 Hd HY)
    as (_ & _ & H & _).
  split; [exact Hd | split; [exact HY | split; [ | split]]].
  - vm_compute. reflexivity.
  - vm_compute. reflexivity.
  - exact H.
Defined.

(** * Further properties of the computus *)

(** X1: from the year 100 on, [easterSunday(year)] is a Sunday of that
    year, not before March 22 and not after April 25. *)
Theorem easterSunday_spring_sunday (y : Z) (H : 100 <= y) :
  dayOfWeek (easterSunday y) = 0
  /\ makeDate y 3 22 <= easterSunday y <= makeDate y 4 25
  /\ getUTCFullYear (easterSunday y) = y.
Proof.
  destruct (easterSunday_offset y H) as (p & Hp & E & W).
  split; [exact W | ].
  rewrite makeDate_month3, makeDate_month4, FullYear_id by lia.
  split; [lia | ].
  unfold getUTCFullYear. apply YearFromDay_unique.
  rewrite DayFromYear_succ. pose proof (InLeapYear_range y). lia.
Qed.

(** Easter 2027 is March 28. *)
Lemma easterSunday_spring_sunday_witness :
  100 <= 2027
  /\ formatDate (easterSunday 2027) = (2027, 3, 28)
  /\ dayOfWeek (easterSunday 2027) = 0.
Proof.
  split; [lia | split; [vm_compute; reflexivity | ]].
  exact (proj1 (easterSunday_spring_sunday 2027 ltac:(lia))).
Defined.

(** X2: [addDays] moves a date by exactly the given number of days, across
    the ends of months and years and in both directions; two moves add up,
    a move is undone by the opposite move, and whole weeks keep the day of
    the week. *)
Theorem addDays_day_arithmetic (d : Date) (a b : Z) :
  addDays d a = d + a
  /\ addDays (addDays d a) b = addDays d (a + b)
  /\ addDays (addDays d a) (- a) = d
  /\ dayOfWeek (addDays d (7 * a)) = dayOfWeek d.
Proof.
  rewrite !addDays_plus. split; [reflexivity | ].
  split; [lia | split; [lia | ]].
  unfold dayOfWeek, Ecma.WeekDay. Z.div_mod_to_equations. lia.
Qed.

(** X3: [sameDay] holds for two dates exactly when they are the same day,
    which is also when [formatDate] gives them the same string. *)
Theorem sameDay_iff (a b : Date) :
  (sameDay a b = true <-> a = b)
  /\ sameDay a b = dateStr_eqb (formatDate a) (formatDate b).
Proof.
  assert (E : sameDay a b = dateStr_eqb (formatDate a) (formatDate b)).
  { unfold sameDay, dateStr_eqb, formatDate.
    destruct (Z.eqb_spec (Ecma.MonthFromDay a) (Ecma.MonthFromDay b)) as [-> | N].
    - now rewrite Z.eqb_refl.
    - destruct (Z.eqb_spec (Ecma.MonthFromDay a + 1) (Ecma.MonthFromDay b + 1));
        [lia | reflexivity]. }
  split; [ | exact E].
  rewrite E, dateStr_eqb_format. apply Z.eqb_eq.
Qed.

(** X4: [nearestSunday] returns a Sunday at most three days away; no Sunday
    is nearer, it is the only Sunday within three days, and a Sunday is its
    own nearest Sunday. *)
Theorem nearestSunday_closest (d : Date) :
  dayOfWeek (nearestSunday d) = 0
  /\ Z.abs (nearestSunday d - d) <= 3
  /\ (forall s, dayOfWeek s = 0 ->
                Z.abs (nearestSunday d - d) <= Z.abs (s - d))
  /\ (forall s, dayOfWeek s = 0 -> Z.abs (s - d) <= 3 -> s = nearestSunday d)
  /\ nearestSunday (nearestSunday d) = nearestSunday d.
Proof.
  pose proof (nearestSunday_WeekDay d) as W.
  pose proof (nearestSunday_bounds d) as B.
  assert (U : forall s, dayOfWeek s = 0 -> Z.abs (s - d) <= 3 ->
                        s = nearestSunday d).
  { intros s Hs Hd. unfold dayOfWeek, Ecma.WeekDay in *.
    Z.div_mod_to_equations. lia. }
  split; [exact W | split; [lia | split; [ | split; [exact U | ]]]].
  - intros s Hs. destruct (Z_le_gt_dec (Z.abs (s - d)) 3) as [L | G].
    + rewrite (U s Hs L). lia.
    + lia.
  - rewrite (nearestSunday_eq (nearestSunday d)).
    unfold dayOfWeek in W. rewrite W. cbn. lia.
Qed.

(** X5: [sundayOnOrBefore] and [sundayOnOrAfter] return the Sunday of the
    seven days that end, respectively start, at the given date; a Sunday is
    returned as it is, and for any other day the two results are a week
    apart. *)
Theorem sundayOnOrBefore_sundayOnOrAfter (d : Date) :
  dayOfWeek (sundayOnOrBefore d) = 0
  /\ d - 6 <= sundayOnOrBefore d <= d
  /\ dayOfWeek (sundayOnOrAfter d) = 0
  /\ d <= sundayOnOrAfter d <= d + 6
  /\ (dayOfWeek d = 0 -> sundayOnOrBefore d = d /\ sundayOnOrAfter d = d)
  /\ (dayOfWeek d <> 0 -> sundayOnOrAfter d = sundayOnOrBefore d + 7).
Proof.
  destruct (sundayOnOrAfter_spec d) as (B & W).
  pose proof (WeekDay_range d) as R.
  assert (E : sundayOnOrBefore d = d - Ecma.WeekDay d).
  { unfold sundayOnOrBefore, dayOfWeek. rewrite addDays_plus. lia. }
  assert (F : sundayOnOrAfter d
              = if Ecma.WeekDay d =? 0 then d else d + (7 - Ecma.WeekDay d)).
  { unfold sundayOnOrAfter, dayOfWeek. now rewrite addDays_plus. }
  split; [ | split; [lia | split; [exact W | split; [exact B | split]]]].
  - rewrite E. unfold dayOfWeek, Ecma.WeekDay. Z.div_mod_to_equations. lia.
  - unfold dayOfWeek. intros H. rewrite E, F, H. cbn. split; lia.
  - unfold dayOfWeek. intros H. rewrite E, F.
    destruct (Z.eqb_spec (Ecma.WeekDay d) 0); lia.
Qed.

(** X6: for a day of the week from 0 (Sunday) to 6 (Saturday),
    [weekdayOnOrBefore] and [weekdayOnOrAfter] return the day of that name in
    the seven days that end, respectively start, at the given date;
    [saturdayOnOrBefore] is the case of Saturday. *)
Theorem weekdayOnOrBefore_weekdayOnOrAfter (d : Date) (w : Z)
  (H : 0 <= w <= 6) :
  dayOfWeek (weekdayOnOrBefore d w) = w
  /\ d - 6 <= weekdayOnOrBefore d w <= d
  /\ dayOfWeek (weekdayOnOrAfter d w) = w
  /\ d <= weekdayOnOrAfter d w <= d + 6
  /\ dayOfWeek (saturdayOnOrBefore d) = 6
  /\ d - 6 <= saturdayOnOrBefore d <= d.
Proof.
  pose proof (WeekDay_range d) as R.
  assert (G : forall v, 0 <= v <= 6 ->
                dayOfWeek (weekdayOnOrBefore d v) = v
                /\ d - 6 <= weekdayOnOrBefore d v <= d).
  { intros v Hv. unfold weekdayOnOrBefore, dayOfWeek. cbv zeta.
    rewrite addDays_plus, Z.rem_mod_nonneg by lia.
    unfold Ecma.WeekDay in *. Z.div_mod_to_equations. lia. }
  destruct (G w H) as (G1 & G2). destruct (G 6 ltac:(lia)) as (G3 & G4).
  split; [exact G1 | split; [exact G2 | ]].
  split; [ | split; [ | split; [exact G3 | exact G4]]].
  - unfold weekdayOnOrAfter, dayOfWeek. cbv zeta.
    rewrite addDays_plus, Z.rem_mod_nonneg by lia.
    unfold Ecma.WeekDay in *. Z.div_mod_to_equations. lia.
  - unfold weekdayOnOrAfter, dayOfWeek. cbv zeta.
    rewrite addDays_plus, Z.rem_mod_nonneg by lia.
    unfold Ecma.WeekDay in *. Z.div_mod_to_equations. lia.
Qed.

(** The Saturday on or before Friday, June 26, 2026 is June 20. *)
Lemma weekdayOnOrBefore_weekdayOnOrAfter_witness :
  0 <= 6 <= 6
  /\ formatDate (weekdayOnOrBefore (makeDate 2026 6 26) 6) = (2026, 6, 20)
  /\ dayOfWeek (weekdayOnOrBefore (makeDate 2026 6 26) 6) = 6.
Proof.
  split; [lia | split; [vm_compute; reflexivity | ]].
  exact (proj1 (weekdayOnOrBefore_weekdayOnOrAfter
                  (makeDate 2026 6 26) 6 ltac:(lia))).
Defined.

(** X7: [sundayAfterInRange] looks at one day only, the first Sunday
    strictly after [after]: it returns that Sunday when it lies in the
    range, and null otherwise, also when a later Sunday lies in the
    range. *)
Theorem sundayAfterInRange_first_sunday (after rangeStart rangeEnd : Date) :
  let first := sundayOnOrAfter (addDays after 1) in
  dayOfWeek first = 0
  /\ after < first <= after + 7
  /\ (forall s, dayOfWeek s = 0 -> after < s -> first <= s)
  /\ sundayAfterInRange after rangeStart rangeEnd
     = if (rangeStart <=? first) && (first <=? rangeEnd)
       then Some first else None.
Proof.
  intros first.
  assert (R : sundayAfterInRange after rangeStart rangeEnd
              = if (rangeStart <=? first) && (first <=? rangeEnd)
                then Some first else None) by reflexivity.
  destruct (sundayOnOrAfter_spec (addDays after 1)) as (B & W).
  fold first in B, W. rewrite addDays_plus in B.
  revert R B W. generalize first. clear first. intros first R B W.
  split; [exact W | split; [lia | split; [ | exact R]]].
  intros s Hs Ha. unfold dayOfWeek, Ecma.WeekDay in *.
  Z.div_mod_to_equations. lia.
Qed.

(** * Further properties of the generated calendar *)

(** X8: the calendar is in the order of its dates, entries of one day in
    the order in which [generateChurchYear] pushed them; every entry carries
    the string of its own date, so selecting the entries of a day by date
    string, as [resolveDate] does, selects them by date. *)
Theorem generateChurchYear_chronological (Y : Z) :
  StronglySorted (fun a b => date a <= date b) (generateChurchYear Y)
  /\ Permutation (generateChurchYear Y) (churchYearEntries Y)
  /\ Forall (fun e => dateStr e = formatDate (date e)) (generateChurchYear Y)
  /\ (forall d,
        filter (fun e => dateStr_eqb (dateStr e) (formatDate d))
               (generateChurchYear Y)
        = filter (fun e => date e =? d) (churchYearEntries Y)).
Proof.
  assert (F : Forall (fun e => dateStr e = formatDate (date e))
                     (generateChurchYear Y)).
  { apply Forall_forall. intros e He. apply (generated_dateStr Y).
    exact (proj1 (generateChurchYear_In Y e) He). }
  split; [apply (sort_sorted date) | split; [apply (sort_perm date) | ]].
  split; [exact F | ].
  intros d. rewrite <- generateChurchYear_on.
  apply filter_ext_in. intros e He.
  rewrite Forall_forall in F. rewrite (F e He). apply dateStr_eqb_format.
Qed.

Lemma generateChurchYear_head (Y : Z) (H : 100 <= Y) :
  hd_error (generateChurchYear Y)
  = Some (add (nearestSunday (makeDate Y 11 30)) "1-adventtisunnuntai"
              "1. adventtisunnuntai" sunday)
  /\ Forall (fun e => nearestSunday (makeDate Y 11 30) <= date e)
            (generateChurchYear Y).
Proof.
  assert (F : Forall (fun e => advent1 Y <= date e) (generateChurchYear Y)).
  { eapply Forall_impl; [ | apply (only_itsenaisyyspaiva_outside Y H)].
    cbn beta. intros e [B | ->]; [lia | ].
    rewrite date_add.
    pose proof (nearestSunday_bounds (makeDate Y 11 30)) as FA.
    pose proof (DayFromYear_succ Y) as FJ.
    pose proof (InLeapYear_range Y) as FL0.
    pose proof (InLeapYear_range (Y + 1)) as FL1.
    unfold advent1. rewrite makeDate_month12, makeDate_month11 in *.
    rewrite !FullYear_id in * by lia. lia. }
  split; [ | exact F].
  set (first := add (nearestSunday (makeDate Y 11 30)) "1-adventtisunnuntai"
                    "1. adventtisunnuntai" sunday).
  assert (E : churchYearEntries Y = first :: tl (churchYearEntries Y))
    by reflexivity.
  unfold generateChurchYear. rewrite E. cbn [sortBy fold_right].
  fold (sortBy (fun a b => date a - date b) (tl (churchYearEntries Y))).
  rewrite (insert_front date); [reflexivity | ].
  apply (Permutation_Forall (x := tl (churchYearEntries Y)));
    [symmetry; apply (sort_perm date) | ].
  assert (G : Forall (fun e => advent1 Y <= date e) (churchYearEntries Y)).
  { apply (Permutation_Forall (x := generateChurchYear Y));
      [apply (sort_perm date) | exact F]. }
  rewrite E in G. exact (Forall_inv_tail G).
Qed.

(** X9: from the start year 100 on, the calendar opens with the first
    Advent Sunday, the nearest Sunday to November 30 of the start year, and
    no entry is dated before it. *)
Theorem generateChurchYear_opens_with_advent (Y : Z) (H : 100 <= Y) :
  hd_error (generateChurchYear Y)
  = Some (add (nearestSunday (makeDate Y 11 30)) "1-adventtisunnuntai"
              "1. adventtisunnuntai" sunday)
  /\ Forall (fun e => nearestSunday (makeDate Y 11 30) <= date e)
            (generateChurchYear Y).
Proof. exact (generateChurchYear_head Y H). Qed.

(** The church year 2025 opens on November 30, 2025. *)
Lemma generateChurchYear_opens_with_advent_witness :
  100 <= 2025
  /\ option_map dateStr (hd_error (generateChurchYear 2025)) = Some (2025, 11, 30).
Proof.
  split; [lia | ].
  rewrite (proj1 (generateChurchYear_opens_with_advent 2025 ltac:(lia))).
  vm_compute. reflexivity.
Defined.

(** The day of the week as a remainder; used by rewriting, so that no
    date is ever unfolded. *)
Lemma dayOfWeek_mod d : dayOfWeek d = (d + 4) mod 7.
Proof. reflexivity. Qed.

Lemma WeekDay_mod d : Ecma.WeekDay d = (d + 4) mod 7.
Proof. reflexivity. Qed.

Lemma sundayAfterInRange_sunday after lo hi c :
  sundayAfterInRange after lo hi = Some c -> (c + 4) mod 7 = 0.
Proof.
  destruct (sundayOnOrAfter_spec (addDays after 1)) as (_ & W).
  rewrite dayOfWeek_mod in W.
  unfold sundayAfterInRange. cbv zeta.
  destruct (_ && _); intros E; [ | discriminate E].
  injection E as <-. exact W.
Qed.

Lemma Forall_epiphanyLoop_weekly (P : CalendarEntry -> Prop)
  (Q : Date -> Prop) Y :
  (forall c, Q c -> Q (c + 7)) ->
  (forall d s n, Q d -> P (add d s n sunday)) ->
  forall fuel cur count, Q cur -> Forall P (epiphanyLoop Y fuel cur count).
Proof.
  intros Hstep HP. induction fuel as [ | fuel IH]; intros cur count Hc;
    cbn [epiphanyLoop]; [constructor | ].
  destruct ((cur <? septuagesima Y) && (count <=? 6)); constructor.
  - now apply HP.
  - apply IH. rewrite addDays_plus. now apply Hstep.
Qed.

Lemma Forall_pentecostLoop_weekly (Q : Date -> Prop) Y :
  (forall c, Q c -> Q (c + 7)) ->
  forall fuel cur num,
    Q cur -> Forall (fun dk => Q (fst dk)) (pentecostLoop Y fuel cur num).
Proof.
  intros Hstep. induction fuel as [ | fuel IH]; intros cur num Hc;
    cbn [pentecostLoop]; [constructor | ].
  destruct (cur <=? tuomiosunnuntai Y); constructor.
  - exact Hc.
  - apply IH. rewrite addDays_plus. now apply Hstep.
Qed.

Lemma onItsWeekday_sunday d s n :
  (d + 4) mod 7 = 0 -> onItsWeekday (add d s n sunday).
Proof.
  intros W. split; intros T; [ | discriminate T].
  rewrite date_add, dayOfWeek_mod. exact W.
Qed.

Lemma onItsWeekday_weekday d s n :
  (d + 4) mod 7 <> 0 -> onItsWeekday (add d s n weekday).
Proof.
  intros W. split; intros T; [discriminate T | ].
  rewrite date_add, dayOfWeek_mod. exact W.
Qed.

Lemma onItsWeekday_other d s n t :
  In t [feast; special; service] -> onItsWeekday (add d s n t).
Proof.
  intros [<- | [<- | [<- | []]]]; split; intros T; discriminate T.
Qed.

Ltac weekday_leaf :=
  first
    [ apply onItsWeekday_other; cbn [In]; tauto
    | first [apply onItsWeekday_sunday | apply onItsWeekday_weekday];
      repeat match goal with
             | H : sundayAfterInRange _ _ _ = Some _ |- _ =>
                 apply sundayAfterInRange_sunday in H
             end;
      unfold advent1, ascension, pentecost, septuagesima, easter in *;
      rewrite ?addDays_plus in *;
      Z.div_mod_to_equations; lia ].

(** X10: from the start year 99 on, every entry of type sunday is dated on
    a Sunday and no entry of type weekday is. *)
Theorem sunday_entries_on_sundays (Y : Z) (H : 99 <= Y) :
  Forall onItsWeekday (generateChurchYear Y).
Proof.
  apply (Permutation_Forall (x := churchYearEntries Y));
    [symmetry; apply (sort_perm date) | ].
  destruct (easterSunday_in_year (Y + 1) ltac:(lia)) as (p & _ & _ & WE).
  pose proof (nearestSunday_WeekDay (makeDate Y 11 30)) as WA.
  rewrite WeekDay_mod in WA.
  clear p.
  unfold churchYearEntries, adventEntries, christmasEntries, epiphanyEntries,
    preLentEntries, lentEntries, holyWeekEntries, easterEntries,
    ascensionPentecostEntries, pentecostSundayEntries, pentecostSundays,
    specialEntries.
  cbv zeta. cbn [map].
  repeat first
    [ apply Forall_nil
    | apply Forall_app; split
    | apply Forall_add
    | apply Forall_optionalSunday; intros ? ?
    | apply Forall_conditional; intros _
    | apply Forall_addWeekdays; intros ? ?
    | apply Forall_pentecostFor ];
    try weekday_leaf.
  - apply (Forall_epiphanyLoop_weekly _ (fun c => (c + 4) mod 7 = 0)).
    + intros c Hc. Z.div_mod_to_equations. lia.
    + intros d s n Hd. now apply onItsWeekday_sunday.
    + rewrite <- dayOfWeek_mod. apply (proj2 (sundayOnOrAfter_spec _)).
  - apply (Forall_impl (P := fun dk => (fst dk + 4) mod 7 = 0)).
    + intros dk Hdk s n. now apply onItsWeekday_sunday.
    + apply (Forall_pentecostLoop_weekly (fun c => (c + 4) mod 7 = 0)).
      * intros c Hc. Z.div_mod_to_equations. lia.
      * unfold pentecost, easter. rewrite !addDays_plus.
        Z.div_mod_to_equations. lia.
Qed.

(** The church year 2025. *)
Lemma sunday_entries_on_sundays_witness :
  99 <= 2025 /\ Forall onItsWeekday (generateChurchYear 2025).
Proof.
  split; [lia | apply (sunday_entries_on_sundays 2025); lia].
Defined.

Lemma saturdayOnOrBefore_saturday d :
  dayOfWeek (saturdayOnOrBefore d) = 6 /\ d - 6 <= saturdayOnOrBefore d <= d.
Proof.
  pose proof (WeekDay_range d) as R.
  unfold saturdayOnOrBefore, weekdayOnOrBefore, dayOfWeek. cbv zeta.
  rewrite addDays_plus, Z.rem_mod_nonneg by lia.
  unfold Ecma.WeekDay in *. Z.div_mod_to_equations. lia.
Qed.

(** ** Entries of one slug, block by block *)

Lemma filter_hasSlug_add s0 d s n t l :
  filter (hasSlug s0) (add d s n t :: l)
  = if String.eqb s s0 then add d s n t :: filter (hasSlug s0) l
    else filter (hasSlug s0) l.
Proof. reflexivity. Qed.

Lemma filter_hasSlug_conditional s0 b d s n t :
  filter (hasSlug s0) (conditional b (add d s n t))
  = if String.eqb s s0 then conditional b (add d s n t) else [].
Proof.
  destruct b; cbn [conditional filter]; unfold hasSlug; cbn [slug add];
    destruct (String.eqb s s0); reflexivity.
Qed.

Lemma filter_hasSlug_optionalSunday s0 o s n :
  filter (hasSlug s0) (optionalSunday o s n)
  = if String.eqb s s0 then optionalSunday o s n else [].
Proof.
  destruct o as [d | ]; cbn [optionalSunday filter]; unfold hasSlug;
    cbn [slug add]; destruct (String.eqb s s0); reflexivity.
Qed.

Lemma sortBy_conditional b e :
  sortBy (fun a b : CalendarEntry => date a - date b) (conditional b e)
  = conditional b e.
Proof. destruct b; reflexivity. Qed.

Lemma sortBy_optionalSunday o s n :
  sortBy (fun a b : CalendarEntry => date a - date b) (optionalSunday o s n)
  = optionalSunday o s n.
Proof. destruct o; reflexivity. Qed.

(** Comparisons of two string constants are evaluated in place. *)
Ltac eval_eqb :=
  repeat match goal with
         | |- context [String.eqb ?a ?b] =>
             let v := eval vm_compute in (String.eqb a b) in
             change (String.eqb a b) with v
         end;
  cbv iota.

(** The block [blk] holds no entry of the slug [s0]. *)
Ltac slug_absent s0 short blk :=
  lazymatch blk with
  | christmasEntries =>
      unfold christmasEntries; cbv zeta;
      rewrite !filter_app, !filter_hasSlug_optionalSunday,
        !filter_hasSlug_add;
      eval_eqb; reflexivity
  | epiphanyEntries =>
      unfold epiphanyEntries;
      rewrite filter_app, (epiphanyLoop_hasSlug s0 short);
      reflexivity
  | pentecostSundayEntries =>
      unfold pentecostSundayEntries;
      apply (pentecostFor_hasSlug s0 short); reflexivity
  | specialEntries =>
      unfold specialEntries; cbv zeta;
      rewrite !filter_app, !filter_hasSlug_conditional,
        !filter_hasSlug_add;
      eval_eqb; reflexivity
  | _ => apply filter_none; reflexivity
  end.

(** Reduces the entries of slug [s0] in the calendar to those of the one
    block that holds them. *)
Ltac slug_home s0 short :=
  unfold generateChurchYear; rewrite (filter_sort date);
  unfold churchYearEntries; rewrite !filter_app;
  repeat match goal with
         | |- context [filter (hasSlug s0) (?blk ?Y)] =>
             let E := fresh "E" in
             assert (E : filter (hasSlug s0) (blk Y) = [])
               by (slug_absent s0 short blk);
             rewrite E; clear E
         end;
  rewrite ?app_nil_l, ?app_nil_r.

(** X11: the three feasts tied to a day of the week are generated every
    year, whatever the start year: Midsummer on the Saturday from June 20 to
    26, Michaelmas on the Sunday from September 29 to October 5 and All
    Saints on the Saturday from October 31 to November 6; the range tests of
    the code never drop one of them. *)
Theorem midsummer_michaelmas_all_saints (Y : Z) :
  let juhannuspaiva := saturdayOnOrBefore (makeDate (Y + 1) 6 26) in
  let mikkelinpaiva := sundayOnOrAfter (makeDate (Y + 1) 9 29) in
  let pyhainpaiva := saturdayOnOrBefore (makeDate (Y + 1) 11 6) in
  (filter (hasSlug "juhannuspaiva") (generateChurchYear Y)
   = [add juhannuspaiva "juhannuspaiva" "Juhannuspäivä" special]
   /\ dayOfWeek juhannuspaiva = 6
   /\ makeDate (Y + 1) 6 20 <= juhannuspaiva <= makeDate (Y + 1) 6 26)
  /\ (filter (hasSlug "mikkelinpaiva") (generateChurchYear Y)
      = [add mikkelinpaiva "mikkelinpaiva" "Mikkelinpäivä" special]
      /\ dayOfWeek mikkelinpaiva = 0
      /\ makeDate (Y + 1) 9 29 <= mikkelinpaiva <= makeDate (Y + 1) 10 5)
  /\ (filter (hasSlug "pyhainpaiva") (generateChurchYear Y)
      = [add pyhainpaiva "pyhainpaiva" "Pyhäinpäivä" special]
      /\ dayOfWeek pyhainpaiva = 6
      /\ makeDate (Y + 1) 10 31 <= pyhainpaiva <= makeDate (Y + 1) 11 6).
Proof.
  cbv zeta.
  destruct (saturdayOnOrBefore_saturday (makeDate (Y + 1) 6 26))
    as (J1 & J2).
  destruct (saturdayOnOrBefore_saturday (makeDate (Y + 1) 11 6))
    as (P1 & P2).
  destruct (sundayOnOrAfter_spec (makeDate (Y + 1) 9 29)) as (M2 & M1).
  assert (short : forall s0, In s0 ["juhannuspaiva"; "mikkelinpaiva";
                                    "pyhainpaiva"] ->
                             (String.length s0 < 23)%nat)
    by (intros s0 [<- | [<- | [<- | []]]]; cbn; lia).
  assert (D1 : makeDate (Y + 1) 6 20 = makeDate (Y + 1) 6 26 - 6)
    by (rewrite !makeDate_month6; lia).
  assert (D2 : makeDate (Y + 1) 10 5 = makeDate (Y + 1) 9 29 + 6)
    by (rewrite makeDate_month9, makeDate_month10; lia).
  assert (D3 : makeDate (Y + 1) 10 31 = makeDate (Y + 1) 11 6 - 6)
    by (rewrite makeDate_month10, makeDate_month11; lia).
  split; [ | split].
  - split; [ | split; [exact J1 | lia]].
    slug_home "juhannuspaiva" (short "juhannuspaiva" ltac:(cbn; tauto)).
    unfold specialEntries. cbv zeta.
    rewrite !filter_app, !filter_hasSlug_conditional, !filter_hasSlug_add.
    eval_eqb. cbn [filter]. rewrite ?app_nil_l, ?app_nil_r.
    rewrite sortBy_conditional.
    destruct (Z.leb_spec (makeDate (Y + 1) 6 20)
                         (saturdayOnOrBefore (makeDate (Y + 1) 6 26)));
      [reflexivity | lia].
  - split; [ | split; [exact M1 | lia]].
    slug_home "mikkelinpaiva" (short "mikkelinpaiva" ltac:(cbn; tauto)).
    unfold specialEntries. cbv zeta.
    rewrite !filter_app, !filter_hasSlug_conditional, !filter_hasSlug_add.
    eval_eqb. cbn [filter]. rewrite ?app_nil_l, ?app_nil_r.
    rewrite sortBy_conditional.
    destruct (Z.leb_spec (sundayOnOrAfter (makeDate (Y + 1) 9 29))
                         (makeDate (Y + 1) 10 5));
      [reflexivity | lia].
  - split; [ | split; [exact P1 | lia]].
    slug_home "pyhainpaiva" (short "pyhainpaiva" ltac:(cbn; tauto)).
    unfold specialEntries. cbv zeta.
    rewrite !filter_app, !filter_hasSlug_conditional, !filter_hasSlug_add.
    eval_eqb. cbn [filter]. rewrite ?app_nil_l, ?app_nil_r.
    rewrite sortBy_conditional.
    destruct (Z.leb_spec (makeDate (Y + 1) 10 31)
                         (saturdayOnOrBefore (makeDate (Y + 1) 11 6)));
      [reflexivity | lia].
Qed.

(** X12: from the start year 100 on, "1-sunnuntai-joulusta" is generated
    unless Christmas Day is a Saturday, and is then the first Sunday after
    Christmas Day, from December 27 to January 1; "2-sunnuntai-joulusta" is
    generated exactly when New Year's Day falls on Wednesday to Saturday,
    and is then the Sunday from January 2 to 5. *)
Theorem sundays_after_christmas (Y : Z) (H : 100 <= Y) :
  let first := sundayOnOrAfter (addDays (makeDate Y 12 25) 1) in
  let second := sundayOnOrAfter (addDays (makeDate (Y + 1) 1 1) 1) in
  filter (hasSlug "1-sunnuntai-joulusta") (generateChurchYear Y)
  = (if dayOfWeek (makeDate Y 12 25) =? 6 then []
     else [add first "1-sunnuntai-joulusta" "1. sunnuntai joulusta" sunday])
  /\ (dayOfWeek (makeDate Y 12 25) <> 6 ->
      makeDate Y 12 27 <= first <= makeDate (Y + 1) 1 1)
  /\ filter (hasSlug "2-sunnuntai-joulusta") (generateChurchYear Y)
     = (if 3 <=? dayOfWeek (makeDate (Y + 1) 1 1)
        then [add second "2-sunnuntai-joulusta" "2. sunnuntai joulusta"
                  sunday]
        else [])
  /\ (3 <= dayOfWeek (makeDate (Y + 1) 1 1) ->
      makeDate (Y + 1) 1 2 <= second <= makeDate (Y + 1) 1 5).
Proof.
  cbv zeta.
  destruct (sundayOnOrAfter_spec (addDays (makeDate Y 12 25) 1)) as (B1 & W1).
  destruct (sundayOnOrAfter_spec (addDays (makeDate (Y + 1) 1 1) 1))
    as (B2 & W2).
  rewrite dayOfWeek_mod in W1, W2. rewrite !dayOfWeek_mod.
  pose proof (addDays_plus (makeDate Y 12 25) 1) as A1.
  pose proof (addDays_plus (makeDate (Y + 1) 1 1) 1) as A2.
  assert (D1 : makeDate Y 12 27 = makeDate Y 12 25 + 2)
    by (rewrite !makeDate_month12; lia).
  assert (D2 : makeDate (Y + 1) 1 1 = makeDate Y 12 25 + 7).
  { rewrite makeDate_month12, makeDate_month1, !FullYear_id by lia.
    rewrite DayFromYear_succ. lia. }
  assert (D3 : makeDate (Y + 1) 1 2 = makeDate (Y + 1) 1 1 + 1)
    by (rewrite !makeDate_month1; lia).
  assert (D4 : makeDate (Y + 1) 1 5 = makeDate (Y + 1) 1 1 + 4)
    by (rewrite !makeDate_month1; lia).
  assert (short1 : (String.length "1-sunnuntai-joulusta" < 23)%nat)
    by (cbn; lia).
  assert (short2 : (String.length "2-sunnuntai-joulusta" < 23)%nat)
    by (cbn; lia).
  split; [ | split; [ | split]].
  - slug_home "1-sunnuntai-joulusta" short1.
    unfold christmasEntries. cbv zeta.
    rewrite !filter_app, !filter_hasSlug_optionalSunday,
      !filter_hasSlug_add.
    eval_eqb. cbn [filter]. rewrite ?app_nil_l, ?app_nil_r.
    rewrite sortBy_optionalSunday.
    unfold sundayAfterInRange. cbv zeta.
    rewrite D3, D2, D1.
    clear A2 B2 W2. revert A1 B1 W1.
    generalize (sundayOnOrAfter (addDays (makeDate Y 12 25) 1)).
    generalize (addDays (makeDate Y 12 25) 1).
    generalize (makeDate Y 12 25). intros c c1 f A1 B1 W1.
    destruct (Z.leb_spec (c + 2) f), (Z.leb_spec f (c + 7 + 1)),
      (Z.eqb_spec ((c + 4) mod 7) 6); cbn [andb optionalSunday];
      try reflexivity; exfalso; Z.div_mod_to_equations; lia.
  - intros N. rewrite D1, D2. Z.div_mod_to_equations. lia.
  - slug_home "2-sunnuntai-joulusta" short2.
    unfold christmasEntries. cbv zeta.
    rewrite !filter_app, !filter_hasSlug_optionalSunday,
      !filter_hasSlug_add.
    eval_eqb. cbn [filter]. rewrite ?app_nil_l, ?app_nil_r.
    rewrite sortBy_optionalSunday.
    unfold sundayAfterInRange. cbv zeta.
    rewrite D4, D3.
    clear A1 B1 W1 D1 D2. revert A2 B2 W2.
    generalize (sundayOnOrAfter (addDays (makeDate (Y + 1) 1 1) 1)).
    generalize (addDays (makeDate (Y + 1) 1 1) 1).
    generalize (makeDate (Y + 1) 1 1). intros c c1 f A2 B2 W2.
    destruct (Z.leb_spec (c + 1) f), (Z.leb_spec f (c + 4)),
      (Z.leb_spec 3 ((c + 4) mod 7)); cbn [andb optionalSunday];
      try reflexivity; exfalso; Z.div_mod_to_equations; lia.
  - intros N. rewrite D3, D4. Z.div_mod_to_equations. lia.
Qed.

(** Christmas Day 2025 is a Thursday: the church year 2025 has a first
    Sunday after Christmas, December 28. *)
Lemma sundays_after_christmas_witness :
  100 <= 2025
  /\ map dateStr
         (filter (hasSlug "1-sunnuntai-joulusta") (generateChurchYear 2025))
     = [(2025, 12, 28)].
Proof.
  split; [lia | ].
  rewrite (proj1 (sundays_after_christmas 2025 ltac:(lia))).
  vm_compute. reflexivity.
Defined.

(** ** The Sundays after Pentecost, counted *)

Lemma pentecostFor_map total (g : nat -> Date) (h : nat -> Z) :
  forall n s i,
    pentecostFor total i (map (fun k => (g k, h k)) (seq s n))
    = map (fun k => pentecostEntry total (i + Z.of_nat k - Z.of_nat s) (g k))
          (seq s n).
Proof.
  induction n as [ | n IH]; intros s i; [reflexivity | ].
  cbn [seq map pentecostFor]. f_equal.
  - f_equal. lia.
  - rewrite IH. apply map_ext. intros k. f_equal. lia.
Qed.

Lemma pentecostEntry_slug total i d d' :
  slug (pentecostEntry total i d) = slug (pentecostEntry total i d').
Proof.
  unfold pentecostEntry. cbv zeta.
  repeat match goal with
         | |- context [if ?b then _ else _] => destruct b
         end; reflexivity.
Qed.

Lemma filter_map_swap {A B} (P : B -> bool) (f : A -> B) (l : list A) :
  filter P (map f l) = map f (filter (fun x => P (f x)) l).
Proof.
  induction l as [ | x l IH]; [reflexivity | ].
  cbn [map filter]. rewrite IH. destruct (P (f x)); reflexivity.
Qed.

(** The Sundays after Pentecost as a function of their number [n]. *)
Lemma pentecostSundayEntries_run Y :
  99 <= Y ->
  exists n : nat,
    (22 <= n <= 27)%nat
    /\ easterSunday (Y + 1) + 63 + 7 * (Z.of_nat n - 1) = nextAdvent1 Y - 7
    /\ pentecostSundayEntries Y
       = map (fun k => pentecostEntry (Z.of_nat n) (Z.of_nat k)
                         (easterSunday (Y + 1) + 63 + 7 * Z.of_nat k))
             (seq 0 n)
    /\ forall s0,
         filter (hasSlug s0) (pentecostSundayEntries Y)
         = map (fun k => pentecostEntry (Z.of_nat n) (Z.of_nat k)
                           (easterSunday (Y + 1) + 63 + 7 * Z.of_nat k))
               (filter (fun k => hasSlug s0 (pentecostEntry (Z.of_nat n)
                                               (Z.of_nat k) 0))
                       (seq 0 n)).
Proof.
  intros H. destruct (pentecostSundays_run Y H) as (q & Hq & Hps).
  destruct (easterSunday_in_year (Y + 1) ltac:(lia)) as (p & Hp & E & _).
  destruct (nextAdvent1_in_year Y H) as (B & _).
  assert (En : pentecostSundayEntries Y
               = map (fun k => pentecostEntry (Z.of_nat (q + 2)) (Z.of_nat k)
                                 (easterSunday (Y + 1) + 63 + 7 * Z.of_nat k))
                     (seq 0 (q + 2))).
  { unfold pentecostSundayEntries. rewrite Hps.
    rewrite length_map, length_seq, pentecostFor_map.
    apply map_ext. intros k. f_equal. lia. }
  exists (q + 2)%nat. split; [lia | split; [lia | split; [exact En | ]]].
  intros s0. rewrite En, filter_map_swap. f_equal.
  apply filter_ext. intros k. unfold hasSlug.
  now rewrite (pentecostEntry_slug _ _ _ 0).
Qed.

Ltac eval_slug_indices :=
  match goal with
  | |- context [filter ?P (seq 0 ?n)] =>
      let v := eval vm_compute in (filter P (seq 0 n)) in
      change (filter P (seq 0 n)) with v
  end.

(** X13: from the start year 99 on there are between 22 and 27 Sundays
    after Pentecost in the list that ends with Judgement Sunday, a week
    before the next first Advent Sunday; Apostles' Day (Easter + 91 days)
    and Transfiguration Sunday (Easter + 105 days) are generated every year,
    Reformation Day (Easter + 203 days) only when the list has at least 23
    Sundays, the two end-of-year names taking its place otherwise. *)
Theorem sundays_after_pentecost (Y : Z) (H : 99 <= Y) :
  exists n : Z,
    22 <= n <= 27
    /\ Z.of_nat (List.length (pentecostSundayEntries Y)) = n
    /\ easterSunday (Y + 1) + 63 + 7 * (n - 1)
       = nearestSunday (makeDate (Y + 1) 11 30) - 7
    /\ filter (hasSlug "apostolien-paiva") (generateChurchYear Y)
       = [add (easterSunday (Y + 1) + 91) "apostolien-paiva"
              "Apostolien päivä" sunday]
    /\ filter (hasSlug "kirkastussunnuntai") (generateChurchYear Y)
       = [add (easterSunday (Y + 1) + 105) "kirkastussunnuntai"
              "Kirkastussunnuntai" sunday]
    /\ filter (hasSlug "reformaation-paiva") (generateChurchYear Y)
       = if 23 <=? n
         then [add (easterSunday (Y + 1) + 203) "reformaation-paiva"
                   "Reformaation päivä" sunday]
         else [].
Proof.
  destruct (pentecostSundayEntries_run Y H) as (n & Hn & Hlast & En & Hf).
  exists (Z.of_nat n).
  split; [lia | split; [ | split; [exact Hlast | ]]].
  { rewrite En, length_map, length_seq. reflexivity. }
  assert (short : forall s0, In s0 ["apostolien-paiva"; "kirkastussunnuntai";
                                    "reformaation-paiva"] ->
                             (String.length s0 < 23)%nat)
    by (intros s0 [<- | [<- | [<- | []]]]; cbn; lia).
  assert (Cn : (n = 22 \/ n = 23 \/ n = 24 \/ n = 25 \/ n = 26 \/ n = 27)%nat)
    by lia.
  clear Hn Hlast En.
  generalize dependent (easterSunday (Y + 1)). intros E Hf.
  split; [ | split].
  - slug_home "apostolien-paiva" (short "apostolien-paiva" ltac:(cbn; tauto)).
    rewrite Hf.
    destruct Cn as [-> | [-> | [-> | [-> | [-> | ->]]]]];
      eval_slug_indices; cbn [map sortBy fold_right insertBy];
      replace (E + 63 + 7 * Z.of_nat 4) with (E + 91) by lia;
      reflexivity.
  - slug_home "kirkastussunnuntai"
              (short "kirkastussunnuntai" ltac:(cbn; tauto)).
    rewrite Hf.
    destruct Cn as [-> | [-> | [-> | [-> | [-> | ->]]]]];
      eval_slug_indices; cbn [map sortBy fold_right insertBy];
      replace (E + 63 + 7 * Z.of_nat 6) with (E + 105) by lia;
      reflexivity.
  - slug_home "reformaation-paiva"
              (short "reformaation-paiva" ltac:(cbn; tauto)).
    rewrite Hf.
    destruct Cn as [-> | [-> | [-> | [-> | [-> | ->]]]]];
      eval_slug_indices; cbn [map sortBy fold_right insertBy];
      try replace (E + 63 + 7 * Z.of_nat 20) with (E + 203) by lia;
      reflexivity.
Qed.

(** The church year 2025 has 25 such Sundays. *)
Lemma sundays_after_pentecost_witness :
  99 <= 2025
  /\ List.length (pentecostSundayEntries 2025) = 25%nat
  /\ exists n : Z,
       22 <= n <= 27
       /\ Z.of_nat (List.length (pentecostSundayEntries 2025)) = n.
Proof.
  split; [lia | split; [vm_compute; reflexivity | ]].
  destruct (sundays_after_pentecost 2025 ltac:(lia)) as (n & Hn & Hl & _).
  exists n. split; [exact Hn | exact Hl].
Defined.

(** ** Days of the week around Easter *)

Lemma getDayOfWeekFi_nth d k :
  (d + 4) mod 7 = k ->
  getDayOfWeekFi d
  = nth (Z.to_nat k)
        ["sunnuntai"; "maanantai"; "tiistai"; "keskiviikko"; "torstai";
         "perjantai"; "lauantai"]%string ""%string.
Proof. intros <-. reflexivity. Qed.

Lemma firstn_In {A} (x : A) :
  forall n l, In x (firstn n l) -> In x l.
Proof.
  induction n as [ | n IH]; intros [ | y l]; cbn [firstn In]; try tauto.
  intros [E | Hx]; [now left | right; now apply IH].
Qed.

Ltac weekday_name Y WE :=
  rewrite date_add; unfold ascension, pentecost, easter;
  rewrite ?addDays_plus;
  first [ apply (getDayOfWeekFi_nth _ 0) | apply (getDayOfWeekFi_nth _ 1)
        | apply (getDayOfWeekFi_nth _ 2) | apply (getDayOfWeekFi_nth _ 3)
        | apply (getDayOfWeekFi_nth _ 4) | apply (getDayOfWeekFi_nth _ 5)
        | apply (getDayOfWeekFi_nth _ 6) ];
  revert WE; generalize (easterSunday (Y + 1)); intros E WE;
  Z.div_mod_to_equations; lia.

(** X14: from the start year 99 on, the days of Lent, Holy Week, Easter
    week, Ascension and Pentecost fall on the day of the week that
    [getDayOfWeekFi] names as their Finnish names say: Ash Wednesday on a
    "keskiviikko", Maundy Thursday and Ascension Day on a "torstai", Good
    Friday and its two services on a "perjantai", the Easter vigil and
    Pentecost Eve on a "lauantai", the second Easter day on a "maanantai",
    and so on. *)
Theorem easter_cycle_weekdays (Y : Z) (H : 99 <= Y) :
  map (fun e => (slug e, getDayOfWeekFi (date e)))
      (firstn 1 (lentEntries Y) ++ holyWeekEntries Y
       ++ firstn 8 (easterEntries Y)
       ++ firstn 3 (ascensionPentecostEntries Y))
  = [("tuhkakeskiviikko", "keskiviikko");
     ("palmusunnuntai", "sunnuntai");
     ("hiljaisen-viikon-maanantai", "maanantai");
     ("hiljaisen-viikon-tiistai", "tiistai");
     ("hiljaisen-viikon-keskiviikko", "keskiviikko");
     ("kiirastorstai", "torstai");
     ("pitkaperjantai", "perjantai");
     ("jeesuksen-kuolinhetki", "perjantai");
     ("pitkaperjantain-ilta", "perjantai");
     ("hiljainen-lauantai", "lauantai");
     ("paasiaisyo", "lauantai");
     ("paasiaispaiva", "sunnuntai");
     ("2-paasiaispaiva", "maanantai");
     ("paasiaisen-jalkeinen-tiistai", "tiistai");
     ("paasiaisen-jalkeinen-keskiviikko", "keskiviikko");
     ("paasiaisen-jalkeinen-torstai", "torstai");
     ("paasiaisen-jalkeinen-perjantai", "perjantai");
     ("paasiaisen-jalkeinen-lauantai", "lauantai");
     ("helatorstai", "torstai");
     ("helluntaiaatto", "lauantai");
     ("helluntaipaiva", "sunnuntai")]%string
  /\ incl (firstn 1 (lentEntries Y) ++ holyWeekEntries Y
           ++ firstn 8 (easterEntries Y)
           ++ firstn 3 (ascensionPentecostEntries Y))
          (generateChurchYear Y).
Proof.
  destruct (easterSunday_in_year (Y + 1) ltac:(lia)) as (p & _ & _ & WE).
  clear p. split.
  - unfold lentEntries, holyWeekEntries, easterEntries,
      ascensionPentecostEntries.
    cbn [firstn app map slug add].
    repeat (apply f_equal2; [apply f_equal2; [reflexivity | ] | ]);
      try reflexivity; weekday_name Y WE.
  - intros e He. apply generateChurchYear_In. unfold churchYearEntries.
    rewrite !in_app_iff in He. rewrite !in_app_iff.
    destruct He as [He | [He | [He | He]]].
    + right; right; right; right; left.
      exact (firstn_In e 1 (lentEntries Y) He).
    + right; right; right; right; right; left. exact He.
    + right; right; right; right; right; right; left.
      exact (firstn_In e 8 (easterEntries Y) He).
    + right; right; right; right; right; right; right; left.
      exact (firstn_In e 3 (ascensionPentecostEntries Y) He).
Qed.

(** In 2026 Good Friday is April 3. *)
Lemma easter_cycle_weekdays_witness :
  99 <= 2025
  /\ nth 6 (map (fun e => (dateStr e, getDayOfWeekFi (date e)))
                (firstn 1 (lentEntries 2025) ++ holyWeekEntries 2025))
         ((0, 0, 0), ""%string)
     = ((2026, 4, 3), "perjantai"%string)
  /\ In ("pitkaperjantai"%string, "perjantai"%string)
        (map (fun e => (slug e, getDayOfWeekFi (date e)))
             (firstn 1 (lentEntries 2025) ++ holyWeekEntries 2025
              ++ firstn 8 (easterEntries 2025)
              ++ firstn 3 (ascensionPentecostEntries 2025))).
Proof.
  split; [lia | split; [vm_compute; reflexivity | ]].
  rewrite (proj1 (easter_cycle_weekdays 2025 ltac:(lia))).
  cbn [In]. tauto.
Defined.

(** * Further properties of the resolver *)

Section LatestPreceding.
Variable d : Date.

Let step (best : option CalendarEntry) (entry : CalendarEntry) :=
  if (EntryType_eqb (type entry) sunday || EntryType_eqb (type entry) feast)
     && (date entry <=? d)
  then match best with
       | None => Some entry
       | Some b => if date b <? date entry then Some entry else best
       end
  else best.

Let latestIn (seen : list CalendarEntry) (best : option CalendarEntry)
  : Prop :=
  match best with
  | Some e =>
      exists before after,
        seen = before ++ e :: after
        /\ precedes d e
        /\ (forall e', In e' before -> precedes d e' -> date e' < date e)
        /\ (forall e', In e' after -> precedes d e' -> date e' <= date e)
  | None => forall e', In e' seen -> ~ precedes d e'
  end.

Lemma step_precedes e :
  (EntryType_eqb (type e) sunday || EntryType_eqb (type e) feast)
  && (date e <=? d) = true <-> precedes d e.
Proof.
  unfold precedes. rewrite andb_true_iff, orb_true_iff, Z.leb_le.
  destruct (type e); cbn; intuition congruence.
Qed.

Lemma step_latestIn seen best x :
  latestIn seen best -> latestIn (seen ++ [x]) (step best x).
Proof.
  unfold step.
  destruct ((EntryType_eqb (type x) sunday || EntryType_eqb (type x) feast)
            && (date x <=? d)) eqn:Q.
  - apply step_precedes in Q. destruct best as [b | ]; cbn [latestIn].
    + intros (before & after & -> & Pb & Hb & Ha).
      destruct (Z.ltb_spec (date b) (date x)) as [L | G].
      * exists (before ++ b :: after), []. split; [reflexivity | ].
        split; [exact Q | split; [ | intros e' []]].
        intros e' He' Pe'. apply in_app_iff in He' as [He' | [<- | He']].
        -- specialize (Hb e' He' Pe'). lia.
        -- exact L.
        -- specialize (Ha e' He' Pe'). lia.
      * exists before, (after ++ [x]).
        split; [now rewrite <- app_assoc | ].
        split; [exact Pb | split; [exact Hb | ]].
        intros e' He' Pe'. apply in_app_iff in He' as [He' | [<- | []]].
        -- exact (Ha e' He' Pe').
        -- exact G.
    + intros Hn. exists seen, []. split; [reflexivity | ].
      split; [exact Q | split; [ | intros e' []]].
      intros e' He' Pe'. exfalso. exact (Hn e' He' Pe').
  - assert (N : ~ precedes d x).
    { intros P. apply step_precedes in P. congruence. }
    destruct best as [b | ]; cbn [latestIn].
    + intros (before & after & -> & Pb & Hb & Ha).
      exists before, (after ++ [x]).
      split; [now rewrite <- app_assoc | ].
      split; [exact Pb | split; [exact Hb | ]].
      intros e' He' Pe'. apply in_app_iff in He' as [He' | [<- | []]].
      -- exact (Ha e' He' Pe').
      -- contradiction.
    + intros Hn e' He'. apply in_app_iff in He' as [He' | [<- | []]].
      * exact (Hn e' He').
      * exact N.
Qed.

Lemma fold_latestIn l :
  forall seen best,
    latestIn seen best -> latestIn (seen ++ l) (fold_left step l best).
Proof.
  induction l as [ | x l IH]; intros seen best Hb; cbn [fold_left].
  - now rewrite app_nil_r.
  - replace (seen ++ x :: l) with ((seen ++ [x]) ++ l)
      by (now rewrite <- app_assoc).
    apply IH, step_latestIn, Hb.
Qed.

(** X15: [findPrecedingSunday] returns the first of the latest entries of
    type sunday or feast that are dated on or before the given date: every
    such entry earlier in the calendar array is dated strictly before it and
    none later in the array is dated after it.  It returns null only when
    the array holds no entry of these types on or before the date. *)
Theorem findPrecedingSunday_latest (calendar : list CalendarEntry) :
  match findPrecedingSunday calendar d with
  | Some e =>
      exists before after,
        calendar = before ++ e :: after
        /\ precedes d e
        /\ (forall e', In e' before -> precedes d e' -> date e' < date e)
        /\ (forall e', In e' after -> precedes d e' -> date e' <= date e)
  | None => forall e', In e' calendar -> ~ precedes d e'
  end.
Proof.
  assert (I : latestIn [] None) by (intros e' []).
  apply (fold_latestIn calendar) in I. exact I.
Qed.
End LatestPreceding.

(** ** Every Sunday of the church year has an entry *)

Lemma sundayOnOrAfter_unique x s :
  x <= s <= x + 6 -> (s + 4) mod 7 = 0 -> sundayOnOrAfter x = s.
Proof.
  intros B W. destruct (sundayOnOrAfter_spec x) as (B' & W').
  rewrite dayOfWeek_mod in W'. revert B' W'.
  generalize (sundayOnOrAfter x). intros f B' W'.
  Z.div_mod_to_equations. lia.
Qed.

Lemma sundayAfterInRange_hit after lo hi s :
  after < s <= after + 7 -> (s + 4) mod 7 = 0 -> lo <= s <= hi ->
  sundayAfterInRange after lo hi = Some s.
Proof.
  intros B W R. unfold sundayAfterInRange. cbv zeta.
  rewrite (sundayOnOrAfter_unique (addDays after 1) s);
    [ | rewrite addDays_plus; lia | exact W].
  destruct (Z.leb_spec lo s), (Z.leb_spec s hi); cbn [andb];
    [reflexivity | lia | lia | lia].
Qed.

Lemma epiphanyLoop_In Y :
  forall (k : nat) fuel cur count,
    (k < fuel)%nat ->
    cur + 7 * Z.of_nat k < septuagesima Y ->
    count + Z.of_nat k <= 6 ->
    exists s n,
      In (add (cur + 7 * Z.of_nat k) s n sunday)
         (epiphanyLoop Y fuel cur count).
Proof.
  induction k as [ | k IH]; intros fuel cur count Hf Hlt Hc;
    (destruct fuel as [ | fuel]; [lia | ]); cbn [epiphanyLoop].
  - replace (cur + 7 * Z.of_nat 0) with cur in * by lia.
    destruct (Z.ltb_spec cur (septuagesima Y)); [ | lia].
    destruct (Z.leb_spec count 6); [ | lia]. cbn [andb].
    eexists. eexists. left. reflexivity.
  - destruct (Z.ltb_spec cur (septuagesima Y)); [ | lia].
    destruct (Z.leb_spec count 6); [ | lia]. cbn [andb].
    destruct (IH fuel (addDays cur 7) (count + 1)) as (s & n & Hin).
    + lia.
    + rewrite addDays_plus. lia.
    + lia.
    + exists s, n. right. rewrite addDays_plus in Hin at 1.
      replace (cur + 7 * Z.of_nat (S k)) with (cur + 7 + 7 * Z.of_nat k)
        by lia.
      exact Hin.
Qed.

Lemma makeDate_december Y x :
  ~ 0 <= Y <= 99 -> ~ 0 <= Y + 1 <= 99 ->
  makeDate Y 12 x = Ecma.DayFromYear (Y + 1) - 32 + x.
Proof.
  intros H0 H1. rewrite makeDate_month12, FullYear_id by exact H0.
  rewrite DayFromYear_succ. lia.
Qed.

Lemma makeDate_january Y x :
  ~ 0 <= Y + 1 <= 99 ->
  makeDate (Y + 1) 1 x = Ecma.DayFromYear (Y + 1) + x - 1.
Proof.
  intros H1. rewrite makeDate_month1, FullYear_id by exact H1. lia.
Qed.

Ltac find_entry :=
  repeat first
    [ apply Exists_cons_hd;
      split;
      [ rewrite date_add, ?addDays_plus; lia
      | cbn [type add]; first [left; reflexivity | right; reflexivity] ]
    | apply Exists_cons_tl
    | apply Exists_app; right ].

Lemma sunday_has_entry Y d :
  100 <= Y ->
  advent1 Y <= d < nextAdvent1 Y ->
  (d + 4) mod 7 = 0 ->
  Exists (fun e => date e = d /\ (type e = sunday \/ type e = feast))
         (churchYearEntries Y).
Proof.
  intros HY Hd Wd.
  pose proof (InLeapYear_range (Y + 1)) as FL1.
  destruct (easterSunday_in_year (Y + 1) ltac:(lia)) as (p & Fp & FE & WE).
  destruct (nextAdvent1_in_year Y ltac:(lia)) as (FN & WN).
  pose proof (nearestSunday_WeekDay (makeDate Y 11 30)) as WA.
  rewrite WeekDay_mod in WA.
  assert (FA : Ecma.DayFromYear (Y + 1) - 35
               <= nearestSunday (makeDate Y 11 30)
               <= Ecma.DayFromYear (Y + 1) - 29).
  { pose proof (nearestSunday_bounds (makeDate Y 11 30)) as FA.
    assert (M11 : makeDate Y 11 30 = Ecma.DayFromYear (Y + 1) - 32).
    { rewrite makeDate_month11, FullYear_id, DayFromYear_succ by lia. lia. }
    lia. }
  unfold advent1 in Hd.
  destruct (pentecostSundayEntries_run Y ltac:(lia))
    as (n & _ & Hlast & En & _).
  destruct (sundayOnOrAfter_spec (addDays (epiphany Y) 1)) as (FF & WF).
  rewrite dayOfWeek_mod in WF.
  pose proof (addDays_plus (epiphany Y) 1) as FF1.
  assert (FF2 : epiphany Y = Ecma.DayFromYear (Y + 1) + 5)
    by (unfold epiphany; rewrite (makeDate_january Y) by lia; lia).
  assert (FS : septuagesima Y = easterSunday (Y + 1) - 63)
    by (unfold septuagesima, easter; rewrite addDays_plus; lia).
  unfold churchYearEntries. rewrite !Exists_app.
  unfold adventEntries, christmasEntries, epiphanyEntries,
    preLentEntries, lentEntries, holyWeekEntries, easterEntries,
    ascensionPentecostEntries.
  rewrite En. clear En.
  unfold advent1, ascension, pentecost, easter.
  cbv zeta. cbn [map].
  rewrite !(makeDate_december Y), !(makeDate_january Y) by lia.
  revert FF WF FF1 FF2.
  generalize (sundayOnOrAfter (addDays (epiphany Y) 1)).
  generalize (addDays (epiphany Y) 1).
  generalize (epiphany Y).
  revert Hd WA FA. generalize (nearestSunday (makeDate Y 11 30)).
  revert FN WN Hlast. generalize (nextAdvent1 Y).
  revert FE WE FS. generalize (easterSunday (Y + 1)).
  revert FL1. generalize (Ecma.InLeapYear (Y + 1)).
  generalize (Ecma.DayFromYear (Y + 1)).
  intros J L FL1 E FE WE FS N FN WN Hlast A Hd WA FA Ep Ep1 F FF WF FF1 FF2.
  destruct (Z_lt_le_dec d (A + 28)) as [C1 | C1].
  { (* the four Sundays of Advent *)
    left.
    assert (K : d = A \/ d = A + 7 \/ d = A + 14 \/ d = A + 21)
      by (Z.div_mod_to_equations; lia).
    cbn [app]. clear - K.
    destruct K as [-> | [-> | [-> | ->]]]; find_entry. }
  right.
  destruct (Z_lt_le_dec d (J + 6)) as [C2 | C2].
  { (* Christmas to Epiphany *)
    destruct (Z_lt_le_dec d (J - 3)) as [C3 | C3].
    { left.
      assert (K : d = J - 7 \/ d = J - 6 \/ d = J - 5 \/ d = J - 4) by lia.
      cbn [app]. clear - K.
      destruct K as [-> | [-> | [-> | ->]]]; find_entry. }
    destruct (Z_lt_le_dec d J) as [C4 | C4].
    { left.
      rewrite (sundayAfterInRange_hit _ _ _ d) by (exact Wd || lia).
      cbn [optionalSunday app]. find_entry. }
    destruct (Z.eq_dec d J) as [C5 | C5].
    { left. cbn [app]. find_entry. }
    destruct (Z.eq_dec d (J + 5)) as [C6 | C6].
    { right. left. cbn [app]. find_entry. }
    left.
    rewrite (sundayAfterInRange_hit (J + 1 - 1) _ _ d) by (exact Wd || lia).
    cbn [optionalSunday app]. find_entry. }
  right.
  destruct (Z_lt_le_dec d (E - 63)) as [C3 | C3].
  { (* the Sundays after Epiphany *)
    left. apply Exists_app. right.
    assert (K : exists k : nat, (k < 6)%nat /\ d = F + 7 * Z.of_nat k).
    { exists (Z.to_nat ((d - F) / 7)).
      Z.div_mod_to_equations. lia. }
    destruct K as (k & Hk & ->).
    destruct (epiphanyLoop_In Y k (Z.to_nat (7 - 1)) F 1) as (s & m & Hin).
    - change (Z.to_nat (7 - 1)) with 6%nat. exact Hk.
    - lia.
    - lia.
    - apply Exists_exists. eexists. split; [exact Hin | ].
      split; [apply date_add | left; reflexivity]. }
  right.
  destruct (Z_lt_le_dec d (E - 42)) as [C4 | C4].
  { left.
    assert (K : d = E - 63 \/ d = E - 56 \/ d = E - 49)
      by (Z.div_mod_to_equations; lia).
    clear - K FS. destruct K as [-> | [-> | ->]]; find_entry. }
  right.
  destruct (Z_lt_le_dec d (E - 7)) as [C5 | C5].
  { left.
    assert (K : d = E - 42 \/ d = E - 35 \/ d = E - 28 \/ d = E - 21
                \/ d = E - 14)
      by (Z.div_mod_to_equations; lia).
    cbn [app]. clear - K.
    destruct K as [-> | [-> | [-> | [-> | ->]]]]; find_entry. }
  right.
  destruct (Z_lt_le_dec d E) as [C6 | C6].
  { left.
    assert (K : d = E - 7) by (Z.div_mod_to_equations; lia).
    clear - K. subst d. find_entry. }
  right.
  destruct (Z_lt_le_dec d (E + 49)) as [C7 | C7].
  { left.
    assert (K : d = E \/ d = E + 7 \/ d = E + 14 \/ d = E + 21
                \/ d = E + 28 \/ d = E + 35 \/ d = E + 42)
      by (Z.div_mod_to_equations; lia).
    cbn [app]. clear - K.
    destruct K as [-> | [-> | [-> | [-> | [-> | [-> | ->]]]]]]; find_entry. }
  right.
  destruct (Z_lt_le_dec d (E + 63)) as [C8 | C8].
  { left.
    assert (K : d = E + 49 \/ d = E + 56)
      by (Z.div_mod_to_equations; lia).
    cbn [app]. clear - K.
    destruct K as [-> | ->]; find_entry. }
  right. left.
  assert (K : exists k : nat, (k < n)%nat /\ d = E + 63 + 7 * Z.of_nat k).
  { exists (Z.to_nat ((d - (E + 63)) / 7)).
    Z.div_mod_to_equations. lia. }
  destruct K as (k & Hk & ->).
  apply Exists_exists.
  exists (pentecostEntry (Z.of_nat n) (Z.of_nat k) (E + 63 + 7 * Z.of_nat k)).
  split.
  - apply in_map_iff. exists k. split; [reflexivity | ].
    apply in_seq. lia.
  - destruct (pentecostEntry_add (Z.of_nat n) (Z.of_nat k)
                (E + 63 + 7 * Z.of_nat k)) as (s & m & ->).
    split; [apply date_add | left; reflexivity].
Qed.

Lemma byPrecedence_head (l : list CalendarEntry) e :
  In e l -> type e = sunday \/ type e = feast ->
  exists primary rest,
    byPrecedence l = primary :: rest
    /\ In primary l
    /\ In (type primary) [feast; special; sunday].
Proof.
  intros He Ht. unfold byPrecedence.
  assert (T : forall t x, In x (ofType t l) -> In x l /\ type x = t).
  { intros t x Hx. apply filter_In in Hx as [Hx Hxt]. split; [exact Hx | ].
    destruct (type x), t; cbn in Hxt; try discriminate; reflexivity. }
  assert (I : forall t, type e = t -> In e (ofType t l)).
  { intros t Et. apply filter_In. split; [exact He | ].
    rewrite Et. destruct t; reflexivity. }
  destruct (ofType feast l) as [ | x xs] eqn:F.
  - destruct (ofType special l) as [ | y ys] eqn:Sp.
    + destruct (ofType sunday l) as [ | z zs] eqn:Su.
      * exfalso. destruct Ht as [Ht | Ht].
        -- specialize (I sunday Ht). rewrite Su in I. exact I.
        -- specialize (I feast Ht). rewrite F in I. exact I.
      * cbn [app]. eexists. eexists. split; [reflexivity | ].
        destruct (T sunday z) as (Hz & Tz); [rewrite Su; now left | ].
        split; [exact Hz | ]. rewrite Tz. cbn [In]. tauto.
    + cbn [app]. eexists. eexists. split; [reflexivity | ].
      destruct (T special y) as (Hy & Ty); [rewrite Sp; now left | ].
      split; [exact Hy | ]. rewrite Ty. cbn [In]. tauto.
  - cbn [app]. eexists. eexists. split; [reflexivity | ].
    destruct (T feast x) as (Hx & Tx); [rewrite F; now left | ].
    split; [exact Hx | ]. rewrite Tx. cbn [In]. tauto.
Qed.

Section ResolveSunday.
Variable Enriched : Type.
Variable enrichEntry : CalendarEntry -> Z -> Enriched.
Variable dataSeason : string -> option string.

Lemma resolveDate_dayOfWeek d :
  rd_dayOfWeek _ (resolveDate Enriched enrichEntry dataSeason d)
  = getDayOfWeekFi d.
Proof.
  unfold resolveDate. cbv zeta.
  destruct (filter _ _); reflexivity.
Qed.

End ResolveSunday.


(** ** The calendar cache *)

Section CalendarCacheFacts.

Let sound (cache : CalendarCache) : Prop :=
  NoDup (map fst cache)
  /\ forall y l, In (y, l) cache -> l = generateChurchYear y.

Lemma cacheHas_In cache y :
  cacheHas cache y = true <-> In y (map fst cache).
Proof.
  unfold cacheHas. rewrite existsb_exists, in_map_iff. split.
  - intros ([k v] & Hin & E). apply Z.eqb_eq in E. cbn in E. subst k.
    now exists (y, v).
  - intros ([k v] & E & Hin). cbn in E. subst k.
    exists (y, v). split; [exact Hin | apply Z.eqb_refl].
Qed.

Lemma cacheGet_sound cache y :
  sound cache -> cacheHas cache y = true ->
  cacheGet cache y = Some (generateChurchYear y).
Proof.
  intros (_ & Hs) Hh. unfold cacheGet.
  destruct (find (fun binding => fst binding =? y) cache) as [[k v] | ] eqn:F.
  - apply find_some in F as (Hin & E). apply Z.eqb_eq in E. cbn in E.
    subst k. cbn [option_map snd]. now rewrite (Hs y v Hin).
  - exfalso. unfold cacheHas in Hh. apply existsb_exists in Hh as (b & Hb & E).
    pose proof (find_none _ _ F b Hb) as N. cbn beta in N. congruence.
Qed.

Lemma getCalendarCached_sound cache y :
  sound cache ->
  fst (getCalendarCached cache y) = Some (generateChurchYear y)
  /\ sound (snd (getCalendarCached cache y))
  /\ (forall k, In k (map fst (snd (getCalendarCached cache y)))
                <-> k = y \/ In k (map fst cache)).
Proof.
  intros Hs. unfold getCalendarCached. cbv zeta. cbn [fst snd].
  destruct (cacheHas cache y) eqn:Hh; cbn [negb].
  - split; [now apply cacheGet_sound | split; [exact Hs | ]].
    intros k. apply cacheHas_In in Hh. split; [tauto | ].
    intros [-> | Hk]; assumption.
  - assert (Hn : ~ In y (map fst cache)).
    { intros Hin. apply cacheHas_In in Hin. congruence. }
    assert (E : filter (fun binding => negb (fst binding =? y)) cache = cache).
    { apply filter_all. apply forallb_forall. intros [k v] Hin.
      cbn [fst]. apply negb_true_iff, Z.eqb_neq. intros ->.
      apply Hn. apply in_map_iff. now exists (y, v). }
    unfold cacheSet. rewrite E. split; [ | split].
    + unfold cacheGet. cbn [find fst]. rewrite Z.eqb_refl. reflexivity.
    + destruct Hs as (Hd & Hs). split.
      * cbn [map fst]. now constructor.
      * intros k l [Ek | Hin]; [ | now apply Hs].
        injection Ek as <- <-. reflexivity.
    + intros k. cbn [map fst In]. split; intros [Hk | Hk]; auto.
Qed.

Lemma getCalendars_sound years :
  forall cache,
    sound cache ->
    fst (getCalendars cache years)
    = map (fun y => Some (generateChurchYear y)) years
    /\ sound (snd (getCalendars cache years))
    /\ (forall k, In k (map fst (snd (getCalendars cache years)))
                  <-> In k years \/ In k (map fst cache)).
Proof.
  induction years as [ | y years IH]; intros cache Hs; cbn [getCalendars].
  - split; [reflexivity | split; [exact Hs | ]]. cbn. tauto.
  - destruct (getCalendarCached_sound cache y Hs) as (R1 & S1 & K1).
    destruct (getCalendarCached cache y) as [calendar cache1].
    cbn [fst snd] in R1, S1, K1.
    destruct (IH cache1 S1) as (R2 & S2 & K2).
    destruct (getCalendars cache1 years) as [calendars cache2].
    cbn [fst snd] in *. split; [ | split; [exact S2 | ]].
    + now rewrite R1, R2.
    + intros k. rewrite K2, K1. cbn [In]. intuition congruence.
Qed.

(** X17: however [getCalendar] is called, starting with the empty cache,
    every call returns an array (never undefined) equal to what
    [generateChurchYear] builds for the start year asked for; the cache then
    holds one binding for each start year asked for and no other, each bound
    to the generated calendar of its year. *)
Theorem calendar_cache_coherent (years : list Z) :
  fst (getCalendars [] years) = map (fun y => Some (getCalendar y)) years
  /\ NoDup (map fst (snd (getCalendars [] years)))
  /\ (forall y, In y (map fst (snd (getCalendars [] years))) <-> In y years)
  /\ (forall y, In y years ->
                cacheGet (snd (getCalendars [] years)) y
                = Some (generateChurchYear y)).
Proof.
  assert (S0 : sound []).
  { split; [constructor | intros y l []]. }
  destruct (getCalendars_sound years [] S0) as (R & S & K).
  split; [exact R | split; [exact (proj1 S) | split]].
  - intros y. rewrite K. cbn [map In]. tauto.
  - intros y Hy. apply cacheGet_sound; [exact S | ].
    apply cacheHas_In, K. now left.
Qed.
End CalendarCacheFacts.

(** * Date strings *)

Lemma DateFromDay_range t : 1 <= Ecma.DateFromDay t <= 31.
Proof.
  pose proof (DayWithinYear_range t) as R.
  pose proof (InLeapYear_range (Ecma.YearFromDay t)) as L.
  unfold Ecma.DateFromDay, Ecma.MonthFromDay.
  revert R L. generalize (Ecma.DayWithinYear t).
  generalize (Ecma.InLeapYear (Ecma.YearFromDay t)). intros l w R L.
  cbv zeta.
  repeat match goal with
         | |- context [if ?a <? ?b then _ else _] =>
             destruct (Z.ltb_spec a b)
         end;
    unfold Ecma.MonthStart; cbn [Z.eqb Pos.eqb]; lia.
Qed.

Lemma string_of_uint_digits u :
  allChars isDigit (NilEmpty.string_of_uint u) = true.
Proof. induction u; cbn; auto. Qed.

Lemma num_digits n : 0 <= n -> allChars isDigit (num n) = true.
Proof.
  intros H. unfold num. destruct n as [ | p | p]; [reflexivity | | lia].
  cbn [Z.to_int NilZero.string_of_int]. unfold NilZero.string_of_uint.
  destruct (Pos.to_uint p) eqn:E; try reflexivity;
    rewrite <- E; apply string_of_uint_digits.
Qed.

Lemma Number_num n : 0 <= n -> Number (num n) = Some n.
Proof.
  intros H. unfold num. destruct n as [ | p | p]; [reflexivity | | lia].
  cbn [Z.to_int NilZero.string_of_int]. unfold NilZero.string_of_uint.
  assert (V : Z.of_uint (Pos.to_uint p) = Z.pos p).
  { unfold Z.of_uint. now rewrite DecimalPos.Unsigned.of_to. }
  pose proof (NilEmpty.usu (Pos.to_uint p)) as U.
  pose proof (DecimalPos.Unsigned.to_uint_nonnil p) as N.
  destruct (Pos.to_uint p) eqn:E; [contradiction | | | | | | | | | | ];
    unfold Number; cbn [NilEmpty.string_of_uint];
    cbn [NilEmpty.string_of_uint] in U; rewrite U; cbn [option_map];
    now rewrite V.
Qed.

Lemma num_inj a b : 0 <= a -> 0 <= b -> num a = num b -> a = b.
Proof.
  intros Ha Hb E. apply (f_equal Number) in E.
  rewrite !Number_num in E by assumption. now injection E.
Qed.

(** Months and days of the month take two digits. *)
Lemma two_digits r :
  0 <= r < 100 ->
  exists c1 c2,
    padStart2 (num r) = String c1 (String c2 EmptyString)
    /\ isDigit c1 = true /\ isDigit c2 = true
    /\ Number (padStart2 (num r)) = Some r.
Proof.
  intros Hr.
  assert (C : (match padStart2 (num r) with
               | String c1 (String c2 EmptyString) =>
                   isDigit c1 && isDigit c2
                   && match Number (padStart2 (num r)) with
                      | Some v => v =? r
                      | None => false
                      end
               | _ => false
               end) = true).
  { apply (forallb_range
             (fun r => match padStart2 (num r) with
                       | String c1 (String c2 EmptyString) =>
                           isDigit c1 && isDigit c2
                           && match Number (padStart2 (num r)) with
                              | Some v => v =? r
                              | None => false
                              end
                       | _ => false
                       end) 100); [vm_compute; reflexivity | lia]. }
  destruct (padStart2 (num r)) as [ | c1 [ | c2 [ | ]]]; try discriminate C.
  exists c1, c2. apply andb_true_iff in C as [C C3].
  apply andb_true_iff in C as [C1 C2].
  split; [reflexivity | split; [exact C1 | split; [exact C2 | ]]].
  destruct (Number (String c1 (String c2 ""))) as [v | ];
    [ | discriminate C3].
  apply Z.eqb_eq in C3. now subst v.
Qed.

Lemma append_String (s t : string) c :
  (String c s ++ t)%string = String c (s ++ t)%string.
Proof. reflexivity. Qed.

Lemma splitOn_field s t :
  allChars isDigit s = true ->
  splitOn "-" (s ++ String "-" t)%string = s :: splitOn "-" t.
Proof.
  induction s as [ | c s IH]; intros H; [reflexivity | ].
  cbn [allChars] in H. apply andb_true_iff in H as [Hc Hs].
  rewrite append_String. cbn [splitOn]. rewrite (IH Hs).
  destruct (Ascii.eqb_spec c "-") as [-> | N]; [discriminate Hc | ].
  reflexivity.
Qed.

Lemma splitOn_last s :
  allChars isDigit s = true -> splitOn "-" s = [s].
Proof.
  induction s as [ | c s IH]; intros H; [reflexivity | ].
  cbn [allChars] in H. apply andb_true_iff in H as [Hc Hs].
  cbn [splitOn]. rewrite (IH Hs).
  destruct (Ascii.eqb_spec c "-") as [-> | N]; [discriminate Hc | ].
  reflexivity.
Qed.

(** [parseDate] on the string of year, month and day, the year written
    without sign. *)
Lemma parseDateString_render y m d :
  0 <= y -> 0 <= m < 100 -> 0 <= d < 100 ->
  parseDateString (renderDateStr (y, m, d)) = Some (makeDate y m d).
Proof.
  intros Hy Hm Hd. unfold parseDateString, renderDateStr.
  destruct (two_digits m Hm) as (m1 & m2 & Em & Dm1 & Dm2 & Nm).
  destruct (two_digits d Hd) as (d1 & d2 & Ed & Dd1 & Dd2 & Nd).
  rewrite Em, Ed in *.
  change ("-" ++ String m1 (String m2 "") ++ "-" ++ String d1 (String d2 ""))%string
    with (String "-" (String m1 (String m2 "")
                        ++ String "-" (String d1 (String d2 "")))%string).
  rewrite splitOn_field by now apply num_digits.
  rewrite splitOn_field by (cbn [allChars]; now rewrite Dm1, Dm2).
  rewrite splitOn_last by (cbn [allChars]; now rewrite Dd1, Dd2).
  cbn [map]. now rewrite Number_num, Nm, Nd by exact Hy.
Qed.

Lemma makeDate_formatDate d :
  ~ 0 <= getUTCFullYear d <= 99 ->
  makeDate (Ecma.YearFromDay d) (Ecma.MonthFromDay d + 1)
           (Ecma.DateFromDay d) = d.
Proof.
  intros H. unfold makeDate, Ecma.UTC. cbv zeta.
  unfold getUTCFullYear in H. rewrite FullYear_id by exact H.
  replace (Ecma.MonthFromDay d + 1 - 1) with (Ecma.MonthFromDay d) by lia.
  pose proof (MakeDay_civil d 0) as M. rewrite !Z.add_0_r in M. exact M.
Qed.

Lemma parseDateString_formatDateString d :
  100 <= getUTCFullYear d -> parseDateString (formatDateString d) = Some d.
Proof.
  intros H.
  pose proof (makeDate_formatDate d ltac:(lia)) as P.
  pose proof (MonthFromDay_range d) as Rm.
  pose proof (DateFromDay_range d) as Rd.
  unfold getUTCFullYear in H. unfold formatDateString, formatDate.
  rewrite parseDateString_render by lia.
  now rewrite P.
Qed.

(** X18: from the year 100 on, [parseDate] undoes [formatDate]: the string
    printed for a date is split into year, month and day that [makeDate]
    turns into the same date. *)
Theorem parseDate_undoes_formatDate (d : Date)
  (H : 100 <= getUTCFullYear d) :
  parseDateString (formatDateString d) = Some d.
Proof. exact (parseDateString_formatDateString d H). Qed.

(** July 4, 2026 is printed "2026-07-04" and read back. *)
Lemma parseDate_undoes_formatDate_witness :
  100 <= getUTCFullYear (makeDate 2026 7 4)
  /\ formatDateString (makeDate 2026 7 4) = "2026-07-04"%string
  /\ parseDateString "2026-07-04" = Some (makeDate 2026 7 4).
Proof.
  assert (H : 100 <= getUTCFullYear (makeDate 2026 7 4))
    by (vm_compute; discriminate).
  assert (E : formatDateString (makeDate 2026 7 4) = "2026-07-04"%string)
    by (vm_compute; reflexivity).
  split; [exact H | split; [exact E | ]].
  rewrite <- E. exact (parseDate_undoes_formatDate (makeDate 2026 7 4) H).
Defined.

Lemma length_append (s t : string) :
  String.length (s ++ t)%string = (String.length s + String.length t)%nat.
Proof. induction s as [ | c s IH]; cbn; [reflexivity | now rewrite IH]. Qed.

Lemma append_inj_suffix (s1 s2 t1 t2 : string) :
  String.length t1 = String.length t2 ->
  (s1 ++ t1)%string = (s2 ++ t2)%string -> s1 = s2 /\ t1 = t2.
Proof.
  revert s2. induction s1 as [ | c s1 IH]; intros [ | c2 s2] L E.
  - split; [reflexivity | exact E].
  - exfalso. apply (f_equal String.length) in E.
    cbn [append String.length] in E. rewrite length_append in E. lia.
  - exfalso. apply (f_equal String.length) in E.
    cbn [append String.length] in E. rewrite length_append in E. lia.
  - cbn [append] in E. injection E as -> E.
    destruct (IH s2 L E) as (-> & ->). split; reflexivity.
Qed.

Lemma num_negative p : num (Z.neg p) = String "-" (num (Z.pos p)).
Proof. reflexivity. Qed.

Lemma num_injective a b : num a = num b -> a = b.
Proof.
  assert (D : forall n, 0 <= n -> exists c s, num n = String c s
                                             /\ isDigit c = true).
  { intros n Hn. pose proof (num_digits n Hn) as A.
    pose proof (Number_num n Hn) as V.
    destruct (num n) as [ | c s] eqn:E.
    - exfalso. destruct n as [ | p | p]; [discriminate E | | lia].
      unfold num in E. cbn [Z.to_int NilZero.string_of_int] in E.
      unfold NilZero.string_of_uint in E.
      pose proof (DecimalPos.Unsigned.to_uint_nonnil p) as N.
      destruct (Pos.to_uint p); first [contradiction | discriminate E].
    - exists c, s. cbn [allChars] in A. apply andb_true_iff in A as [A _].
      split; [reflexivity | exact A]. }
  intros E. destruct a as [ | p | p], b as [ | q | q];
    try (apply num_inj; [lia | lia | exact E]).
  - exfalso. rewrite num_negative in E.
    destruct (D 0 ltac:(lia)) as (c & s & Ec & Dc). rewrite Ec in E.
    injection E as -> _. discriminate Dc.
  - exfalso. rewrite num_negative in E.
    destruct (D (Z.pos p) ltac:(lia)) as (c & s & Ec & Dc). rewrite Ec in E.
    injection E as -> _. discriminate Dc.
  - exfalso. rewrite num_negative in E.
    destruct (D 0 ltac:(lia)) as (c & s & Ec & Dc). rewrite Ec in E.
    injection E as <- _. discriminate Dc.
  - exfalso. rewrite num_negative in E.
    destruct (D (Z.pos q) ltac:(lia)) as (c & s & Ec & Dc). rewrite Ec in E.
    injection E as <- _. discriminate Dc.
  - rewrite !num_negative in E. injection E as E.
    apply num_inj in E; [ | lia | lia]. congruence.
Qed.

Lemma renderDateStr_inj y1 m1 d1 y2 m2 d2 :
  0 <= m1 < 100 -> 0 <= d1 < 100 -> 0 <= m2 < 100 -> 0 <= d2 < 100 ->
  renderDateStr (y1, m1, d1) = renderDateStr (y2, m2, d2) ->
  (y1, m1, d1) = (y2, m2, d2).
Proof.
  intros Hm1 Hd1 Hm2 Hd2. unfold renderDateStr.
  destruct (two_digits m1 Hm1) as (a1 & a2 & Ea & _ & _ & Na).
  destruct (two_digits d1 Hd1) as (b1 & b2 & Eb & _ & _ & Nb).
  destruct (two_digits m2 Hm2) as (a3 & a4 & Ec & _ & _ & Nc).
  destruct (two_digits d2 Hd2) as (b3 & b4 & Ed & _ & _ & Nd).
  rewrite Ea, Eb, Ec, Ed in *. intros E.
  apply append_inj_suffix in E as (Ey & Es); [ | reflexivity].
  apply num_injective in Ey. cbn [append] in Es.
  injection Es as -> -> -> ->.
  assert (Em : m1 = m2) by congruence.
  assert (Ed' : d1 = d2) by congruence.
  now subst.
Qed.

(** X19: [formatDate] prints different days as different strings: the
    strings of two dates are equal exactly when the dates are the same day,
    which is also when year, month and day of the month agree. *)
Theorem formatDate_injective (a b : Date) :
  (formatDateString a = formatDateString b <-> a = b)
  /\ (formatDateString a = formatDateString b
      <-> formatDate a = formatDate b).
Proof.
  assert (I : formatDateString a = formatDateString b ->
              formatDate a = formatDate b).
  { unfold formatDateString, formatDate.
    pose proof (MonthFromDay_range a). pose proof (MonthFromDay_range b).
    pose proof (DateFromDay_range a). pose proof (DateFromDay_range b).
    apply renderDateStr_inj; lia. }
  split; split.
  - intros E. apply formatDate_inj, I, E.
  - now intros ->.
  - exact I.
  - unfold formatDateString. now intros ->.
Qed.

Lemma MonthStart_values l :
  Ecma.MonthStart l 0 = 0 /\ Ecma.MonthStart l 1 = 31
  /\ Ecma.MonthStart l 2 = 59 + l /\ Ecma.MonthStart l 3 = 90 + l
  /\ Ecma.MonthStart l 4 = 120 + l /\ Ecma.MonthStart l 5 = 151 + l
  /\ Ecma.MonthStart l 6 = 181 + l /\ Ecma.MonthStart l 7 = 212 + l
  /\ Ecma.MonthStart l 8 = 243 + l /\ Ecma.MonthStart l 9 = 273 + l
  /\ Ecma.MonthStart l 10 = 304 + l /\ Ecma.MonthStart l 11 = 334 + l.
Proof. repeat split; reflexivity. Qed.

Lemma formatDate_makeDate_full Y m d :
  validDate Y m d ->
  formatDate (Ecma.DayFromYear Y
              + Ecma.MonthStart (Ecma.InLeapYear Y) (m - 1) + d - 1)
  = (Y, m, d).
Proof.
  intros (Hm & Hd). unfold daysInMonth in Hd.
  pose proof (InLeapYear_range Y) as L.
  pose proof (DayFromYear_succ Y) as S.
  assert (Hk : exists k, m = k + 1 /\ 0 <= k <= 11)
    by (exists (m - 1); lia).
  destruct Hk as (k & -> & Hk). clear Hm.
  replace (k + 1 - 1) with k by lia.
  set (t := Ecma.DayFromYear Y
            + Ecma.MonthStart (Ecma.InLeapYear Y) k + d - 1).
  assert (W : t - Ecma.DayFromYear Y
              = Ecma.MonthStart (Ecma.InLeapYear Y) k + d - 1)
    by (unfold t; lia).
  assert (G : 0 <= Ecma.MonthStart (Ecma.InLeapYear Y) k + d - 1
              < 365 + Ecma.InLeapYear Y
              /\ (let w := Ecma.MonthStart (Ecma.InLeapYear Y) k + d - 1 in
                  let leap := Ecma.InLeapYear Y in
                  (if w <? 31 then 0
                   else if w <? 59 + leap then 1
                   else if w <? 90 + leap then 2
                   else if w <? 120 + leap then 3
                   else if w <? 151 + leap then 4
                   else if w <? 181 + leap then 5
                   else if w <? 212 + leap then 6
                   else if w <? 243 + leap then 7
                   else if w <? 273 + leap then 8
                   else if w <? 304 + leap then 9
                   else if w <? 334 + leap then 10
                   else 11) = k)).
  { clear W S t. revert Hd L. generalize (Ecma.InLeapYear Y). intros l Hd L.
    destruct (MonthStart_values l)
      as (M0 & M1 & M2 & M3 & M4 & M5 & M6 & M7 & M8 & M9 & M10 & M11).
    cbv zeta.
    assert (K : k = 0 \/ k = 1 \/ k = 2 \/ k = 3 \/ k = 4 \/ k = 5 \/ k = 6
                \/ k = 7 \/ k = 8 \/ k = 9 \/ k = 10 \/ k = 11) by lia.
    repeat match type of Hd with
           | context [Z.eqb ?a ?b] => destruct (Z.eqb_spec a b)
           end;
      cbn [orb] in Hd;
      destruct K as [-> | [-> | [-> | [-> | [-> | [-> | [-> | [-> | [-> |
                    [-> | [-> | ->]]]]]]]]]]]; try lia;
      rewrite ?M0, ?M1, ?M2, ?M3, ?M4, ?M5, ?M6, ?M7, ?M8, ?M9, ?M10, ?M11;
      (split; [lia | ]);
      repeat match goal with
             | |- context [if ?a <? ?b then _ else _] =>
                 destruct (Z.ltb_spec a b); try lia
             end. }
  destruct G as (B & G). cbv zeta in G.
  assert (Ey : Ecma.YearFromDay t = Y) by (apply YearFromDay_unique; lia).
  unfold formatDate, Ecma.DateFromDay, Ecma.MonthFromDay, Ecma.DayWithinYear.
  rewrite Ey, W. cbv zeta. rewrite G. f_equal. lia.
Qed.

(** X20: a day of the civil calendar, written as year (without sign),
    month and day, is parsed by [parseDate] into a date that [formatDate]
    prints with the same month and day and, from the year 100 on, as the
    same string; a year from 0 to 99 comes back as 1900 + year. *)
Theorem formatDate_undoes_parseDate (y m d : Z)
  (Hy : 0 <= y) (Hv : validDate (Ecma.FullYear y) m d) :
  parseDateString (renderDateStr (y, m, d)) = Some (makeDate y m d)
  /\ formatDate (makeDate y m d) = (Ecma.FullYear y, m, d)
  /\ (100 <= y ->
      formatDateString (makeDate y m d) = renderDateStr (y, m, d)).
Proof.
  assert (F : formatDate (makeDate y m d) = (Ecma.FullYear y, m, d)).
  { rewrite makeDate_full by apply Hv. now apply formatDate_makeDate_full. }
  destruct Hv as (Hm & Hd).
  assert (D : daysInMonth (Ecma.FullYear y) m <= 31).
  { unfold daysInMonth. pose proof (InLeapYear_range (Ecma.FullYear y)).
    destruct (m =? 2); [lia | ]. destruct (_ || _); lia. }
  split; [apply parseDateString_render; lia | split; [exact F | ]].
  intros H. unfold formatDateString. rewrite F, FullYear_id by lia.
  reflexivity.
Qed.

(** February 29, 2028. *)
Lemma formatDate_undoes_parseDate_witness :
  0 <= 2028
  /\ validDate (Ecma.FullYear 2028) 2 29
  /\ renderDateStr (2028, 2, 29) = "2028-02-29"%string
  /\ formatDateString (makeDate 2028 2 29) = "2028-02-29"%string.
Proof.
  assert (Hy : 0 <= 2028) by lia.
  assert (Hv : validDate (Ecma.FullYear 2028) 2 29)
    by (vm_compute; repeat split; discriminate).
  split; [exact Hy | split; [exact Hv | split; [reflexivity | ]]].
  destruct (formatDate_undoes_parseDate 2028 2 29 Hy Hv) as (_ & _ & R).
  rewrite (R ltac:(lia)). reflexivity.
Defined.

(** * The date route *)

Lemma isDigit_cases c :
  isDigit c = true ->
  forall u, exists u', uint_of_char c (Some u) = Some u'.
Proof.
  destruct c as [[ | ] [ | ] [ | ] [ | ] [ | ] [ | ] [ | ] [ | ]];
    cbn; intros H u; try discriminate H; eexists; reflexivity.
Qed.

Lemma Number_digits s :
  allChars isDigit s = true -> exists v, 0 <= v /\ Number s = Some v.
Proof.
  intros H.
  assert (U : exists u, NilEmpty.uint_of_string s = Some u).
  { induction s as [ | c s IH]; [now exists Decimal.Nil | ].
    cbn [allChars] in H. apply andb_true_iff in H as [Hc Hs].
    destruct (IH Hs) as (u & Eu). cbn [NilEmpty.uint_of_string].
    rewrite Eu. exact (isDigit_cases c Hc u). }
  destruct U as (u & Eu). destruct s as [ | c s].
  - exists 0. split; [lia | reflexivity].
  - exists (Z.of_uint u). split; [apply N2Z.is_nonneg | ].
    unfold Number. now rewrite Eu.
Qed.

Lemma four_digits y :
  1000 <= y <= 9999 ->
  exists c1 c2 c3 c4,
    num y = String c1 (String c2 (String c3 (String c4 EmptyString)))
    /\ isDigit c1 = true /\ isDigit c2 = true
    /\ isDigit c3 = true /\ isDigit c4 = true.
Proof.
  intros Hy.
  pose (P := fun r => match num (r + 1000) with
                      | String c1 (String c2 (String c3 (String c4 ""))) =>
                          isDigit c1 && isDigit c2 && isDigit c3
                          && isDigit c4
                      | _ => false
                      end).
  assert (C : P (y - 1000) = true).
  { apply (forallb_range P (Z.to_nat 9000)); [vm_compute; reflexivity | lia]. }
  unfold P in C. replace (y - 1000 + 1000) with y in C by lia.
  destruct (num y) as [ | c1 [ | c2 [ | c3 [ | c4 [ | ]]]]];
    try discriminate C.
  exists c1, c2, c3, c4.
  apply andb_true_iff in C as [C C4]. apply andb_true_iff in C as [C C3].
  apply andb_true_iff in C as [C1 C2]. tauto.
Qed.

Ltac use_digits :=
  cbn [allChars];
  repeat match goal with
         | D : isDigit ?c = true |- context [isDigit ?c] => rewrite D
         end;
  reflexivity.

Section DateRouteFacts.
Variable Enriched : Type.
Variable enrichEntry : CalendarEntry -> Z -> Enriched.
Variable dataSeason : string -> option string.

(** X21: [GET /api/v1/date/:date].  A string that fails the format test is
    answered with the error.  A string that passes it is always parsed into
    a date, the one [makeDate] builds from the numbers written in its three
    fields whether or not they name a day of the calendar, and is answered
    with what [resolveDate] returns for that date.  The string that
    [formatDate] prints for a date of the years 1000 to 9999 passes the test
    and is answered with the resolution of that same date. *)
Theorem dateRoute_answers :
  (forall date,
     isDateFormat date = false ->
     dateRoute Enriched enrichEntry dataSeason date
     = Some (RouteError "Invalid date format. Use YYYY-MM-DD."))
  /\ (forall date,
        isDateFormat date = true ->
        exists y m d,
          Number (substring 0 4 date) = Some y
          /\ Number (substring 5 2 date) = Some m
          /\ Number (substring 8 2 date) = Some d
          /\ 0 <= y /\ 0 <= m /\ 0 <= d
          /\ dateRoute Enriched enrichEntry dataSeason date
             = Some (RouteOk (resolveDate Enriched enrichEntry dataSeason
                                          (makeDate y m d))))
  /\ (forall d,
        1000 <= getUTCFullYear d <= 9999 ->
        isDateFormat (formatDateString d) = true
        /\ dateRoute Enriched enrichEntry dataSeason (formatDateString d)
           = Some (RouteOk (resolveDate Enriched enrichEntry dataSeason d))).
Proof.
  split; [ | split].
  - intros date H. unfold dateRoute. now rewrite H.
  - intros date H. unfold dateRoute, resolveDateText. rewrite H.
    cbn [negb].
    destruct date as [ | c1 [ | c2 [ | c3 [ | c4 [ | c5 [ | c6 [ | c7
                     [ | c8 [ | c9 [ | c10 [ | c11 rest]]]]]]]]]]];
      cbn [isDateFormat matchClasses] in H; unfold isDateFormat in H;
      cbn [matchClasses] in H;
      rewrite ?andb_false_r in H; try discriminate H.
    repeat match type of H with
           | (_ && _) = true => apply andb_true_iff in H as [? H]
           end.
    repeat match goal with
           | H : isHyphen _ = true |- _ => apply Ascii.eqb_eq in H; subst
           end.
    destruct (Number_digits (String c1 (String c2 (String c3 (String c4 "")))))
      as (y & Hy & Ny); [use_digits | ].
    destruct (Number_digits (String c6 (String c7 "")))
      as (m & Hm & Nm); [use_digits | ].
    destruct (Number_digits (String c9 (String c10 "")))
      as (d & Hd & Nd); [use_digits | ].
    exists y, m, d. cbn [substring].
    split; [exact Ny | split; [exact Nm | split; [exact Nd | ]]].
    split; [exact Hy | split; [exact Hm | split; [exact Hd | ]]].
    unfold parseDateString.
    change (String c1 (String c2 (String c3 (String c4 (String "-"
              (String c6 (String c7 (String "-"
                 (String c9 (String c10 ""))))))))))
      with ((String c1 (String c2 (String c3 (String c4 "")))
             ++ String "-" (String c6 (String c7 "")
                            ++ String "-" (String c9 (String c10 ""))))%string).
    rewrite splitOn_field by use_digits.
    rewrite splitOn_field by use_digits.
    rewrite splitOn_last by use_digits.
    cbn [map]. rewrite Ny, Nm, Nd. reflexivity.
  - intros d Hd.
    assert (F : isDateFormat (formatDateString d) = true).
    { unfold formatDateString, formatDate, renderDateStr.
      unfold getUTCFullYear in Hd.
      destruct (four_digits _ Hd)
        as (c1 & c2 & c3 & c4 & Ey & D1 & D2 & D3 & D4).
      pose proof (MonthFromDay_range d) as Rm.
      pose proof (DateFromDay_range d) as Rd.
      destruct (two_digits (Ecma.MonthFromDay d + 1) ltac:(lia))
        as (m1 & m2 & Em & Dm1 & Dm2 & _).
      destruct (two_digits (Ecma.DateFromDay d) ltac:(lia))
        as (d1 & d2 & Ed & Dd1 & Dd2 & _).
      rewrite Ey, Em, Ed. cbn [append]. unfold isDateFormat.
      cbn [matchClasses].
      rewrite D1, D2, D3, D4, Dm1, Dm2, Dd1, Dd2. reflexivity. }
    split; [exact F | ].
    unfold dateRoute, resolveDateText. rewrite F. cbn [negb].
    rewrite parseDateString_formatDateString by lia. reflexivity.
Qed.
End DateRouteFacts.

(** * [parseInt] and the calendar route *)

Lemma num_first_digit n :
  0 <= n -> exists c s, num n = String c s /\ isDigit c = true.
Proof.
  intros Hn. pose proof (num_digits n Hn) as A.
  destruct (num n) as [ | c s] eqn:E.
  - exfalso. destruct n as [ | p | p]; [discriminate E | | lia].
    unfold num in E. cbn [Z.to_int NilZero.string_of_int] in E.
    unfold NilZero.string_of_uint in E.
    pose proof (DecimalPos.Unsigned.to_uint_nonnil p) as N.
    destruct (Pos.to_uint p); first [contradiction | discriminate E].
  - exists c, s. cbn [allChars] in A. apply andb_true_iff in A as [A _].
    split; [reflexivity | exact A].
Qed.

Lemma isDigit_other c :
  isDigit c = true ->
  isWhiteSpace c = false /\ Ascii.eqb c "-" = false
  /\ Ascii.eqb c "+" = false /\ Ascii.eqb c "x" = false
  /\ Ascii.eqb c "X" = false.
Proof.
  destruct c as [[ | ] [ | ] [ | ] [ | ] [ | ] [ | ] [ | ] [ | ]];
    cbn; intros H; try discriminate H; repeat split.
Qed.

Lemma takeWhile_digits (p t : string) :
  allChars isDigit p = true ->
  t = EmptyString \/ (exists t', t = String "-" t') ->
  takeWhile isDigit (p ++ t)%string = p.
Proof.
  intros Hp Ht. induction p as [ | c p IH].
  - cbn [append]. destruct Ht as [-> | (t' & ->)]; reflexivity.
  - cbn [allChars] in Hp. apply andb_true_iff in Hp as [Hc Hp].
    cbn [append takeWhile]. rewrite Hc. now rewrite IH.
Qed.

(** [parseInt] reads back a number written without sign, also when a
    hyphen and more text follow. *)
Lemma parseInt_num n t :
  0 <= n ->
  t = EmptyString \/ (exists t', t = String "-" t') ->
  parseInt (num n ++ t)%string = Some n.
Proof.
  intros Hn Ht.
  pose proof (num_digits n Hn) as A.
  pose proof (takeWhile_digits (num n) t A Ht) as T.
  pose proof (Number_num n Hn) as V.
  destruct (num_first_digit n Hn) as (c & s & E & Dc).
  rewrite E in *. clear E.
  destruct (isDigit_other c Dc) as (W & Hm & Hp & _).
  unfold parseInt. cbv zeta. cbn [append] in T |- *. cbn [trimStart].
  rewrite W, Hm, Hp.
  assert (X : hasHexPrefix (String c (s ++ t)) = false).
  { cbn [hasHexPrefix]. destruct s as [ | c2 s].
    - cbn [append]. destruct Ht as [-> | (t' & ->)]; [reflexivity | ].
      apply andb_false_r.
    - cbn [append]. cbn [allChars] in A.
      apply andb_true_iff in A as [_ A]. apply andb_true_iff in A as [A _].
      destruct (isDigit_other c2 A) as (_ & _ & _ & Hx & HX).
      rewrite Hx, HX. apply andb_false_r. }
  rewrite X. unfold decimalMagnitude. rewrite T, V.
  cbn [option_map]. f_equal. lia.
Qed.

(** X22: [GET /api/v1/year/:year/calendar] answers with a calendar only
    for a year from 1900 to 2100, in the sense of [parseInt]; for such a
    year written in decimal digits it answers with the calendar of the
    church year that starts in that year: its year cycle is
    (year mod 3) + 1, its lines are the generated entries in their order,
    each with the string of its date, and its first line is the first Advent
    Sunday of the year. *)
Theorem calendarRoute_answers :
  (forall year,
     match calendarRoute year with
     | RouteOk calendar =>
         exists Y, parseInt year = Some Y /\ 1900 <= Y <= 2100
                   /\ calendar = getChurchYearCalendar Y
     | RouteError _ =>
         forall Y, parseInt year = Some Y -> Y < 1900 \/ 2100 < Y
     end)
  /\ (forall Y,
        1900 <= Y <= 2100 ->
        calendarRoute (num Y) = RouteOk (getChurchYearCalendar Y)
        /\ start (cal_churchYear (getChurchYearCalendar Y)) = Y
        /\ yearCycle (cal_churchYear (getChurchYearCalendar Y)) = Y mod 3 + 1
        /\ map (fun l => (line_date l, line_slug l, line_name l, line_type l))
               (cal_entries (getChurchYearCalendar Y))
           = map (fun e => (formatDate (date e), slug e, name e, type e))
                 (generateChurchYear Y)
        /\ hd_error (cal_entries (getChurchYearCalendar Y))
           = Some (mkCalendarLine
                     (formatDate (nearestSunday (makeDate Y 11 30)))
                     "1-adventtisunnuntai" "1. adventtisunnuntai" sunday)).
Proof.
  split.
  - intros year. unfold calendarRoute.
    destruct (parseInt year) as [y | ]; [ | intros Y E; discriminate E].
    destruct (Z.ltb_spec y 1900), (Z.ltb_spec 2100 y); cbn [orb].
    + intros Y E. injection E as <-. lia.
    + intros Y E. injection E as <-. lia.
    + intros Y E. injection E as <-. lia.
    + exists y. split; [reflexivity | split; [lia | reflexivity]].
  - intros Y HY. split; [ | split; [reflexivity | split; [ | split]]].
    + unfold calendarRoute.
      pose proof (parseInt_num Y EmptyString ltac:(lia) ltac:(now left)) as P.
      assert (E : (num Y ++ "")%string = num Y).
      { generalize (num Y). intros s.
        induction s as [ | c s IH]; cbn [append]; [reflexivity | now rewrite IH]. }
      rewrite E in P. rewrite P.
      destruct (Z.ltb_spec Y 1900), (Z.ltb_spec 2100 Y); cbn [orb];
        [lia | lia | lia | reflexivity].
    + unfold getChurchYearCalendar. cbv zeta. cbn [cal_churchYear yearCycle].
      unfold getYearCycle. rewrite Z.rem_mod_nonneg by lia. reflexivity.
    + unfold getChurchYearCalendar, getCalendar. cbv zeta.
      cbn [cal_entries]. rewrite map_map. apply map_ext_in.
      intros e He. cbn [line_date line_slug line_name line_type].
      rewrite (generated_dateStr Y e); [reflexivity | ].
      exact (proj1 (generateChurchYear_In Y e) He).
    + unfold getChurchYearCalendar, getCalendar. cbv zeta.
      cbn [cal_entries].
      destruct (generateChurchYear_head Y ltac:(lia)) as (Hh & _).
      destruct (generateChurchYear Y) as [ | e l]; [discriminate Hh | ].
      cbn [hd_error] in Hh. injection Hh as ->. reflexivity.
Qed.

(** * Season keys of the numbered Sundays *)

Lemma eqb_append_other (p t c : string) :
  endsWith c t = false -> String.eqb (p ++ t)%string c = false.
Proof.
  intros H. apply String.eqb_neq. intros E. subst c.
  rewrite endsWith_append in H by reflexivity.
  now rewrite String.eqb_refl in H.
Qed.

Lemma eqb_num_append (n k : Z) (t : string) :
  0 <= n -> 0 <= k ->
  String.eqb (num n ++ t)%string (num k ++ t)%string = (n =? k).
Proof.
  intros Hn Hk. destruct (Z.eqb_spec n k) as [-> | N].
  - apply String.eqb_refl.
  - apply String.eqb_neq. intros E.
    apply append_inj_suffix in E as [E _]; [ | reflexivity].
    apply N, num_inj; assumption.
Qed.

Lemma prefix_digit (c0 c : ascii) (pat s : string) :
  isDigit c0 = false -> isDigit c = true ->
  String.prefix (String c0 pat) (String c s) = false.
Proof.
  intros H0 Hc. cbn [String.prefix].
  destruct (ascii_dec c0 c) as [-> | _]; [congruence | reflexivity].
Qed.

Lemma includes_digits (p t : string) (c0 : ascii) (pat : string) :
  isDigit c0 = false -> allChars isDigit p = true ->
  includes (p ++ t)%string (String c0 pat) = includes t (String c0 pat).
Proof.
  intros H0 Hp. induction p as [ | c p IH]; [reflexivity | ].
  cbn [allChars] in Hp. apply andb_true_iff in Hp as [Hc Hp].
  rewrite append_String. cbn [includes].
  rewrite (prefix_digit c0 c pat _ H0 Hc). cbn [orb]. exact (IH Hp).
Qed.

Lemma matchesDigitThen_digits (p t : string) (c0 : ascii) (text : string) :
  isDigit c0 = false -> allChars isDigit p = true -> p <> EmptyString ->
  matchesDigitThen (String c0 text) (p ++ t)%string
  = String.prefix (String c0 text) t
    || matchesDigitThen (String c0 text) t.
Proof.
  intros H0 Hp Np. induction p as [ | c p IH]; [congruence | ].
  cbn [allChars] in Hp. apply andb_true_iff in Hp as [Hc Hp].
  rewrite append_String. cbn [matchesDigitThen]. rewrite Hc. cbn [andb].
  destruct p as [ | c' p].
  - reflexivity.
  - rewrite append_String.
    cbn [allChars] in Hp. pose proof Hp as Hp'.
    apply andb_true_iff in Hp' as [Hc' _].
    rewrite (prefix_digit c0 c' text _ H0 Hc'). cbn [orb].
    rewrite <- append_String. apply IH; [exact Hp | discriminate].
Qed.

Lemma num_nonempty n : 0 <= n -> num n <> EmptyString.
Proof.
  intros Hn. destruct (num_first_digit n Hn) as (c & s & E & _).
  rewrite E. discriminate.
Qed.

(** Evaluation of [getSeasonKeys] on a number followed by a text. *)
Ltac season_keys n Hn :=
  unfold getSeasonKeys; cbv zeta;
  rewrite ?(parseInt_num n _ Hn) by (right; eexists; reflexivity);
  repeat match goal with
         | |- context [includes (num n ++ ?t)%string (String ?c0 ?pat)] =>
             rewrite (includes_digits (num n) t c0 pat eq_refl
                        (num_digits n Hn))
         | |- context [matchesDigitThen (String ?c0 ?text)
                         (num n ++ ?t)%string] =>
             rewrite (matchesDigitThen_digits (num n) t c0 text eq_refl
                        (num_digits n Hn) (num_nonempty n Hn))
         | |- context [String.eqb (num n ++ ?t)%string ?c] =>
             rewrite (eqb_append_other (num n) t c) by reflexivity
         end.

Lemma getSeasonKeys_lent n :
  0 <= n ->
  getSeasonKeys (num n ++ "-paastonajan-sunnuntai")
  = "paastonaika" :: (if 5 <=? n then ["karsimysaika"] else []).
Proof.
  intros Hn. season_keys n Hn. destruct (5 <=? n); reflexivity.
Qed.

Lemma getSeasonKeys_easter n :
  0 <= n ->
  getSeasonKeys (num n ++ "-sunnuntai-paasiaisesta")
  = "paasiaisaika"
    :: (if n =? 6 then ["helatorstai-helluntaiaatto"] else []).
Proof.
  intros Hn. season_keys n Hn.
  change "6-sunnuntai-paasiaisesta"
    with (num 6 ++ "-sunnuntai-paasiaisesta")%string.
  rewrite eqb_num_append by lia. destruct (n =? 6); reflexivity.
Qed.

Lemma getSeasonKeys_advent n :
  0 <= n ->
  getSeasonKeys (num n ++ "-adventtisunnuntai")
  = if n =? 1 then ["1-adventtisunnuntai"; "adventtiaika"]
    else ["adventtiaika"].
Proof.
  intros Hn. season_keys n Hn.
  change "1-adventtisunnuntai" with (num 1 ++ "-adventtisunnuntai")%string.
  rewrite eqb_num_append by lia. destruct (n =? 1); reflexivity.
Qed.

Lemma getSeasonKeys_epiphany n :
  0 <= n ->
  getSeasonKeys (num n ++ "-sunnuntai-loppiaisesta")
  = ["loppiaisaika"; "paastonaikaa-edeltavat"].
Proof. intros Hn. season_keys n Hn. reflexivity. Qed.

Lemma getSeasonKeys_christmas n :
  0 <= n ->
  getSeasonKeys (num n ++ "-sunnuntai-joulusta") = ["jouluaika"].
Proof. intros Hn. season_keys n Hn. reflexivity. Qed.

Lemma getSeasonKeys_pentecost n :
  0 <= n -> getSeasonKeys (num n ++ "-sunnuntai-helluntaista") = [].
Proof. intros Hn. season_keys n Hn. reflexivity. Qed.

(** X23: the season keys of the numbered Sundays, for every number
    N >= 0 written in decimal digits.  "N-paastonajan-sunnuntai" has the
    key "paastonaika", followed by "karsimysaika" from N = 5 on;
    "N-sunnuntai-paasiaisesta" has "paasiaisaika", followed by
    "helatorstai-helluntaiaatto" for N = 6; "N-adventtisunnuntai" has
    "adventtiaika", preceded by "1-adventtisunnuntai" for N = 1; the Sundays
    after Epiphany and after Christmas have the keys of their seasons, and
    "N-sunnuntai-helluntaista" has no key. *)
Theorem getSeasonKeys_numbered_sundays (n : Z) (H : 0 <= n) :
  getSeasonKeys (num n ++ "-paastonajan-sunnuntai")
  = "paastonaika" :: (if 5 <=? n then ["karsimysaika"] else [])
  /\ getSeasonKeys (num n ++ "-sunnuntai-paasiaisesta")
     = "paasiaisaika"
       :: (if n =? 6 then ["helatorstai-helluntaiaatto"] else [])
  /\ getSeasonKeys (num n ++ "-adventtisunnuntai")
     = (if n =? 1 then ["1-adventtisunnuntai"; "adventtiaika"]
        else ["adventtiaika"])
  /\ getSeasonKeys (num n ++ "-sunnuntai-loppiaisesta")
     = ["loppiaisaika"; "paastonaikaa-edeltavat"]
  /\ getSeasonKeys (num n ++ "-sunnuntai-joulusta") = ["jouluaika"]
  /\ getSeasonKeys (num n ++ "-sunnuntai-helluntaista") = [].
Proof.
  repeat split.
  - exact (getSeasonKeys_lent n H).
  - exact (getSeasonKeys_easter n H).
  - exact (getSeasonKeys_advent n H).
  - exact (getSeasonKeys_epiphany n H).
  - exact (getSeasonKeys_christmas n H).
  - exact (getSeasonKeys_pentecost n H).
Qed.

(** The fifth Sunday in Lent has the keys of Lent and of Passiontide. *)
Lemma getSeasonKeys_numbered_sundays_witness :
  0 <= 5
  /\ getSeasonKeys "5-paastonajan-sunnuntai"
     = ["paastonaika"; "karsimysaika"].
Proof.
  split; [lia | ].
  exact (proj1 (getSeasonKeys_numbered_sundays 5 ltac:(lia))).
Defined.

(** * The keys are a set *)

Lemma unique_spec (keys seen : list string) :
  NoDup (unique seen keys)
  /\ forall key, In key (unique seen keys)
                 <-> In key keys /\ ~ In key seen.
Proof.
  revert seen. induction keys as [ | k keys IH]; intros seen.
  - split; [constructor | ]. cbn. tauto.
  - cbn [unique].
    destruct (existsb (String.eqb k) seen) eqn:E.
    + apply existsb_exists in E as (x & Hx & Ex).
      apply String.eqb_eq in Ex. subst x.
      destruct (IH seen) as (N & M). split; [exact N | ].
      intros key. rewrite M. cbn [In]. split.
      * intros [A B]. split; [now right | exact B].
      * intros [[-> | A] B]; [contradiction | split; assumption].
    + assert (Hk : ~ In k seen).
      { intros A. apply not_true_iff_false in E. apply E.
        apply existsb_exists. exists k.
        split; [exact A | apply String.eqb_refl]. }
      destruct (IH (k :: seen)) as (N & M). split.
      * constructor; [ | exact N]. rewrite M. cbn [In]. tauto.
      * intros key. cbn [In]. rewrite M. cbn [In].
        destruct (string_dec k key) as [-> | D]; [tauto | ]. tauto.
Qed.

Lemma incl_pushIf (test : bool) (keys all : list string) :
  incl keys all -> incl (pushIf test keys) all.
Proof. intros H. destruct test; [exact H | intros k []]. Qed.

Lemma incl_names (keys : list string) :
  forallb (fun k => existsb (String.eqb k) seasonKeyNames) keys = true ->
  incl keys seasonKeyNames.
Proof.
  intros H k Hk. rewrite forallb_forall in H. specialize (H k Hk).
  apply existsb_exists in H as (x & Hx & E).
  apply String.eqb_eq in E. now subst x.
Qed.

(** X24: whatever the slug, [getSeasonKeys] returns each key once, and
    only keys out of the twenty-four that its [keys.push] calls name. *)
Theorem getSeasonKeys_set (slug : string) :
  NoDup (getSeasonKeys slug)
  /\ incl (getSeasonKeys slug) seasonKeyNames.
Proof.
  split; [apply unique_spec | ].
  intros key Hk. apply unique_spec in Hk as [Hk _]. revert key Hk.
  repeat first
    [ apply incl_app
    | apply incl_pushIf
    | apply incl_names; reflexivity ].
  destruct (match parseInt slug with Some n => 5 <=? n | None => false end);
    apply incl_names; reflexivity.
Qed.

(** * Prefaces and Kyrie litanies *)

Section PropersFacts.
Variable Prefaatio : Type.
Variable appliesTo : Prefaatio -> list string.
Variable prefaatiot : list Prefaatio.
Variable KyrieLitania : Type.
Variable litaniaSlug : KyrieLitania -> string.
Variable kyrieLitaniat : list KyrieLitania.

Lemma getPrefaatio_no_keys (slug : string) :
  getSeasonKeys slug = [] ->
  getPrefaatio Prefaatio appliesTo prefaatiot slug = None.
Proof.
  intros E. unfold getPrefaatio. cbv zeta. rewrite E.
  induction prefaatiot as [ | p l IH]; [reflexivity | ].
  cbn [find].
  assert (F : existsb (fun a => existsb (String.eqb a) []) (appliesTo p)
              = false).
  { induction (appliesTo p) as [ | a l' IH']; [reflexivity | exact IH']. }
  rewrite F. exact IH.
Qed.

(** X25: the propers of the numbered Sundays, whatever [propers.json]
    holds, for every number N >= 0.  A Sunday after Pentecost has neither
    preface nor Kyrie litany, and a Sunday after Epiphany has no Kyrie
    litany.  The litany of "N-paastonajan-sunnuntai" is the first one with
    the slug "paastonaika"; only when there is none, and N >= 5, it is the
    first one with the slug "karsimysaika".  The litany of
    "N-sunnuntai-paasiaisesta" is the first one with the slug
    "paasiainen-paasiaisaika"; only when there is none, and N = 6, it is
    the first one with the slug "helatorstai-helluntaiaatto". *)
Theorem propers_of_numbered_sundays (n : Z) (H : 0 <= n) :
  getPrefaatio Prefaatio appliesTo prefaatiot
    (num n ++ "-sunnuntai-helluntaista") = None
  /\ getKyrieLitania KyrieLitania litaniaSlug kyrieLitaniat
       (num n ++ "-sunnuntai-helluntaista") = None
  /\ getKyrieLitania KyrieLitania litaniaSlug kyrieLitaniat
       (num n ++ "-sunnuntai-loppiaisesta") = None
  /\ getKyrieLitania KyrieLitania litaniaSlug kyrieLitaniat
       (num n ++ "-paastonajan-sunnuntai")
     = match findLitania KyrieLitania litaniaSlug kyrieLitaniat
               "paastonaika" with
       | Some litania => Some litania
       | None =>
           if 5 <=? n
           then findLitania KyrieLitania litaniaSlug kyrieLitaniat
                  "karsimysaika"
           else None
       end
  /\ getKyrieLitania KyrieLitania litaniaSlug kyrieLitaniat
       (num n ++ "-sunnuntai-paasiaisesta")
     = match findLitania KyrieLitania litaniaSlug kyrieLitaniat
               "paasiainen-paasiaisaika" with
       | Some litania => Some litania
       | None =>
           if n =? 6
           then findLitania KyrieLitania litaniaSlug kyrieLitaniat
                  "helatorstai-helluntaiaatto"
           else None
       end.
Proof.
  unfold getKyrieLitania.
  rewrite (getSeasonKeys_lent n H), (getSeasonKeys_easter n H),
    (getSeasonKeys_epiphany n H), (getSeasonKeys_pentecost n H).
  split; [apply getPrefaatio_no_keys, (getSeasonKeys_pentecost n H) | ].
  split; [reflexivity | split; [reflexivity | split]].
  - destruct (5 <=? n); cbn [firstLitania];
      change (kyrieMapping "paastonaika") with (Some "paastonaika");
      change (kyrieMapping "karsimysaika") with (Some "karsimysaika");
      cbv iota beta;
      destruct (findLitania _ _ _ "paastonaika"); try reflexivity;
      destruct (findLitania _ _ _ "karsimysaika"); reflexivity.
  - destruct (n =? 6); cbn [firstLitania];
      change (kyrieMapping "paasiaisaika")
        with (Some "paasiainen-paasiaisaika");
      change (kyrieMapping "helatorstai-helluntaiaatto")
        with (Some "helatorstai-helluntaiaatto");
      cbv iota beta;
      destruct (findLitania _ _ _ "paasiainen-paasiaisaika");
      try reflexivity;
      destruct (findLitania _ _ _ "helatorstai-helluntaiaatto");
      reflexivity.
Qed.

(** X26: [getPrefaatio] returns the first preface of the data one of whose
    [appliesTo] keys is a season key of the slug, and null exactly when no
    preface has such a key. *)
Theorem getPrefaatio_first_applicable (slug : string) :
  match getPrefaatio Prefaatio appliesTo prefaatiot slug with
  | Some prefaatio =>
      exists before after,
        prefaatiot = before ++ prefaatio :: after
        /\ (exists key, In key (appliesTo prefaatio)
                        /\ In key (getSeasonKeys slug))
        /\ forall other key,
             In other before -> In key (appliesTo other) ->
             ~ In key (getSeasonKeys slug)
  | None =>
      forall other key,
        In other prefaatiot -> In key (appliesTo other) ->
        ~ In key (getSeasonKeys slug)
  end.
Proof.
  unfold getPrefaatio. cbv zeta.
  generalize (getSeasonKeys slug). intros keys.
  assert (A : forall p,
             existsb (fun a => existsb (String.eqb a) keys) (appliesTo p)
             = true
             <-> exists key, In key (appliesTo p) /\ In key keys).
  { intros p. rewrite existsb_exists. split.
    - intros (a & Ha & E). apply existsb_exists in E as (k & Hk & E).
      apply String.eqb_eq in E. subst k. now exists a.
    - intros (a & Ha & Hk). exists a. split; [exact Ha | ].
      apply existsb_exists. exists a.
      split; [exact Hk | apply String.eqb_refl]. }
  induction prefaatiot as [ | p l IH]; cbn [find].
  - intros other key [].
  - destruct (existsb _ (appliesTo p)) eqn:E.
    + exists [], l. split; [reflexivity | split].
      * now apply A.
      * intros other key [].
    + assert (N : forall key, In key (appliesTo p) -> ~ In key keys).
      { intros key Hk Hi. apply not_true_iff_false in E. apply E, A.
        now exists key. }
      destruct (find _ l) as [q | ].
      * destruct IH as (before & after & -> & Hq & Hb).
        exists (p :: before), after. split; [reflexivity | split].
        -- exact Hq.
        -- intros other key [<- | Ho]; [apply N | now apply Hb].
      * intros other key [<- | Ho]; [apply N | now apply IH].
Qed.

End PropersFacts.

(** With a Passiontide litany alone in the data, the fifth Sunday in Lent
    gets it. *)
Lemma propers_of_numbered_sundays_witness :
  0 <= 5
  /\ getKyrieLitania string (fun k => k) ["karsimysaika"]
       "5-paastonajan-sunnuntai"
     = Some "karsimysaika".
Proof.
  split; [lia | ].
  destruct (propers_of_numbered_sundays (list string) (fun p => p)
              [["paastonaika"]] string (fun k => k) ["karsimysaika"] 5
              ltac:(lia))
    as (_ & _ & _ & E & _).
  exact E.
Defined.
